(** * d'sis Catering: booking and receipt workflow

    A shallow embedding of the two backends of the catering application:

    - [Simple]: [backend/server.js], the JSON-file server.  Every handler
      reads whole files, works on the arrays and writes a file back.
    - [Sql]: the routers under [backend/routes], which talk to an SQLite
      database through [db.get], [db.all] and [db.run]: bookings
      ([routes/bookings.js]), auth ([unnamed/part_000]), menu and receipts
      ([unnamed/part_001], lines 1-243 and 244-518).
    - [Client]: the receipt numbering of the browser-side [ReceiptSystem]
      ([receipt.js]).

    JavaScript numbers are modelled as exact rationals ([Qc]); strings as
    [string]; objects whose set of keys matters as [gmap string _].
    IEEE-754 rounding is outside the model. *)

From stdpp Require Import gmap strings list pretty.
From Stdlib Require Import Ascii QArith Qcanon.

Open Scope Z_scope.

(** ** JavaScript values and helpers *)

Inductive jsval : Type :=
| JNull
| JBool (b : bool)
| JNum (n : Qc)
| JStr (s : string).

#[global] Instance jsval_eq_dec : EqDecision jsval.
Proof. solve_decision. Defined.

(** An object with scalar fields: key -> value.  A key that is not in the
    map is a property the object does not have. *)
Abbreviation jsobj := (gmap string jsval).

(** An integer seen as a JavaScript number. *)
Definition num (z : Z) : Qc := Q2Qc (inject_Z z).

(** Outcome of a request handler. *)
Inductive reply (A : Type) : Type :=
| Sent (code : Z) (payload : A)      (* res.status(code).json({..., payload}) *)
| Failed (code : Z) (error : string) (* res.status(code).json({ error }) *)
| Rejected                           (* res.status(400).json({ errors: errors.array() }) *)
| Threw.                             (* uncaught exception; Express answers 500 *)
Arguments Sent {A} code payload.
Arguments Failed {A} code error.
Arguments Rejected {A}.
Arguments Threw {A}.

Definition status {A} (r : reply A) : Z :=
  match r with
  | Sent c _ => c
  | Failed c _ => c
  | Rejected => 400
  | Threw => 500
  end.

Definition payload {A} (r : reply A) : option A :=
  match r with
  | Sent _ p => Some p
  | _ => None
  end.

(** [!x] for an optional string: undefined and the empty string are falsy. *)
Definition falsy (o : option string) : bool :=
  match o with
  | None => true
  | Some s => bool_decide (s = "")
  end.

(** [s.split(c)[0]]: the part of [s] before the first [c]. *)
Fixpoint before_char (c : Ascii.ascii) (s : string) : string :=
  match s with
  | EmptyString => EmptyString
  | String a rest => if bool_decide (a = c) then EmptyString else String a (before_char c rest)
  end.

(** [s.padStart(n, c)] for a one-character pad. *)
Definition padStart (n : nat) (c : Ascii.ascii) (s : string) : string :=
  Nat.iter (n - String.length s) (String c) s.

(** [s.slice(-k)]: the last [k] characters (all of [s] when it is shorter). *)
Definition slice_last (k : nat) (s : string) : string :=
  String.substring (String.length s - k) k s.

(** [s.substring(1)]. *)
Definition drop_first (s : string) : string :=
  match s with
  | EmptyString => EmptyString
  | String _ rest => rest
  end.

Definition digit_of (a : Ascii.ascii) : option Z :=
  let n := Z.of_N (Ascii.N_of_ascii a) in
  if (48 <=? n) && (n <=? 57) then Some (n - 48) else None.

Fixpoint parse_digits (acc : option Z) (s : string) : option Z :=
  match s with
  | EmptyString => acc
  | String a rest =>
      match digit_of a with
      | Some d => parse_digits (Some (10 * default 0 acc + d)) rest
      | None => acc
      end
  end.

(** [parseInt(s)] on an unsigned decimal prefix; [None] is NaN. *)
Definition parseInt (s : string) : option Z := parse_digits None s.

(** The wall clock as a handler sees it: [Date.now()] and
    [new Date().toISOString()]. *)
Record clock : Type := { now : Z; iso : string }.

(** One requested line: [{ itemId, quantity }]. *)
Record line_req : Type := { itemId : Z; quantity : Z }.


(** 12% VAT, the literal [0.12]. *)
Definition vat : Qc := Q2Qc (12 # 100).

(** Truthiness of a property read off an object; a missing key reads as
    [undefined]. *)
Definition truthy (v : option jsval) : bool :=
  match v with
  | None => false
  | Some JNull => false
  | Some (JBool b) => b
  | Some (JNum n) => negb (bool_decide (n = 0%Qc))
  | Some (JStr s) => negb (bool_decide (s = ""))
  end.

(** [const x = l.find(p); x.field = ...]: the first element that passes
    [p] is changed in place, the others stay. *)
Fixpoint update_first {A} (p : A → bool) (g : A → A) (l : list A) : list A :=
  match l with
  | [] => []
  | x :: rest => if p x then g x :: rest else x :: update_first p g rest
  end.

(** [[...new Set(l)]]: every value once, in the order of first occurrence. *)
Fixpoint unique_from {A} `{EqDecision A} (seen : list A) (l : list A) : list A :=
  match l with
  | [] => []
  | x :: rest =>
      if bool_decide (x ∈ seen) then unique_from seen rest
      else x :: unique_from (x :: seen) rest
  end.

Definition unique {A} `{EqDecision A} (l : list A) : list A := unique_from [] l.

(** [l.slice(-k)] on an array. *)
Definition last_k {A} (k : nat) (l : list A) : list A := drop (length l - k) l.

(** [writeData] for a handler that works on the array of one file: the
    file holds [data] afterwards only when the write went through. *)
Definition write_file {A} (ok : bool) (data old : A) : bool * A :=
  if ok then (true, data) else (false, old).

(** ** The JSON-file server ([backend/server.js]) *)

Module Simple.

Record MenuItem : Type := {
  m_id : Z;
  itemName : string;
  description : string;
  category : string;
  pricePerServing : Qc;
  imageUrl : string;
  isAvailable : bool
}.

Record BookingItem : Type := {
  bi_itemId : Z;
  bi_itemName : string;
  bi_quantity : Z;
  unitPrice : Qc;
  totalPrice : Qc
}.

Record Booking : Type := {
  b_id : Z;
  bookingId : string;
  b_customerName : string;
  b_customerEmail : string;
  b_customerPhone : string;
  b_eventType : string;
  b_eventDate : string;
  b_eventVenue : string;
  b_numGuests : Z;
  b_specialInstructions : string;
  bookingStatus : string;
  totalAmount : Qc;
  items : list BookingItem;
  b_createdAt : string
}.

#[global] Instance BookingItem_eq_dec : EqDecision BookingItem.
Proof. solve_decision. Defined.

#[global] Instance Booking_eq_dec : EqDecision Booking.
Proof. solve_decision. Defined.

Record Receipt : Type := {
  r_id : Z;
  receiptId : string;
  receiptNumber : string;
  r_bookingId : string;
  r_customerName : string;
  r_customerEmail : string;
  r_customerPhone : string;
  r_eventType : string;
  r_eventDate : string;
  r_eventVenue : string;
  r_numGuests : Z;
  r_items : list BookingItem;
  subtotal : Qc;
  taxRate : Qc;
  taxAmount : Qc;
  r_totalAmount : Qc;
  paymentMethod : string;
  paymentStatus : string;
  issuedDate : string;
  r_createdAt : string
}.

(** The data directory: one array per file. [readData] of a missing file
    is the empty array. *)
Record files : Type := {
  users_json : list jsobj;
  menu_json : list MenuItem;
  bookings_json : list Booking;
  receipts_json : list Receipt
}.

Definition set_users (us : list jsobj) (fs : files) : files :=
  {| users_json := us; menu_json := menu_json fs;
     bookings_json := bookings_json fs; receipts_json := receipts_json fs |}.
Definition set_bookings (bs : list Booking) (fs : files) : files :=
  {| users_json := users_json fs; menu_json := menu_json fs;
     bookings_json := bs; receipts_json := receipts_json fs |}.
Definition set_receipts (rs : list Receipt) (fs : files) : files :=
  {| users_json := users_json fs; menu_json := menu_json fs;
     bookings_json := bookings_json fs; receipts_json := rs |}.

(** [writeData(filename, data)]: [ok] tells whether [fs.writeFileSync]
    went through; the function returns that flag and the file is
    replaced only then. *)
Definition writeData (ok : bool) (upd : files → files) (fs : files) : bool * files :=
  if ok then (true, upd fs) else (false, fs).

(** *** POST /api/auth/login (server.js, lines 172-193) *)

Record login_body : Type := { l_email : option string; l_password : option string }.

Definition credentials_match (email password : string) (u : jsobj) : bool :=
  bool_decide (u !! "email" = Some (JStr email))
  && bool_decide (u !! "password" = Some (JStr password)).

Definition login (fs : files) (body : login_body) : reply jsobj :=
  if falsy (l_email body) || falsy (l_password body) then
    Failed 400 "Email and password are required"
  else
    let email := default "" (l_email body) in
    let password := default "" (l_password body) in
    match find (credentials_match email password) (users_json fs) with
    | None => Failed 401 "Invalid email or password"
    | Some user => Sent 200 (delete "password" user)
    end.

(** *** POST /api/auth/register (server.js, lines 196-245) *)

Record register_body : Type := {
  firstName : option string;
  lastName : option string;
  email : option string;
  mobileNumber : option string;
  password : option string;
  repeatPassword : option string
}.

Definition has_email (email : string) (u : jsobj) : bool :=
  bool_decide (u !! "email" = Some (JStr email)).

Definition newUser (clk : clock) (users : list jsobj) (body : register_body) : jsobj :=
  let email := default "" (email body) in
  let mobile := if falsy (mobileNumber body) then "" else default "" (mobileNumber body) in
  <["id" := JNum (num (Z.of_nat (length users) + 1))]>
  (<["username" := JStr (before_char "@"%char email)]>
  (<["email" := JStr email]>
  (<["password" := JStr (default "" (password body))]>
  (<["firstName" := JStr (default "" (firstName body))]>
  (<["lastName" := JStr (default "" (lastName body))]>
  (<["phoneNumber" := JStr mobile]>
  (<["userType" := JStr "customer"]>
  (<["createdAt" := JStr (iso clk)]> ∅)))))))).

Definition register (write_ok : bool) (clk : clock) (fs : files) (body : register_body)
  : reply jsobj * files :=
  if falsy (firstName body) || falsy (lastName body) || falsy (email body)
     || falsy (password body) || falsy (repeatPassword body) then
    (Failed 400 "All fields are required", fs)
  else if negb (bool_decide (password body = repeatPassword body)) then
    (Failed 400 "Passwords do not match", fs)
  else if (String.length (default "" (password body)) <? 6)%nat then
    (Failed 400 "Password must be at least 6 characters long", fs)
  else
    let users := users_json fs in
    match find (has_email (default "" (email body))) users with
    | Some _ => (Failed 409 "User with this email already exists", fs)
    | None =>
        let user := newUser clk users body in
        match writeData write_ok (set_users (users ++ [user])) fs with
        | (false, fs') => (Failed 500 "Failed to save user data", fs')
        | (true, fs') => (Sent 201 (delete "password" user), fs')
        end
    end.

(** *** GET /api/bookings/:id (server.js, lines 472-481)

    The handler reads nothing of the request but [req.params.id]; the
    server has no authentication layer. *)
Definition getBooking (fs : files) (id : Z) : reply Booking :=
  match find (λ b, bool_decide (b_id b = id)) (bookings_json fs) with
  | None => Failed 404 "Booking not found"
  | Some booking => Sent 200 booking
  end.

(** *** POST /api/bookings (server.js, lines 483-544) *)

Record booking_body : Type := {
  eventType : option string;
  eventDate : option string;
  eventVenue : option string;
  numGuests : option Z;
  specialInstructions : option string;
  menuItems : option (list line_req);
  customerName : option string;
  customerEmail : option string;
  customerPhone : option string
}.

(** [b.eventDate === eventDate && b.bookingStatus !== 'cancelled'] *)
Definition occupies (eventDate : string) (b : Booking) : bool :=
  bool_decide (b_eventDate b = eventDate)
  && negb (bool_decide (bookingStatus b = "cancelled")).

(** The [menuItems.map(...)] callback with its running [totalAmount].
    [None] stands for the TypeError of reading [pricePerServing] of
    [undefined] when [menuData.find] has no match. *)
Fixpoint price_lines (menuData : list MenuItem) (ls : list line_req) (total : Qc)
  : option (Qc * list BookingItem) :=
  match ls with
  | [] => Some (total, [])
  | item :: rest =>
      match find (λ m, bool_decide (m_id m = itemId item)) menuData with
      | None => None
      | Some menuItem =>
          let itemTotal := (pricePerServing menuItem * num (quantity item))%Qc in
          match price_lines menuData rest (total + itemTotal)%Qc with
          | None => None
          | Some (total', lines) =>
              Some (total',
                    {| bi_itemId := itemId item;
                       bi_itemName := itemName menuItem;
                       bi_quantity := quantity item;
                       unitPrice := pricePerServing menuItem;
                       totalPrice := itemTotal |} :: lines)
          end
      end
  end.

Definition missing_required (body : booking_body) : bool :=
  falsy (eventType body) || falsy (eventDate body) || falsy (eventVenue body)
  || bool_decide (numGuests body = None) || bool_decide (numGuests body = Some 0)
  || bool_decide (menuItems body = None)
  || falsy (customerName body) || falsy (customerEmail body).

Definition createBooking (write_ok : bool) (clk : clock) (fs : files) (body : booking_body)
  : reply Booking * files :=
  if missing_required body then
    (Failed 400 "Missing required fields (eventType, eventDate, eventVenue, numGuests, menuItems, customerName, customerEmail)", fs)
  else
    let bookings := bookings_json fs in
    let menuData := menu_json fs in
    let date := default "" (eventDate body) in
    if existsb (occupies date) bookings then
      (Failed 409 "Sorry, this date is already booked. Please choose another date.", fs)
    else
      match price_lines menuData (default [] (menuItems body)) (num 0) with
      | None => (Threw, fs)
      | Some (total, bookingItems) =>
          let newBooking :=
            {| b_id := Z.of_nat (length bookings) + 1;
               bookingId := "BK-" +:+ pretty (now clk);
               b_customerName := default "" (customerName body);
               b_customerEmail := default "" (customerEmail body);
               b_customerPhone := if falsy (customerPhone body) then ""
                                  else default "" (customerPhone body);
               b_eventType := default "" (eventType body);
               b_eventDate := date;
               b_eventVenue := default "" (eventVenue body);
               b_numGuests := default 0 (numGuests body);
               b_specialInstructions := if falsy (specialInstructions body) then ""
                                        else default "" (specialInstructions body);
               bookingStatus := "pending";
               totalAmount := total;
               items := bookingItems;
               b_createdAt := iso clk |} in
          (* the result of writeData is not looked at *)
          (Sent 201 newBooking,
           snd (writeData write_ok (set_bookings (bookings ++ [newBooking])) fs))
      end.

(** *** POST /api/receipts/generate (server.js, lines 561-607) *)

Record receipt_body : Type := {
  rb_bookingId : Z;
  rb_paymentMethod : option string;
  rb_paymentStatus : option string
}.

Definition generateReceipt (write_ok : bool) (clk : clock) (fs : files) (body : receipt_body)
  : reply Receipt * files :=
  match find (λ b, bool_decide (b_id b = rb_bookingId body)) (bookings_json fs) with
  | None => (Failed 404 "Booking not found", fs)
  | Some booking =>
      let subtotal := totalAmount booking in
      let taxRate := vat in
      let taxAmount := (subtotal * taxRate)%Qc in
      let total := (subtotal + taxAmount)%Qc in
      let receipts := receipts_json fs in
      let n := Z.of_nat (length receipts) + 1 in
      let newReceipt :=
        {| r_id := n;
           receiptId := "RCP-" +:+ pretty (now clk);
           receiptNumber := "R" +:+ padStart 6 "0"%char (pretty n);
           r_bookingId := bookingId booking;
           r_customerName := b_customerName booking;
           r_customerEmail := b_customerEmail booking;
           r_customerPhone := b_customerPhone booking;
           r_eventType := b_eventType booking;
           r_eventDate := b_eventDate booking;
           r_eventVenue := b_eventVenue booking;
           r_numGuests := b_numGuests booking;
           r_items := items booking;
           subtotal := subtotal;
           taxRate := taxRate;
           taxAmount := taxAmount;
           r_totalAmount := total;
           paymentMethod := default "Cash" (rb_paymentMethod body);
           paymentStatus := default "pending" (rb_paymentStatus body);
           issuedDate := before_char "T"%char (iso clk);
           r_createdAt := iso clk |} in
      (Sent 201 newReceipt,
       snd (writeData write_ok (set_receipts (receipts ++ [newReceipt])) fs))
  end.

(** *** PATCH /api/bookings/:id/status (server.js, lines 546-559) *)

Definition set_status (status : string) (b : Booking) : Booking :=
  {| b_id := b_id b;
     bookingId := bookingId b;
     b_customerName := b_customerName b;
     b_customerEmail := b_customerEmail b;
     b_customerPhone := b_customerPhone b;
     b_eventType := b_eventType b;
     b_eventDate := b_eventDate b;
     b_eventVenue := b_eventVenue b;
     b_numGuests := b_numGuests b;
     b_specialInstructions := b_specialInstructions b;
     bookingStatus := status;
     totalAmount := totalAmount b;
     items := items b;
     b_createdAt := b_createdAt b |}.

Definition updateBookingStatus (write_ok : bool) (fs : files) (id : Z) (status : string)
  : reply unit * files :=
  let bookings := bookings_json fs in
  match find (λ b, bool_decide (b_id b = id)) bookings with
  | None => (Failed 404 "Booking not found", fs)
  | Some _ =>
      (* the result of writeData is not looked at *)
      (Sent 200 (),
       snd (writeData write_ok
              (set_bookings
                 (update_first (λ b, bool_decide (b_id b = id)) (set_status status) bookings))
              fs))
  end.

(** *** POST /api/auth/change-password (server.js, lines 313-342) *)

Record password_body : Type := {
  cp_email : option string;
  cp_currentPassword : option string;
  cp_newPassword : option string
}.

(** [user.password = newPassword] *)
Definition set_password (p : string) (u : jsobj) : jsobj := <["password" := JStr p]> u.

Definition changePassword (write_ok : bool) (fs : files) (body : password_body)
  : reply unit * files :=
  if falsy (cp_email body) || falsy (cp_currentPassword body) || falsy (cp_newPassword body) then
    (Failed 400 "Email, current password, and new password are required", fs)
  else
    let email := default "" (cp_email body) in
    let newPassword := default "" (cp_newPassword body) in
    if (String.length newPassword <? 6)%nat then
      (Failed 400 "New password must be at least 6 characters long", fs)
    else
      let users := users_json fs in
      match find (has_email email) users with
      | None => (Failed 404 "User not found", fs)
      | Some user =>
          if negb (bool_decide (user !! "password"
                                = Some (JStr (default "" (cp_currentPassword body))))) then
            (Failed 401 "Current password is incorrect", fs)
          else
            match writeData write_ok
                    (set_users (update_first (has_email email) (set_password newPassword) users))
                    fs with
            | (false, fs') => (Failed 500 "Failed to update password", fs')
            | (true, fs') => (Sent 200 (), fs')
            end
      end.

(** *** POST /api/auth/forgot-password (server.js, lines 345-374) *)

Record forgot_body : Type := {
  fp_email : option string;
  fp_mobileNumber : option string;
  fp_newPassword : option string
}.

Definition forgotPassword (write_ok : bool) (fs : files) (body : forgot_body)
  : reply unit * files :=
  if falsy (fp_email body) || falsy (fp_newPassword body) then
    (Failed 400 "Email and new password are required", fs)
  else
    let email := default "" (fp_email body) in
    let newPassword := default "" (fp_newPassword body) in
    if (String.length newPassword <? 6)%nat then
      (Failed 400 "New password must be at least 6 characters long", fs)
    else
      let users := users_json fs in
      match find (has_email email) users with
      | None => (Failed 404 "No account found for this email", fs)
      | Some user =>
          if negb (falsy (fp_mobileNumber body))
             && truthy (user !! "phoneNumber")
             && negb (bool_decide (user !! "phoneNumber"
                                   = Some (JStr (default "" (fp_mobileNumber body))))) then
            (Failed 401 "Mobile number does not match our records", fs)
          else
            match writeData write_ok
                    (set_users (update_first (has_email email) (set_password newPassword) users))
                    fs with
            | (false, fs') => (Failed 500 "Failed to update password", fs')
            | (true, fs') =>
                (Sent 200 (), fs')
            end
      end.

(** *** PUT /api/auth/profile (server.js, lines 260-310)

    [currentEmail] and [newEmail] are both read from [req.body.email]. *)

Record profile_body : Type := {
  pf_firstName : option string;
  pf_lastName : option string;
  pf_email : option string;
  pf_phoneNumber : option string;
  pf_username : option string
}.

Definition updateProfile (write_ok : bool) (fs : files) (body : profile_body)
  : reply jsobj * files :=
  let currentEmail := pf_email body in
  let newEmail := pf_email body in
  if falsy currentEmail then (Failed 400 "Current email is required", fs)
  else
    let users := users_json fs in
    let ce := default "" currentEmail in
    let ne := default "" newEmail in
    match list_find (λ u : jsobj, u !! "email" = Some (JStr ce)) users with
    | None => (Failed 404 "User not found", fs)
    | Some (userIndex, u0) =>
        let emailStep :=
          if negb (falsy newEmail) && negb (bool_decide (newEmail = currentEmail)) then
            if existsb (λ u : jsobj, bool_decide (u !! "email" = Some (JStr ne))
                                     && negb (bool_decide (u !! "email" = Some (JStr ce))))
                 users
            then None
            else Some (<["email" := JStr ne]> u0)
          else Some u0 in
        match emailStep with
        | None => (Failed 409 "Email already in use", fs)
        | Some u1 =>
            let users1 := <[userIndex := u1]> users in
            let un := default "" (pf_username body) in
            let kept := if falsy newEmail then ce else ne in
            let usernameStep :=
              if negb (falsy (pf_username body))
                 && negb (bool_decide (u1 !! "username" = Some (JStr un))) then
                if existsb (λ u : jsobj, bool_decide (u !! "username" = Some (JStr un))
                                         && negb (bool_decide (u !! "email" = Some (JStr kept))))
                     users1
                then None
                else Some (<["username" := JStr un]> u1)
              else Some u1 in
            match usernameStep with
            | None => (Failed 409 "Username already in use", fs)
            | Some u2 =>
                let u3 := if falsy (pf_firstName body) then u2
                          else <["firstName" := JStr (default "" (pf_firstName body))]> u2 in
                let u4 := if falsy (pf_lastName body) then u3
                          else <["lastName" := JStr (default "" (pf_lastName body))]> u3 in
                let u5 := match pf_phoneNumber body with
                          | Some p => <["phoneNumber" := JStr p]> u4
                          | None => u4
                          end in
                match writeData write_ok (set_users (<[userIndex := u5]> users1)) fs with
                | (false, fs') => (Failed 500 "Failed to update profile", fs')
                | (true, fs') => (Sent 200 (delete "password" u5), fs')
                end
            end
        end
    end.

(** *** GET /api/menu and GET /api/menu/categories/list
        (server.js, lines 377-393) *)

Definition getMenu (fs : files) (category : option string) : list MenuItem :=
  if falsy category then menu_json fs
  else filter (λ item, Simple.category item = default "" category) (menu_json fs).

Definition getCategories (fs : files) : list string :=
  unique (Simple.category <$> menu_json fs).

(** *** GET /api/admin/dashboard (server.js, lines 694-715) *)

Record statistics : Type := {
  totalUsers : nat;
  totalBookings : nat;
  totalRevenue : Qc;
  pendingBookings : nat;
  totalMenuItems : nat;
  availableMenuItems : nat
}.

(** [receipts.filter(r => r.paymentStatus === 'paid')
      .reduce((sum, r) => sum + r.totalAmount, 0)] *)
Definition paidRevenue (receipts : list Receipt) : Qc :=
  foldl (λ sum r, (sum + r_totalAmount r)%Qc) (num 0)
    (filter (λ r, paymentStatus r = "paid") receipts).

Definition dashboard (fs : files) : statistics * list Booking :=
  ({| totalUsers := length (users_json fs);
      totalBookings := length (bookings_json fs);
      totalRevenue := paidRevenue (receipts_json fs);
      pendingBookings :=
        length (filter (λ b, bookingStatus b = "pending") (bookings_json fs));
      totalMenuItems := length (menu_json fs);
      availableMenuItems :=
        length (filter (λ m, isAvailable m = true) (menu_json fs)) |},
   reverse (last_k 10 (bookings_json fs))).

(** *** Messages (server.js, lines 611-691).  The handlers read and write
        messages.json only. *)

Record Message : Type := {
  msg_id : Z;
  userEmail : string;
  userName : string;
  subject : string;
  messageContent : string;
  adminResponse : string;
  messageStatus : string;
  msg_createdAt : string;
  msg_updatedAt : string
}.

Record message_body : Type := {
  mb_userEmail : option string;
  mb_userName : option string;
  mb_subject : option string;
  mb_messageContent : option string
}.

Definition sendMessage (write_ok : bool) (clk : clock) (messages : list Message)
    (body : message_body) : reply Message * list Message :=
  if falsy (mb_userEmail body) || falsy (mb_subject body) || falsy (mb_messageContent body) then
    (Failed 400 "userEmail, subject and messageContent are required", messages)
  else
    let userEmail := default "" (mb_userEmail body) in
    let newMessage :=
      {| msg_id := Z.of_nat (length messages) + 1;
         userEmail := userEmail;
         userName := if falsy (mb_userName body) then before_char "@"%char userEmail
                     else default "" (mb_userName body);
         subject := default "" (mb_subject body);
         messageContent := default "" (mb_messageContent body);
         adminResponse := "";
         messageStatus := "unread";
         msg_createdAt := iso clk;
         msg_updatedAt := iso clk |} in
    (Sent 201 newMessage, snd (write_file write_ok (messages ++ [newMessage]) messages)).

Definition getMyMessages (messages : list Message) (email : option string)
  : reply (list Message) :=
  if falsy email then Failed 400 "email query param is required"
  else Sent 200 (filter (λ m, Simple.userEmail m = default "" email) messages).

Definition with_response (clk : clock) (text : string) (m : Message) : Message :=
  {| msg_id := msg_id m;
     userEmail := userEmail m;
     userName := userName m;
     subject := subject m;
     messageContent := messageContent m;
     adminResponse := text;
     messageStatus := "replied";
     msg_createdAt := msg_createdAt m;
     msg_updatedAt := iso clk |}.

Definition with_status (clk : clock) (status : string) (m : Message) : Message :=
  {| msg_id := msg_id m;
     userEmail := userEmail m;
     userName := userName m;
     subject := subject m;
     messageContent := messageContent m;
     adminResponse := adminResponse m;
     messageStatus := status;
     msg_createdAt := msg_createdAt m;
     msg_updatedAt := iso clk |}.

Definition respondToMessage (write_ok : bool) (clk : clock) (messages : list Message)
    (id : Z) (response : option string) : reply Message * list Message :=
  if falsy response then (Failed 400 "adminResponse is required", messages)
  else
    match find (λ m, bool_decide (msg_id m = id)) messages with
    | None => (Failed 404 "Message not found", messages)
    | Some msg =>
        let text := default "" response in
        (Sent 200 (with_response clk text msg),
         snd (write_file write_ok
                (update_first (λ m, bool_decide (msg_id m = id)) (with_response clk text)
                   messages)
                messages))
    end.

Definition setMessageStatus (write_ok : bool) (clk : clock) (messages : list Message)
    (id : Z) (status : string) : reply Message * list Message :=
  if negb (bool_decide (status ∈ ["unread"; "read"; "replied"])) then
    (Failed 400 "Invalid status", messages)
  else
    match find (λ m, bool_decide (msg_id m = id)) messages with
    | None => (Failed 404 "Message not found", messages)
    | Some msg =>
        (Sent 200 (with_status clk status msg),
         snd (write_file write_ok
                (update_first (λ m, bool_decide (msg_id m = id)) (with_status clk status)
                   messages)
                messages))
    end.

(** *** Offers (server.js, lines 417-470).  The handlers read and write
        offers.json only. *)

Record Offer : Type := {
  o_id : Z;
  title : string;
  o_description : string;
  o_imageUrl : string;
  startAt : option string;
  endAt : option string;
  active : bool;
  o_createdAt : string;
  o_updatedAt : option string
}.

Record offer_body : Type := {
  ob_title : option string;
  ob_description : option string;
  ob_imageUrl : option string;
  ob_startAt : option string;
  ob_endAt : option string;
  ob_active : option bool
}.

(** [offers.length ? Math.max(...offers.map(o => o.id)) + 1 : 1] *)
Definition nextOfferId (offers : list Offer) : Z :=
  match o_id <$> offers with
  | [] => 1
  | x :: rest => foldr Z.max x rest + 1
  end.

(** [x || null] for an optional string *)
Definition or_null (o : option string) : option string :=
  if falsy o then None else o.

Definition createOffer (write_ok : bool) (clk : clock) (offers : list Offer)
    (body : offer_body) : reply Offer * list Offer :=
  if falsy (ob_title body) then (Failed 400 "Title is required", offers)
  else
    let newOffer :=
      {| o_id := nextOfferId offers;
         title := default "" (ob_title body);
         o_description := if falsy (ob_description body) then ""
                          else default "" (ob_description body);
         o_imageUrl := if falsy (ob_imageUrl body) then "" else default "" (ob_imageUrl body);
         startAt := or_null (ob_startAt body);
         endAt := or_null (ob_endAt body);
         active := default true (ob_active body);
         o_createdAt := iso clk;
         o_updatedAt := None |} in
    match write_file write_ok (offers ++ [newOffer]) offers with
    | (false, offers') => (Failed 500 "Failed to save offer", offers')
    | (true, offers') => (Sent 201 newOffer, offers')
    end.

(** The body of PUT /api/offers/:id: a field that is [undefined] is left
    alone; [startAt] and [endAt] may be set to [null]. *)
Record offer_patch : Type := {
  op_title : option string;
  op_description : option string;
  op_imageUrl : option string;
  op_startAt : option (option string);
  op_endAt : option (option string);
  op_active : option bool
}.

Definition patch_offer (clk : clock) (p : offer_patch) (o : Offer) : Offer :=
  {| o_id := o_id o;
     title := default (title o) (op_title p);
     o_description := default (o_description o) (op_description p);
     o_imageUrl := default (o_imageUrl o) (op_imageUrl p);
     startAt := default (startAt o) (op_startAt p);
     endAt := default (endAt o) (op_endAt p);
     active := default (active o) (op_active p);
     o_createdAt := o_createdAt o;
     o_updatedAt := Some (iso clk) |}.

Definition updateOffer (write_ok : bool) (clk : clock) (offers : list Offer)
    (id : Z) (p : offer_patch) : reply Offer * list Offer :=
  match list_find (λ o, o_id o = id) offers with
  | None => (Failed 404 "Offer not found", offers)
  | Some (idx, o) =>
      match write_file write_ok (<[idx := patch_offer clk p o]> offers) offers with
      | (false, offers') => (Failed 500 "Failed to update offer", offers')
      | (true, offers') => (Sent 200 (patch_offer clk p o), offers')
      end
  end.

Definition deleteOffer (write_ok : bool) (offers : list Offer) (id : Z)
  : reply unit * list Offer :=
  match list_find (λ o, o_id o = id) offers with
  | None => (Failed 404 "Offer not found", offers)
  | Some (idx, _) =>
      match write_file write_ok (delete idx offers) offers with
      | (false, offers') => (Failed 500 "Failed to delete offer", offers')
      | (true, offers') => (Sent 200 (), offers')
      end
  end.

End Simple.

(** ** The browser-side receipt numbering ([receipt.js]) *)

Module Client.

(** [getNextReceiptNumber]: one more than the largest number among the
    receipts kept by the client, read back with
    [parseInt(receipt.receiptNumber.substring(1))]. *)
Definition maxNumber (receiptNumbers : list string) : Z :=
  foldl (λ max rn,
           match parseInt (drop_first rn) with
           | Some number => if max <? number then number else max
           | None => max
           end) 0 receiptNumbers.

Definition getNextReceiptNumber (receiptNumbers : list string) : Z :=
  maxNumber receiptNumbers + 1.

(** [generateReceiptNumber]: format the counter, then bump it. *)
Definition generateReceiptNumber (nextReceiptNumber : Z) : string * Z :=
  ("R" +:+ padStart 6 "0"%char (pretty nextReceiptNumber), nextReceiptNumber + 1).



(** A cart entry of the booking page: [{ id, price, quantity }]. *)
Record cart_item : Type := { ct_id : Z; ct_price : Qc; ct_quantity : Z }.

(** [calculateSubtotal] (receipt.js, lines 55-59). *)
Definition calculateSubtotal (menuItems : list cart_item) : Qc :=
  foldl (λ total item, (total + ct_price item * num (ct_quantity item))%Qc) (num 0) menuItems.

(** The [menuItems] of the booking request that [generateReceipt] sends
    (receipt.js, lines 21-24). *)
Definition to_lines (menuItems : list cart_item) : list line_req :=
  (λ item, {| itemId := ct_id item; quantity := ct_quantity item |}) <$> menuItems.

End Client.

(** ** The SQLite-backed routers ([backend/routes]) *)

Module Sql.

(** A value bound to a statement parameter or stored in a column. *)
Inductive sqlval : Type :=
| SNull
| SInt (z : Z)
| SReal (q : Qc)
| SText (s : string).

#[global] Instance sqlval_eq_dec : EqDecision sqlval.
Proof. solve_decision. Defined.

(** Modelled from the spec: the table definitions ([database/init]) are
    not among the sources.  The columns are the ones the statements of
    the routers name; a column an INSERT leaves out takes its default:
    [booking_status] is 'pending' (spec 4.2, step 4), [is_active] is 1,
    the timestamps are the current time. *)
Record user_row : Type := {
  u_id : Z;
  username : string;
  email : string;
  password_hash : string;
  first_name : string;
  last_name : string;
  phone_number : option string;
  user_type : string;
  is_active : bool;
  u_created_at : string;
  u_updated_at : string
}.

(** Modelled from the spec: menu_items, with the columns of the INSERT
    and UPDATE statements of the menu router. *)
Record menu_row : Type := {
  mi_id : Z;
  item_name : string;
  mi_description : string;
  mi_category : string;
  price_per_serving : Qc;
  image_url : string;
  is_available : bool;
  mi_updated_at : string
}.

(** Modelled from the spec: bookings, with the columns of the INSERT of
    the bookings router, [booking_status] and the timestamps. *)
Record booking_row : Type := {
  bk_id : Z;
  booking_id : string;
  user_id : Z;
  event_type : string;
  event_date : string;
  event_venue : string;
  num_guests : Z;
  special_instructions : string;
  booking_status : string;
  total_amount : Qc;
  bk_created_at : string;
  bk_updated_at : string
}.

(** Modelled from the spec: booking_items, with the columns of the
    INSERT of the bookings router. *)
Record booking_item_row : Type := {
  bi_id : Z;
  bi_booking_id : Z;
  item_id : Z;
  bi_quantity : Z;
  unit_price : Qc;
  total_price : Qc
}.

#[global] Instance booking_row_eq_dec : EqDecision booking_row.
Proof. solve_decision. Defined.

#[global] Instance booking_item_row_eq_dec : EqDecision booking_item_row.
Proof. solve_decision. Defined.

(** A receipts row is kept as column -> value: the INSERT of the
    receipts router binds its parameters by position. *)
Abbreviation receipt_row := (gmap string sqlval).

Record db : Type := {
  users : list user_row;
  menu_items : list menu_row;
  bookings : list booking_row;
  booking_items : list booking_item_row;
  receipts : list receipt_row
}.

Definition set_users (x : list user_row) (d : db) : db :=
  {| users := x; menu_items := menu_items d; bookings := bookings d;
     booking_items := booking_items d; receipts := receipts d |}.
Definition set_menu_items (x : list menu_row) (d : db) : db :=
  {| users := users d; menu_items := x; bookings := bookings d;
     booking_items := booking_items d; receipts := receipts d |}.
Definition set_bookings (x : list booking_row) (d : db) : db :=
  {| users := users d; menu_items := menu_items d; bookings := x;
     booking_items := booking_items d; receipts := receipts d |}.
Definition set_booking_items (x : list booking_item_row) (d : db) : db :=
  {| users := users d; menu_items := menu_items d; bookings := bookings d;
     booking_items := x; receipts := receipts d |}.
Definition set_receipts (x : list receipt_row) (d : db) : db :=
  {| users := users d; menu_items := menu_items d; bookings := bookings d;
     booking_items := booking_items d; receipts := x |}.

(** Modelled from the spec: identifiers are server-generated surrogates
    (spec 3).  [this.lastID] of an INSERT is one more than the largest id
    in the table, SQLite's rule for an integer primary key. *)
Definition lastID {A} (key : A → Z) (rows : list A) : Z :=
  1 + foldr Z.max 0 (key <$> rows).

(** Which statements of a handler fail: [f k] tells that the [k]-th
    database call of the request (counted from 0 in program order) calls
    back with an error. *)
Definition faults : Type := nat → bool.
Definition no_faults : faults := λ _, false.

(** [req.user], as set by [authenticateToken] ([middleware/auth], not
    among the sources) before a handler runs. *)
Record caller : Type := { c_id : Z; userType : string }.

Definition isAdmin (c : caller) : bool := bool_decide (userType c = "admin").

(** What the routers take from libraries: express-validator's string
    predicates and sanitizers, bcryptjs and the token signer. *)
Class Externals : Type := {
  isEmail : string → bool;
  normalizeEmail : string → string;
  isISO8601 : string → bool;
  isMobilePhone : string → bool;
  isURL : string → bool;
  trim : string → string;
  escape : string → string;
  bcrypt_hash : string → string;
  bcrypt_compare : string → string → bool;
  generateToken : user_row → string
}.

(** [SELECT *] on users: the row as the object [db.get] calls back with. *)
Definition user_obj (u : user_row) : jsobj :=
  list_to_map
    [("id", JNum (num (u_id u)));
     ("username", JStr (username u));
     ("email", JStr (email u));
     ("password_hash", JStr (password_hash u));
     ("first_name", JStr (first_name u));
     ("last_name", JStr (last_name u));
     ("phone_number", from_option JStr JNull (phone_number u));
     ("user_type", JStr (user_type u));
     ("is_active", JNum (num (if is_active u then 1 else 0)));
     ("created_at", JStr (u_created_at u));
     ("updated_at", JStr (u_updated_at u))].

Section Handlers.
Context `{Externals}.

Definition clean (s : string) : string := escape (trim s).

(** *** POST /auth/login (part_000, lines 10-58) *)

Record login_body : Type := { l_email : string; l_password : string }.

Definition login (f : faults) (d : db) (body : login_body) : reply (string * jsobj) :=
  if negb (isEmail (l_email body) && (6 <=? String.length (l_password body))%nat) then
    Rejected
  else
    let email' := normalizeEmail (l_email body) in
    if f 0%nat then Failed 500 "Database error"
    else
      match find (λ u, bool_decide (email u = email') && is_active u) (users d) with
      | None => Failed 401 "Invalid email or password"
      | Some user =>
          if negb (bcrypt_compare (l_password body) (password_hash user)) then
            Failed 401 "Invalid email or password"
          else
            Sent 200 (generateToken user, delete "password_hash" (user_obj user))
      end.

(** *** POST /auth/register (part_000, lines 61-131) *)

Record register_body : Type := {
  rq_username : string;
  rq_email : string;
  rq_password : string;
  rq_firstName : string;
  rq_lastName : string;
  rq_phoneNumber : option string
}.

Definition register_valid (body : register_body) : bool :=
  (3 <=? String.length (rq_username body))%nat
  && isEmail (rq_email body)
  && (6 <=? String.length (rq_password body))%nat
  && (2 <=? String.length (rq_firstName body))%nat
  && (2 <=? String.length (rq_lastName body))%nat
  && from_option isMobilePhone true (rq_phoneNumber body).

(** [email = ? OR username = ?] *)
Definition same_account (email' username' : string) (u : user_row) : bool :=
  bool_decide (email u = email') || bool_decide (username u = username').

Definition register (f : faults) (clk : clock) (d : db) (body : register_body)
  : reply (string * jsobj) * db :=
  if negb (register_valid body) then (Rejected, d)
  else
    let username' := clean (rq_username body) in
    let email' := normalizeEmail (rq_email body) in
    if f 0%nat then (Failed 500 "Database error", d)
    else
      match find (same_account email' username') (users d) with
      | Some _ => (Failed 409 "User already exists", d)
      | None =>
          let hashedPassword := bcrypt_hash (rq_password body) in
          if f 1%nat then (Failed 500 "Failed to create user", d)
          else
            let id := lastID u_id (users d) in
            let row :=
              {| u_id := id;
                 username := username';
                 email := email';
                 password_hash := hashedPassword;
                 first_name := clean (rq_firstName body);
                 last_name := clean (rq_lastName body);
                 phone_number := rq_phoneNumber body;
                 user_type := "customer";
                 is_active := true;
                 u_created_at := iso clk;
                 u_updated_at := iso clk |} in
            let d' := set_users (users d ++ [row]) d in
            if f 2%nat then (Failed 500 "Database error", d')
            else
              match find (λ u, bool_decide (u_id u = id)) (users d') with
              | None => (Threw, d')
              | Some user =>
                  (Sent 201 (generateToken user, delete "password_hash" (user_obj user)), d')
              end
      end.


(** *** GET /bookings/:id (routes/bookings.js, lines 36-84) *)

(** [b.*] with the four owner columns of the joined users row. *)
Record booking_view : Type := {
  v_booking : booking_row;
  v_first_name : string;
  v_last_name : string;
  v_email : string;
  v_phone_number : option string
}.

(** [bi.*] with the three menu columns of the joined menu_items row. *)
Record item_view : Type := {
  v_item : booking_item_row;
  v_item_name : string;
  v_description : string;
  v_category : string
}.

(** The users rows that join with booking [b]: [ON b.user_id = u.id]. *)
Definition owner_views (users : list user_row) (b : booking_row) : list booking_view :=
  u ← filter (λ u, u_id u = user_id b) users;
  [ {| v_booking := b; v_first_name := first_name u; v_last_name := last_name u;
       v_email := email u; v_phone_number := phone_number u |} ].

(** [FROM bookings b JOIN users u ON b.user_id = u.id] *)
Definition bookings_join_users (d : db) : list booking_view :=
  bookings d ≫= owner_views (users d).

(** [FROM booking_items bi JOIN menu_items mi ON bi.item_id = mi.id
     WHERE bi.booking_id = ?] *)
Definition booking_items_of (d : db) (bookingId : Z) : list item_view :=
  bi ← filter (λ bi, bi_booking_id bi = bookingId) (booking_items d);
  mi ← filter (λ mi, mi_id mi = item_id bi) (menu_items d);
  [ {| v_item := bi; v_item_name := item_name mi;
       v_description := mi_description mi; v_category := mi_category mi |} ].

(** [WHERE b.id = ?], with [AND b.user_id = ?] for a caller who is not
    an admin. *)
Definition visible_to (c : caller) (bookingId : Z) (v : booking_view) : bool :=
  bool_decide (bk_id (v_booking v) = bookingId)
  && (isAdmin c || bool_decide (user_id (v_booking v) = c_id c)).

Definition getBooking (f : faults) (d : db) (c : caller) (bookingId : Z)
  : reply (booking_view * list item_view) :=
  if f 0%nat then Failed 500 "Database error"
  else
    match find (visible_to c bookingId) (bookings_join_users d) with
    | None => Failed 404 "Booking not found"
    | Some booking =>
        if f 1%nat then Failed 500 "Database error"
        else Sent 200 (booking, booking_items_of d bookingId)
    end.

(** *** POST /bookings (routes/bookings.js, lines 87-181) *)

Record booking_body : Type := {
  eventType : string;
  eventDate : string;
  eventVenue : string;
  numGuests : Z;
  specialInstructions : option string;
  menuItems : list line_req
}.

(** The express-validator chain of the route. *)
Definition booking_valid (body : booking_body) : bool :=
  negb (bool_decide (eventType body = ""))
  && isISO8601 (eventDate body)
  && negb (bool_decide (eventVenue body = ""))
  && (1 <=? numGuests body)
  && (1 <=? length (menuItems body))%nat
  && forallb (λ l, 1 <=? quantity l) (menuItems body).

Record valid_item : Type := {
  vi_itemId : Z;
  vi_quantity : Z;
  unitPrice : Qc;
  totalPrice : Qc
}.

Inductive resolution : Type :=
| Resolved (totalAmount : Qc) (validItems : list valid_item)
| Unavailable (itemId : Z)   (* the row is undefined: 400 *)
| LookupError.               (* the promise rejects: caught, 500 *)

(** The [for (const item of menuItems)] loop.  The lookup of the line at
    position [k] is database call number [k]. *)
Fixpoint resolve_items (f : faults) (k : nat) (menu : list menu_row)
    (ls : list line_req) (totalAmount : Qc) : resolution :=
  match ls with
  | [] => Resolved totalAmount []
  | item :: rest =>
      if f k then LookupError
      else
        match find (λ m, bool_decide (mi_id m = itemId item) && is_available m) menu with
        | None => Unavailable (itemId item)
        | Some menuItem =>
            let itemTotal := (price_per_serving menuItem * num (quantity item))%Qc in
            match resolve_items f (S k) menu rest (totalAmount + itemTotal)%Qc with
            | Resolved total validItems =>
                Resolved total
                  ({| vi_itemId := itemId item;
                      vi_quantity := quantity item;
                      unitPrice := price_per_serving menuItem;
                      totalPrice := itemTotal |} :: validItems)
            | other => other
            end
        end
  end.

Definition item_row (rows : list booking_item_row) (newBookingId : Z) (v : valid_item)
  : booking_item_row :=
  {| bi_id := lastID bi_id rows;
     bi_booking_id := newBookingId;
     item_id := vi_itemId v;
     bi_quantity := vi_quantity v;
     unit_price := unitPrice v;
     total_price := totalPrice v |}.

(** [validItems.forEach(item => insertItem.run(...))]: one INSERT per
    line, database calls [k], [k+1], ...; [run] is given no callback, so
    a failing INSERT is skipped and the loop goes on. *)
Fixpoint insert_items (f : faults) (k : nat) (newBookingId : Z)
    (vs : list valid_item) (rows : list booking_item_row) : list booking_item_row :=
  match vs with
  | [] => rows
  | v :: rest =>
      insert_items f (S k) newBookingId rest
        (if f k then rows else rows ++ [item_row rows newBookingId v])
  end.

Record created_booking : Type := {
  cb_id : Z;
  cb_bookingId : string;
  cb_eventType : string;
  cb_eventDate : string;
  cb_eventVenue : string;
  cb_numGuests : Z;
  cb_specialInstructions : option string;
  cb_totalAmount : Qc;
  cb_items : list valid_item
}.

(** [rnd] is [Math.random().toString(36).substr(2, 5).toUpperCase()]. *)
Definition createBooking (f : faults) (clk : clock) (rnd : string) (d : db)
    (c : caller) (body : booking_body) : reply created_booking * db :=
  if negb (booking_valid body) then (Rejected, d)
  else
    let eventType' := clean (eventType body) in
    let eventVenue' := clean (eventVenue body) in
    let specialInstructions' := clean <$> specialInstructions body in
    let bookingId := "BK-" +:+ pretty (now clk) +:+ "-" +:+ rnd in
    let n := length (menuItems body) in
    match resolve_items f 0 (menu_items d) (menuItems body) (num 0) with
    | LookupError => (Failed 500 "Internal server error", d)
    | Unavailable i =>
        (Failed 400 ("Menu item with ID " +:+ pretty i +:+ " not found or unavailable"), d)
    | Resolved totalAmount validItems =>
        if f n then (Failed 500 "Failed to create booking", d)
        else
          let newBookingId := lastID bk_id (bookings d) in
          let row :=
            {| bk_id := newBookingId;
               booking_id := bookingId;
               user_id := c_id c;
               event_type := eventType';
               event_date := eventDate body;
               event_venue := eventVenue';
               num_guests := numGuests body;
               special_instructions :=
                 if falsy specialInstructions' then "" else default "" specialInstructions';
               booking_status := "pending";
               total_amount := totalAmount;
               bk_created_at := iso clk;
               bk_updated_at := iso clk |} in
          let d1 := set_bookings (bookings d ++ [row]) d in
          let d2 := set_booking_items
                      (insert_items f (S n) newBookingId validItems (booking_items d1)) d1 in
          (Sent 201
             {| cb_id := newBookingId;
                cb_bookingId := bookingId;
                cb_eventType := eventType';
                cb_eventDate := eventDate body;
                cb_eventVenue := eventVenue';
                cb_numGuests := numGuests body;
                cb_specialInstructions := specialInstructions';
                cb_totalAmount := totalAmount;
                cb_items := validItems |},
           d2)
    end.

(** *** PUT /menu/:id (part_001, lines 111-192) *)






(** *** DELETE /menu/:id (part_001, lines 195-223) *)

(** [SELECT COUNT( * ) as count FROM booking_items WHERE item_id = ?] *)
Definition usage_count (d : db) (itemId : Z) : nat :=
  length (filter (λ bi, item_id bi = itemId) (booking_items d)).

Definition deleteMenuItem (f : faults) (d : db) (itemId : Z) : reply unit * db :=
  if f 0%nat then (Failed 500 "Database error", d)
  else if (0 <? usage_count d itemId)%nat then
    (Failed 400 "Cannot delete menu item that is used in existing bookings", d)
  else if f 1%nat then (Failed 500 "Failed to delete menu item", d)
  else
    (Sent 200 (), set_menu_items (filter (λ m, mi_id m ≠ itemId) (menu_items d)) d).

(** *** POST /receipts/generate (part_001, lines 252-351) *)

Record receipt_body : Type := {
  rb_bookingId : Z;
  rb_paymentMethod : option string;
  rb_paymentStatus : option string
}.

Definition receipt_valid (body : receipt_body) : bool :=
  from_option (λ s, bool_decide (s ∈ ["pending"; "paid"; "failed"; "refunded"])) true
    (rb_paymentStatus body).

(** The column list of the INSERT into receipts. *)
Definition receipt_columns : list string :=
  ["receipt_id"; "booking_id"; "receipt_number"; "subtotal"; "tax_rate";
   "tax_amount"; "total_amount"; "payment_method"; "payment_status"; "issued_date"].

(** Parameters are bound to the placeholders by position; a placeholder
    left without a parameter stays NULL. *)
Fixpoint bind_params (cols : list string) (vals : list sqlval) : list (string * sqlval) :=
  match cols with
  | [] => []
  | c :: cs =>
      match vals with
      | [] => (c, SNull) :: bind_params cs []
      | v :: vs => (c, v) :: bind_params cs vs
      end
  end.

Definition receipt_key (r : receipt_row) : Z :=
  match r !! "id" with
  | Some (SInt z) => z
  | _ => 0
  end.

(** The receipt object of the response: its scalar properties and the
    [items] array. *)
Record receipt_reply : Type := {
  rr_fields : jsobj;
  rr_items : list item_view
}.

Definition generateReceipt (f : faults) (clk : clock) (rnd : string) (d : db)
    (c : caller) (body : receipt_body) : reply receipt_reply * db :=
  if negb (receipt_valid body) then (Rejected, d)
  else
    let bookingId := rb_bookingId body in
    let paymentMethod := default "Cash/Card" (clean <$> rb_paymentMethod body) in
    let paymentStatus := default "pending" (rb_paymentStatus body) in
    if f 0%nat then (Failed 500 "Database error", d)
    else
      match find (λ v, bool_decide (bk_id (v_booking v) = bookingId)) (bookings_join_users d) with
      | None => (Failed 404 "Booking not found", d)
      | Some booking =>
          let b := v_booking booking in
          if negb (isAdmin c) && negb (bool_decide (user_id b = c_id c)) then
            (Failed 403 "Access denied", d)
          else if f 1%nat then (Failed 500 "Database error", d)
          else
            let items := booking_items_of d bookingId in
            (* booking.total_amount || 0 *)
            let subtotal := if bool_decide (total_amount b = num 0) then num 0
                            else total_amount b in
            let taxRate := vat in
            let taxAmount := (subtotal * taxRate)%Qc in
            let totalAmount := (subtotal + taxAmount)%Qc in
            let receiptId := "RCP-" +:+ pretty (now clk) +:+ "-" +:+ rnd in
            let receiptNumber := "R" +:+ slice_last 6 (pretty (now clk)) in
            let issued := before_char "T"%char (iso clk) in
            if f 2%nat then (Failed 500 "Failed to create receipt", d)
            else
              let id := lastID receipt_key (receipts d) in
              let row : receipt_row :=
                <["id" := SInt id]>
                (<["created_at" := SText (iso clk)]>
                (list_to_map
                   (bind_params receipt_columns
                      [SText receiptId; SInt bookingId; SText receiptNumber;
                       SReal subtotal; SReal totalAmount; SText paymentMethod;
                       SText paymentStatus; SText issued]))) in
              let receipt :=
                {| rr_fields :=
                     list_to_map
                       [("id", JNum (num id));
                        ("receiptId", JStr receiptId);
                        ("receiptNumber", JStr receiptNumber);
                        ("bookingId", JStr (booking_id b));
                        ("customerName",
                         JStr (v_first_name booking +:+ " " +:+ v_last_name booking));
                        ("customerEmail", JStr (v_email booking));
                        ("customerPhone", from_option JStr JNull (v_phone_number booking));
                        ("eventType", JStr (event_type b));
                        ("eventDate", JStr (event_date b));
                        ("eventVenue", JStr (event_venue b));
                        ("numGuests", JNum (num (num_guests b)));
                        ("subtotal", JNum subtotal);
                        ("totalAmount", JNum totalAmount);
                        ("paymentMethod", JStr paymentMethod);
                        ("paymentStatus", JStr paymentStatus);
                        ("issuedDate", JStr issued);
                        ("createdAt", JStr (iso clk))];
                   rr_items := items |} in
              (Sent 201 receipt, set_receipts (receipts d ++ [row]) d)
      end.

(** *** PATCH /bookings/:id/status (routes/bookings.js, lines 184-228) *)

Definition status_valid (status : string) : bool :=
  bool_decide (status ∈ ["pending"; "confirmed"; "cancelled"; "completed"]).

Definition with_booking_status (clk : clock) (status : string) (b : booking_row)
  : booking_row :=
  {| bk_id := bk_id b;
     booking_id := booking_id b;
     user_id := user_id b;
     event_type := event_type b;
     event_date := event_date b;
     event_venue := event_venue b;
     num_guests := num_guests b;
     special_instructions := special_instructions b;
     booking_status := status;
     total_amount := total_amount b;
     bk_created_at := bk_created_at b;
     bk_updated_at := iso clk |}.

(** [UPDATE bookings SET booking_status = ?, updated_at = CURRENT_TIMESTAMP
     WHERE id = ?] *)
Definition set_booking_status (clk : clock) (bookingId : Z) (status : string)
    (rows : list booking_row) : list booking_row :=
  (λ b, if bool_decide (bk_id b = bookingId) then with_booking_status clk status b else b)
    <$> rows.

(** [req.user.userType !== 'admin' && booking.user_id !== req.user.id] *)
Definition denied (c : caller) (b : booking_row) : bool :=
  negb (isAdmin c) && negb (bool_decide (user_id b = c_id c)).

Definition updateBookingStatus (f : faults) (clk : clock) (d : db) (c : caller)
    (bookingId : Z) (status : string) : reply unit * db :=
  if negb (status_valid status) then (Rejected, d)
  else if f 0%nat then (Failed 500 "Database error", d)
  else
    match find (λ b, bool_decide (bk_id b = bookingId)) (bookings d) with
    | None => (Failed 404 "Booking not found", d)
    | Some booking =>
        if denied c booking then (Failed 403 "Access denied", d)
        else if f 1%nat then (Failed 500 "Failed to update booking status", d)
        else (Sent 200 (), set_bookings (set_booking_status clk bookingId status (bookings d)) d)
    end.

(** *** DELETE /bookings/:id (routes/bookings.js, lines 231-269) *)

Definition deleteBooking (f : faults) (d : db) (c : caller) (bookingId : Z)
  : reply unit * db :=
  if f 0%nat then (Failed 500 "Database error", d)
  else
    match find (λ b, bool_decide (bk_id b = bookingId)) (bookings d) with
    | None => (Failed 404 "Booking not found", d)
    | Some booking =>
        if denied c booking then (Failed 403 "Access denied", d)
        else if f 1%nat then (Failed 500 "Failed to delete booking items", d)
        else
          let d1 := set_booking_items
                      (filter (λ bi, bi_booking_id bi ≠ bookingId) (booking_items d)) d in
          if f 2%nat then (Failed 500 "Failed to delete booking", d1)
          else (Sent 200 (), set_bookings (filter (λ b, bk_id b ≠ bookingId) (bookings d1)) d1)
    end.

(** *** PATCH /admin/users/:id/status (routes/admin.js, lines 130-156) *)

Definition with_active (clk : clock) (isActive : bool) (u : user_row) : user_row :=
  {| u_id := u_id u;
     username := username u;
     email := email u;
     password_hash := password_hash u;
     first_name := first_name u;
     last_name := last_name u;
     phone_number := phone_number u;
     user_type := user_type u;
     is_active := isActive;
     u_created_at := u_created_at u;
     u_updated_at := iso clk |}.

Definition setUserActive (f : faults) (clk : clock) (d : db) (userId : Z) (isActive : bool)
  : reply unit * db :=
  if f 0%nat then (Failed 500 "Failed to update user status", d)
  else
    (Sent 200 (),
     set_users
       ((λ u, if bool_decide (u_id u = userId) then with_active clk isActive u else u)
          <$> users d) d).

(** *** PATCH /admin/bookings/:id/status (routes/admin.js, lines 292-318) *)

Definition adminUpdateBookingStatus (f : faults) (clk : clock) (d : db)
    (bookingId : Z) (status : string) : reply unit * db :=
  if negb (status_valid status) then (Rejected, d)
  else if f 0%nat then (Failed 500 "Failed to update booking status", d)
  else (Sent 200 (), set_bookings (set_booking_status clk bookingId status (bookings d)) d).

(** *** GET /admin/bookings/:id (routes/admin.js, lines 248-290) *)

Definition adminGetBooking (f : faults) (d : db) (bookingId : Z)
  : reply (booking_view * list item_view) :=
  if f 0%nat then Failed 500 "Database error"
  else
    match find (λ v, bool_decide (bk_id (v_booking v) = bookingId)) (bookings_join_users d) with
    | None => Failed 404 "Booking not found"
    | Some booking =>
        if f 1%nat then Failed 500 "Database error"
        else Sent 200 (booking, booking_items_of d bookingId)
    end.

(** *** GET /menu/:id (part_001, lines 37-52) *)

Definition getMenuItem (f : faults) (d : db) (itemId : Z) : reply menu_row :=
  if f 0%nat then Failed 500 "Database error"
  else
    match find (λ m, bool_decide (mi_id m = itemId)) (menu_items d) with
    | None => Failed 404 "Menu item not found"
    | Some item => Sent 200 item
    end.

(** *** POST /menu (part_001, lines 67-108) *)

Record menu_body : Type := {
  nb_itemName : string;
  nb_description : option string;
  nb_category : string;
  nb_pricePerServing : Qc;
  nb_imageUrl : option string;
  nb_isAvailable : option bool
}.

Definition menu_body_valid (body : menu_body) : bool :=
  negb (bool_decide (nb_itemName body = ""))
  && negb (bool_decide (nb_category body = ""))
  && bool_decide (num 0 ≤ nb_pricePerServing body)%Qc
  && from_option isURL true (nb_imageUrl body).

(** The [item] object of the 201 response. *)
Record created_item : Type := {
  ci_id : Z;
  ci_itemName : string;
  ci_description : option string;
  ci_category : string;
  ci_pricePerServing : Qc;
  ci_imageUrl : option string;
  ci_isAvailable : bool
}.

Definition createMenuItem (f : faults) (clk : clock) (d : db) (body : menu_body)
  : reply created_item * db :=
  if negb (menu_body_valid body) then (Rejected, d)
  else
    let itemName := clean (nb_itemName body) in
    let description := clean <$> nb_description body in
    let category := clean (nb_category body) in
    let isAvailable := default true (nb_isAvailable body) in
    if f 0%nat then (Failed 500 "Failed to create menu item", d)
    else
      let id := lastID mi_id (menu_items d) in
      let row :=
        {| mi_id := id;
           item_name := itemName;
           mi_description := if falsy description then "" else default "" description;
           mi_category := category;
           price_per_serving := nb_pricePerServing body;
           image_url := if falsy (nb_imageUrl body) then "" else default "" (nb_imageUrl body);
           is_available := isAvailable;
           mi_updated_at := iso clk |} in
      (Sent 201
         {| ci_id := id;
            ci_itemName := itemName;
            ci_description := description;
            ci_category := category;
            ci_pricePerServing := nb_pricePerServing body;
            ci_imageUrl := nb_imageUrl body;
            ci_isAvailable := isAvailable |},
       set_menu_items (menu_items d ++ [row]) d).

(** *** PATCH /menu/:id/availability (part_001, lines 226-241) *)

Definition toggled (clk : clock) (m : menu_row) : menu_row :=
  {| mi_id := mi_id m;
     item_name := item_name m;
     mi_description := mi_description m;
     mi_category := mi_category m;
     price_per_serving := price_per_serving m;
     image_url := image_url m;
     is_available := negb (is_available m);
     mi_updated_at := iso clk |}.

Definition toggleAvailability (f : faults) (clk : clock) (d : db) (itemId : Z)
  : reply unit * db :=
  if f 0%nat then (Failed 500 "Failed to toggle availability", d)
  else
    (Sent 200 (),
     set_menu_items
       ((λ m, if bool_decide (mi_id m = itemId) then toggled clk m else m) <$> menu_items d) d).

(** *** POST /auth/change-password (part_000, lines 299-349) *)

Record password_body : Type := { pw_currentPassword : string; pw_newPassword : string }.

Definition with_password_hash (clk : clock) (h : string) (u : user_row) : user_row :=
  {| u_id := u_id u;
     username := username u;
     email := email u;
     password_hash := h;
     first_name := first_name u;
     last_name := last_name u;
     phone_number := phone_number u;
     user_type := user_type u;
     is_active := is_active u;
     u_created_at := u_created_at u;
     u_updated_at := iso clk |}.

(** A caller whose users row is gone makes the callback read
    [password_hash] of [undefined]; the handler sends no answer then. *)
Definition changePassword (f : faults) (clk : clock) (d : db) (c : caller)
    (body : password_body) : reply unit * db :=
  if negb ((6 <=? String.length (pw_currentPassword body))%nat
           && (6 <=? String.length (pw_newPassword body))%nat) then (Rejected, d)
  else if f 0%nat then (Failed 500 "Database error", d)
  else
    match find (λ u, bool_decide (u_id u = c_id c)) (users d) with
    | None => (Threw, d)
    | Some user =>
        if negb (bcrypt_compare (pw_currentPassword body) (password_hash user)) then
          (Failed 401 "Current password is incorrect", d)
        else
          let hashedNewPassword := bcrypt_hash (pw_newPassword body) in
          if f 1%nat then (Failed 500 "Failed to update password", d)
          else
            (Sent 200 (),
             set_users
               ((λ u, if bool_decide (u_id u = c_id c)
                      then with_password_hash clk hashedNewPassword u else u)
                  <$> users d) d)
    end.

(** *** PATCH /receipts/:id/payment-status (part_001, lines 436-482) *)

Definition payment_status_valid (status : string) : bool :=
  bool_decide (status ∈ ["pending"; "paid"; "failed"; "refunded"]).

(** [SELECT b.user_id FROM receipts r JOIN bookings b ON r.booking_id = b.id
     WHERE r.id = ?]: the owners of the bookings that receipt rows with
    this id point to. *)
Definition receipt_owners (d : db) (receiptId : Z) : list Z :=
  r ← filter (λ r : receipt_row, r !! "id" = Some (SInt receiptId)) (receipts d);
  b ← filter (λ b, r !! "booking_id" = Some (SInt (bk_id b))) (bookings d);
  [user_id b].

Definition updatePaymentStatus (f : faults) (d : db) (c : caller) (receiptId : Z)
    (status : string) : reply unit * db :=
  if negb (payment_status_valid status) then (Rejected, d)
  else if f 0%nat then (Failed 500 "Database error", d)
  else
    match head (receipt_owners d receiptId) with
    | None => (Failed 404 "Receipt not found", d)
    | Some owner =>
        if negb (isAdmin c) && negb (bool_decide (owner = c_id c)) then
          (Failed 403 "Access denied", d)
        else if f 1%nat then (Failed 500 "Failed to update payment status", d)
        else
          (Sent 200 (),
           set_receipts
             ((λ r : receipt_row,
                 if bool_decide (r !! "id" = Some (SInt receiptId))
                 then <["payment_status" := SText status]> r else r)
                <$> receipts d) d)
    end.

End Handlers.

End Sql.

(** ** Sample data *)

Module Demo.

(** A small stand-in for the libraries, enough to run the routers. *)
Definition lib : Sql.Externals :=
  {| Sql.isEmail := λ s, negb (bool_decide (before_char "@"%char s = s));
     Sql.normalizeEmail := λ s, s;
     Sql.isISO8601 := λ s, (String.length s =? 10)%nat;
     Sql.isMobilePhone := λ s, (String.length s =? 11)%nat;
     Sql.isURL := λ s, bool_decide (String.substring 0 4 s = "http");
     Sql.trim := λ s, s;
     Sql.escape := λ s, s;
     Sql.bcrypt_hash := λ s, "$2a$10$" +:+ s;
     Sql.bcrypt_compare := λ s h, bool_decide (h = "$2a$10$" +:+ s);
     Sql.generateToken := λ u, "token-" +:+ pretty (Sql.u_id u) |}.

Definition tick : clock := {| now := 1700000999999; iso := "2023-11-14T22:29:59.999Z" |}.
Definition tock : clock := {| now := 1700001000000; iso := "2023-11-14T22:30:00.000Z" |}.

(** Two entries of the sample menu of [initializeData]. *)
Definition lechon : Simple.MenuItem :=
  {| Simple.m_id := 1; Simple.itemName := "Lechon";
     Simple.description := "Traditional Filipino roasted pig";
     Simple.category := "Main Course"; Simple.pricePerServing := num 500;
     Simple.imageUrl := "/img/lechon.jpg"; Simple.isAvailable := true |}.

Definition rice : Simple.MenuItem :=
  {| Simple.m_id := 6; Simple.itemName := "Rice";
     Simple.description := "Steamed white rice";
     Simple.category := "Side Dish"; Simple.pricePerServing := num 50;
     Simple.imageUrl := "/img/rice.jpg"; Simple.isAvailable := true |}.

(** An item that is on the menu but switched off. *)
Definition sold_out : Simple.MenuItem :=
  {| Simple.m_id := 9; Simple.itemName := "Halo-halo";
     Simple.description := "Shaved ice dessert";
     Simple.category := "Dessert"; Simple.pricePerServing := num 100;
     Simple.imageUrl := "/img/halohalo.jpg"; Simple.isAvailable := false |}.

(** The two sample accounts of [initializeData]. *)
Definition admin_user : jsobj :=
  list_to_map
    [("id", JNum (num 1)); ("username", JStr "admin"); ("email", JStr "admin@dsis.com");
     ("password", JStr "admin123"); ("firstName", JStr "Admin");
     ("lastName", JStr "User"); ("userType", JStr "admin")].

Definition customer_user : jsobj :=
  list_to_map
    [("id", JNum (num 2)); ("username", JStr "customer"); ("email", JStr "customer@test.com");
     ("password", JStr "customer123"); ("firstName", JStr "John");
     ("lastName", JStr "Doe"); ("userType", JStr "customer")].

Definition files0 : Simple.files :=
  {| Simple.users_json := [admin_user; customer_user];
     Simple.menu_json := [lechon; rice; sold_out];
     Simple.bookings_json := [];
     Simple.receipts_json := [] |}.

Definition order (date : string) (lines : list line_req) : Simple.booking_body :=
  {| Simple.eventType := Some "Wedding";
     Simple.eventDate := Some date;
     Simple.eventVenue := Some "Town hall";
     Simple.numGuests := Some 50;
     Simple.specialInstructions := None;
     Simple.menuItems := Some lines;
     Simple.customerName := Some "John Doe";
     Simple.customerEmail := Some "customer@test.com";
     Simple.customerPhone := None |}.

Definition two_lines : list line_req :=
  [ {| itemId := 1; quantity := 3 |}; {| itemId := 6; quantity := 1 |} ].

(** The database counterpart. *)
Definition alice : Sql.user_row :=
  {| Sql.u_id := 1; Sql.username := "alice"; Sql.email := "alice@example.com";
     Sql.password_hash := "$2a$10$secret1"; Sql.first_name := "Alice";
     Sql.last_name := "Reyes"; Sql.phone_number := None;
     Sql.user_type := "customer"; Sql.is_active := true;
     Sql.u_created_at := "2023-01-01"; Sql.u_updated_at := "2023-01-01" |}.

Definition bob : Sql.user_row :=
  {| Sql.u_id := 2; Sql.username := "bob"; Sql.email := "bob@example.com";
     Sql.password_hash := "$2a$10$secret2"; Sql.first_name := "Bob";
     Sql.last_name := "Cruz"; Sql.phone_number := Some "09171234567";
     Sql.user_type := "customer"; Sql.is_active := true;
     Sql.u_created_at := "2023-01-02"; Sql.u_updated_at := "2023-01-02" |}.

Definition menu_lechon : Sql.menu_row :=
  {| Sql.mi_id := 1; Sql.item_name := "Lechon";
     Sql.mi_description := "Traditional Filipino roasted pig";
     Sql.mi_category := "Main Course"; Sql.price_per_serving := num 500;
     Sql.image_url := "/img/lechon.jpg"; Sql.is_available := true;
     Sql.mi_updated_at := "2023-01-01" |}.

Definition menu_rice : Sql.menu_row :=
  {| Sql.mi_id := 6; Sql.item_name := "Rice";
     Sql.mi_description := "Steamed white rice";
     Sql.mi_category := "Side Dish"; Sql.price_per_serving := num 50;
     Sql.image_url := "/img/rice.jpg"; Sql.is_available := true;
     Sql.mi_updated_at := "2023-01-01" |}.

Definition db0 : Sql.db :=
  {| Sql.users := [alice; bob];
     Sql.menu_items := [menu_lechon; menu_rice];
     Sql.bookings := [];
     Sql.booking_items := [];
     Sql.receipts := [] |}.

Definition as_alice : Sql.caller := {| Sql.c_id := 1; Sql.userType := "customer" |}.
Definition as_bob : Sql.caller := {| Sql.c_id := 2; Sql.userType := "customer" |}.
Definition as_admin : Sql.caller := {| Sql.c_id := 99; Sql.userType := "admin" |}.

Definition sql_order (date : string) (lines : list line_req) : Sql.booking_body :=
  {| Sql.eventType := "Wedding";
     Sql.eventDate := date;
     Sql.eventVenue := "Town hall";
     Sql.numGuests := 50;
     Sql.specialInstructions := None;
     Sql.menuItems := lines |}.

(** Two servings of lechon, a booking of 1000, as each backend stores it
    for a request made at [tick]. *)
Definition one_line : list line_req := [ {| itemId := 1; quantity := 2 |} ].

Definition alices_row : Sql.booking_row :=
  {| Sql.bk_id := 1; Sql.booking_id := "BK-1700000999999-AB12C"; Sql.user_id := 1;
     Sql.event_type := "Wedding"; Sql.event_date := "2024-05-01";
     Sql.event_venue := "Town hall"; Sql.num_guests := 50;
     Sql.special_instructions := ""; Sql.booking_status := "pending";
     Sql.total_amount := num 1000;
     Sql.bk_created_at := iso tick; Sql.bk_updated_at := iso tick |}.

Definition alices_line : Sql.booking_item_row :=
  {| Sql.bi_id := 1; Sql.bi_booking_id := 1; Sql.item_id := 1; Sql.bi_quantity := 2;
     Sql.unit_price := num 500; Sql.total_price := num 1000 |}.

Definition db_booked : Sql.db :=
  {| Sql.users := [alice; bob];
     Sql.menu_items := [menu_lechon; menu_rice];
     Sql.bookings := [alices_row];
     Sql.booking_items := [alices_line];
     Sql.receipts := [] |}.

Definition customers_booking : Simple.Booking :=
  {| Simple.b_id := 1; Simple.bookingId := "BK-1700000999999";
     Simple.b_customerName := "John Doe";
     Simple.b_customerEmail := "customer@test.com";
     Simple.b_customerPhone := "";
     Simple.b_eventType := "Wedding"; Simple.b_eventDate := "2024-05-01";
     Simple.b_eventVenue := "Town hall"; Simple.b_numGuests := 50;
     Simple.b_specialInstructions := ""; Simple.bookingStatus := "pending";
     Simple.totalAmount := num 1000;
     Simple.items :=
       [ {| Simple.bi_itemId := 1; Simple.bi_itemName := "Lechon";
            Simple.bi_quantity := 2; Simple.unitPrice := num 500;
            Simple.totalPrice := num 1000 |} ];
     Simple.b_createdAt := iso tick |}.

Definition files_booked : Simple.files :=
  {| Simple.users_json := [admin_user; customer_user];
     Simple.menu_json := [lechon; rice; sold_out];
     Simple.bookings_json := [customers_booking];
     Simple.receipts_json := [] |}.

(** Somebody signs up with the customer's email. *)
Definition signup_again : Simple.register_body :=
  {| Simple.firstName := Some "Jane";
     Simple.lastName := Some "Roe";
     Simple.email := Some "customer@test.com";
     Simple.mobileNumber := None;
     Simple.password := Some "hunter22";
     Simple.repeatPassword := Some "hunter22" |}.

(** Somebody signs up with Alice's email under another username. *)
Definition sql_signup_again : Sql.register_body :=
  {| Sql.rq_username := "notalice";
     Sql.rq_email := "alice@example.com";
     Sql.rq_password := "hunter22";
     Sql.rq_firstName := "Jane";
     Sql.rq_lastName := "Roe";
     Sql.rq_phoneNumber := None |}.

(** Logins of the stored accounts and sign-ups with fresh emails. *)
Definition customer_login : Simple.login_body :=
  {| Simple.l_email := Some "customer@test.com"; Simple.l_password := Some "customer123" |}.

Definition signup_new : Simple.register_body :=
  {| Simple.firstName := Some "Jane";
     Simple.lastName := Some "Roe";
     Simple.email := Some "jane@example.com";
     Simple.mobileNumber := None;
     Simple.password := Some "hunter22";
     Simple.repeatPassword := Some "hunter22" |}.

Definition alice_login : Sql.login_body :=
  {| Sql.l_email := "alice@example.com"; Sql.l_password := "secret1" |}.

Definition sql_signup_new : Sql.register_body :=
  {| Sql.rq_username := "jane";
     Sql.rq_email := "jane@example.com";
     Sql.rq_password := "hunter22";
     Sql.rq_firstName := "Jane";
     Sql.rq_lastName := "Roe";
     Sql.rq_phoneNumber := None |}.

(** The fifth database call of a two-line booking (two lookups, the
    booking INSERT, then the two line INSERTs) fails. *)
Definition second_line_fails : Sql.faults := λ k, (k =? 4)%nat.

Definition pay_default : Sql.receipt_body :=
  {| Sql.rb_bookingId := 1; Sql.rb_paymentMethod := None; Sql.rb_paymentStatus := None |}.

(** Requests on accounts of the JSON server. *)
Definition rename_customer : Simple.profile_body :=
  {| Simple.pf_firstName := Some "Johnny";
     Simple.pf_lastName := None;
     Simple.pf_email := Some "customer@test.com";
     Simple.pf_phoneNumber := Some "09170000000";
     Simple.pf_username := Some "johnny" |}.

Definition new_password : Simple.password_body :=
  {| Simple.cp_email := Some "customer@test.com";
     Simple.cp_currentPassword := Some "customer123";
     Simple.cp_newPassword := Some "hunter22" |}.

(** Offers and messages as the JSON server stores them. *)
Definition summer_offer : Simple.Offer :=
  {| Simple.o_id := 1; Simple.title := "Summer feast"; Simple.o_description := "";
     Simple.o_imageUrl := ""; Simple.startAt := None; Simple.endAt := None;
     Simple.active := true; Simple.o_createdAt := iso tick; Simple.o_updatedAt := None |}.

Definition fiesta_offer : Simple.Offer :=
  {| Simple.o_id := 4; Simple.title := "Fiesta bundle"; Simple.o_description := "";
     Simple.o_imageUrl := ""; Simple.startAt := None; Simple.endAt := None;
     Simple.active := false; Simple.o_createdAt := iso tick; Simple.o_updatedAt := None |}.

Definition offers0 : list Simple.Offer := [summer_offer; fiesta_offer].

Definition new_offer : Simple.offer_body :=
  {| Simple.ob_title := Some "Rainy day"; Simple.ob_description := None;
     Simple.ob_imageUrl := None; Simple.ob_startAt := None; Simple.ob_endAt := None;
     Simple.ob_active := None |}.

Definition question : Simple.Message :=
  {| Simple.msg_id := 1; Simple.userEmail := "customer@test.com";
     Simple.userName := "customer"; Simple.subject := "Allergies";
     Simple.messageContent := "Is the lechon gluten free?";
     Simple.adminResponse := ""; Simple.messageStatus := "unread";
     Simple.msg_createdAt := iso tick; Simple.msg_updatedAt := iso tick |}.

Definition pay_now : Simple.receipt_body :=
  {| Simple.rb_bookingId := 1; Simple.rb_paymentMethod := None;
     Simple.rb_paymentStatus := Some "paid" |}.

(** A PUT /api/offers/:id body without fields. *)
Definition no_patch : Simple.offer_patch :=
  {| Simple.op_title := None; Simple.op_description := None; Simple.op_imageUrl := None;
     Simple.op_startAt := None; Simple.op_endAt := None; Simple.op_active := None |}.

(** Requests on accounts and on the menu of the database backend. *)
Definition alice_new_password : Sql.password_body :=
  {| Sql.pw_currentPassword := "secret1"; Sql.pw_newPassword := "hunter22" |}.

Definition new_dish : Sql.menu_body :=
  {| Sql.nb_itemName := "Pancit"; Sql.nb_description := None;
     Sql.nb_category := "Main Course"; Sql.nb_pricePerServing := num 120;
     Sql.nb_imageUrl := None; Sql.nb_isAvailable := None |}.


(** The cart of the booking page: two servings of lechon, one of rice. *)
Definition cart : list Client.cart_item :=
  [ {| Client.ct_id := 1; Client.ct_price := num 500; Client.ct_quantity := 2 |};
    {| Client.ct_id := 6; Client.ct_price := num 50; Client.ct_quantity := 1 |} ].

End Demo.

(** ** Properties the statements below are written with *)

(** A line of a stored booking of the JSON server is the priced copy of
    the requested line [l], taken from [menu]. *)
Definition simple_line_ok (menu : list Simple.MenuItem) (l : line_req)
    (bi : Simple.BookingItem) : Prop :=
  Simple.bi_itemId bi = itemId l
  ∧ Simple.bi_quantity bi = quantity l
  ∧ (∃ m, m ∈ menu ∧ Simple.m_id m = itemId l
          ∧ Simple.unitPrice bi = Simple.pricePerServing m)
  ∧ Simple.totalPrice bi = (Simple.unitPrice bi * num (Simple.bi_quantity bi))%Qc.

(** The same for a line of the database backend; the item is one that is
    switched on. *)
Definition sql_line_ok (menu : list Sql.menu_row) (l : line_req)
    (v : Sql.valid_item) : Prop :=
  Sql.vi_itemId v = itemId l
  ∧ Sql.vi_quantity v = quantity l
  ∧ (∃ m, m ∈ menu ∧ Sql.mi_id m = itemId l ∧ Sql.is_available m = true
          ∧ Sql.unitPrice v = Sql.price_per_serving m)
  ∧ Sql.totalPrice v = (Sql.unitPrice v * num (Sql.vi_quantity v))%Qc.

(** Row [r] of booking_items holds line [v] of booking [bookingId]. *)
Definition stored_as (bookingId : Z) (v : Sql.valid_item) (r : Sql.booking_item_row) : Prop :=
  Sql.bi_booking_id r = bookingId
  ∧ Sql.item_id r = Sql.vi_itemId v
  ∧ Sql.bi_quantity r = Sql.vi_quantity v
  ∧ Sql.unit_price r = Sql.unitPrice v
  ∧ Sql.total_price r = Sql.totalPrice v.

(** receipts.json as the JSON server builds it from an empty file: the
    receipt at position [i] is number [i + 1]. *)
Definition numbered (rs : list Simple.Receipt) : Prop :=
  ∀ i r, rs !! i = Some r →
    Simple.r_id r = Z.of_nat i + 1
    ∧ Simple.receiptNumber r = "R" +:+ padStart 6 "0"%char (pretty (Simple.r_id r)).

(** At most one booking that is not cancelled per event date. *)
Definition one_per_day (bs : list Simple.Booking) : Prop :=
  ∀ i j b1 b2,
    bs !! i = Some b1 → bs !! j = Some b2 →
    Simple.b_eventDate b1 = Simple.b_eventDate b2 →
    Simple.bookingStatus b1 ≠ "cancelled" → Simple.bookingStatus b2 ≠ "cancelled" →
    i = j.

(** No row of [menu] is an available item with the id of line [l]. *)
Definition unresolved (menu : list Sql.menu_row) (l : line_req) : Prop :=
  ∀ m, m ∈ menu → Sql.mi_id m = itemId l → Sql.is_available m = false.

(** The statuses a message of the JSON server may have. *)
Definition message_statuses_ok (ms : list Simple.Message) : Prop :=
  Forall (λ m, Simple.messageStatus m ∈ ["unread"; "read"; "replied"]) ms.

(** Every bookings row has one of the four statuses of the routers. *)
Definition booking_statuses_ok (d : Sql.db) : Prop :=
  Forall (λ b, Sql.booking_status b ∈ ["pending"; "confirmed"; "cancelled"; "completed"])
    (Sql.bookings d).

(** Ids, emails and usernames of the users table are keys. *)
Definition users_unique (us : list Sql.user_row) : Prop :=
  NoDup (Sql.u_id <$> us) ∧ NoDup (Sql.email <$> us) ∧ NoDup (Sql.username <$> us).

(** Every line belongs to a stored booking. *)
Definition lines_have_bookings (d : Sql.db) : Prop :=
  ∀ bi, bi ∈ Sql.booking_items d →
        ∃ b, b ∈ Sql.bookings d ∧ Sql.bk_id b = Sql.bi_booking_id bi.

(** The caller is a customer, and no bookings row with this id is theirs. *)
Definition not_theirs (d : Sql.db) (c : Sql.caller) (bookingId : Z) : Prop :=
  Sql.isAdmin c = false
  ∧ ∀ b, b ∈ Sql.bookings d → Sql.bk_id b = bookingId → Sql.user_id b ≠ Sql.c_id c.

(** The cart shows the prices of the menu. *)
Definition priced_from (menu : list Simple.MenuItem) (cart : list Client.cart_item) : Prop :=
  Forall (λ it, ∀ m, m ∈ menu → Simple.m_id m = Client.ct_id it →
                     Simple.pricePerServing m = Client.ct_price it) cart.

(** Two menu rows that differ in their time stamp at most. *)
Definition same_but_stamp (m m2 : Sql.menu_row) : Prop :=
  Sql.mi_id m2 = Sql.mi_id m
  ∧ Sql.item_name m2 = Sql.item_name m
  ∧ Sql.mi_description m2 = Sql.mi_description m
  ∧ Sql.mi_category m2 = Sql.mi_category m
  ∧ Sql.price_per_serving m2 = Sql.price_per_serving m
  ∧ Sql.image_url m2 = Sql.image_url m
  ∧ Sql.is_available m2 = Sql.is_available m.

(** ** Booking totals *)

Section Booking_totals.
Context `{Sql.Externals}.

Lemma find_bool_decide_Some {A} (P : A → Prop) `{∀ x, Decision (P x)} (l : list A) x :
  find (λ y, bool_decide (P y)) l = Some x → x ∈ l ∧ P x.
Proof.
  induction l as [|y l IH]; simpl; [done|].
  case_bool_decide as Hy.
  - intros [= ->]. split; [left | done].
  - intros Hx. destruct (IH Hx) as [Hin HP]. split; [by right | done].
Qed.

Lemma find_Some_elem {A} (p : A → bool) (l : list A) x :
  find p l = Some x → x ∈ l ∧ p x = true.
Proof.
  induction l as [|y l IH]; simpl; [done|].
  destruct (p y) eqn:Hy.
  - intros [= ->]. split; [left | done].
  - intros Hx. destruct (IH Hx) as [Hin HP]. split; [by right | done].
Qed.

Lemma find_None_all {A} (p : A → bool) (l : list A) x :
  find p l = None → x ∈ l → p x = false.
Proof.
  induction l as [|y l IH]; simpl; [by intros _ ?%elem_of_nil|].
  destruct (p y) eqn:Hy; [done|].
  intros Hn [->|Hin]%elem_of_cons; auto.
Qed.


Lemma price_lines_lines menu ls t0 t lines :
  Simple.price_lines menu ls t0 = Some (t, lines) →
  Forall2 (simple_line_ok menu) ls lines.
Proof.
  revert t0 t lines. induction ls as [|l ls IH]; intros t0 t lines; simpl.
  - intros [= <- <-]. constructor.
  - destruct (find _ menu) as [m|] eqn:Hm; [|done].
    destruct (Simple.price_lines menu ls _) as [[t' lines']|] eqn:Hrec; [|done].
    intros [= <- <-]. constructor; [|by eapply IH].
    apply (find_bool_decide_Some (λ m, Simple.m_id m = itemId l)) in Hm as [Hin Hid].
    repeat split; simpl; eauto.
Qed.


Lemma resolve_items_lines f k menu ls t0 t vs :
  Sql.resolve_items f k menu ls t0 = Sql.Resolved t vs →
  Forall2 (sql_line_ok menu) ls vs.
Proof.
  revert k t0 t vs. induction ls as [|l ls IH]; intros k t0 t vs; simpl.
  - intros [= <- <-]. constructor.
  - destruct (f k); [done|].
    destruct (find _ menu) as [m|] eqn:Hm; [|done].
    destruct (Sql.resolve_items f (S k) menu ls _) as [t' vs'| |] eqn:Hrec; try done.
    intros [= <- <-]. constructor; [|by eapply IH].
    apply find_Some_elem in Hm as [Hin [Hid Hav]%andb_prop].
    apply bool_decide_eq_true in Hid.
    repeat split; simpl; eauto.
Qed.

(** Every line INSERT appends at most one row, and that row holds the
    values of a line of the request. *)
Lemma insert_items_rows f k bookingId vs rows :
  ∃ new, Sql.insert_items f k bookingId vs rows = rows ++ new
         ∧ Forall (λ r, ∃ v, v ∈ vs ∧ stored_as bookingId v r) new
         ∧ ((∀ j, f j = false) → Forall2 (stored_as bookingId) vs new).
Proof.
  revert k rows. induction vs as [|v vs IH]; intros k rows; simpl.
  - exists []. rewrite app_nil_r. repeat split; constructor.
  - destruct (f k) eqn:Hk.
    + destruct (IH (S k) rows) as (new & -> & Hall & Hno).
      exists new. repeat split.
      * eapply Forall_impl; [exact Hall|]. intros r (v' & Hin & Hst).
        exists v'. split; [by right | done].
      * intros Hf. by rewrite Hf in Hk.
    + destruct (IH (S k) (rows ++ [Sql.item_row rows bookingId v])) as (new & -> & Hall & Hno).
      exists (Sql.item_row rows bookingId v :: new).
      rewrite <- app_assoc. repeat split.
      * constructor.
        -- exists v. split; [left | by repeat split].
        -- eapply Forall_impl; [exact Hall|]. intros r (v' & Hin & Hst).
           exists v'. split; [by right | done].
      * intros Hf. constructor; [by repeat split | by apply Hno].
Qed.

End Booking_totals.

Section Booking_totals_claim.
Context `{Sql.Externals}.


End Booking_totals_claim.


(** The booked sample stores are what the handlers make of the order for
    two servings of lechon. *)
Example db_booked_is_created :
  let d := (@Sql.createBooking Demo.lib Sql.no_faults Demo.tick "AB12C" Demo.db0
              Demo.as_alice (Demo.sql_order "2024-05-01" Demo.one_line)).2 in
  Sql.bookings d = Sql.bookings Demo.db_booked
  ∧ Sql.booking_items d = Sql.booking_items Demo.db_booked.
Proof. split; by apply (bool_decide_unpack _); vm_compute. Qed.

Example files_booked_is_created :
  Simple.bookings_json
    (Simple.createBooking true Demo.tick Demo.files0
       (Demo.order "2024-05-01" Demo.one_line)).2
  = Simple.bookings_json Demo.files_booked.
Proof. by apply (bool_decide_unpack _); vm_compute. Qed.

(** ** Receipts *)

Section Receipts.

Lemma vat_of_1000 :
  (num 1000 * vat)%Qc = num 120 ∧ (num 1000 + num 1000 * vat)%Qc = num 1120.
Proof. split; by apply (bool_decide_unpack _); vm_compute. Qed.

(** 3 at 100 and 1 at 50 make 350; the tax on it is 42 and the total 392. *)
Lemma vat_of_350 :
  (num 100 * num 3 + num 50 * num 1)%Qc = num 350
  ∧ (num 350 * vat)%Qc = num 42
  ∧ (num 350 + num 350 * vat)%Qc = num 392.
Proof. split_and!; by apply (bool_decide_unpack _); vm_compute. Qed.

(** The JSON server: the receipt's amounts are computed from the total of
    the booking it finds, and from nothing else. *)
Lemma simple_receipt_amounts ok clk fs body r fs' :
  Simple.generateReceipt ok clk fs body = (Sent 201 r, fs') →
  ∃ booking, booking ∈ Simple.bookings_json fs
    ∧ Simple.b_id booking = Simple.rb_bookingId body
    ∧ Simple.subtotal r = Simple.totalAmount booking
    ∧ Simple.taxRate r = vat
    ∧ Simple.taxAmount r = (Simple.subtotal r * vat)%Qc
    ∧ Simple.r_totalAmount r = (Simple.subtotal r + Simple.taxAmount r)%Qc.
Proof.
  unfold Simple.generateReceipt.
  destruct (find _ _) as [booking|] eqn:Hfind; [|done].
  intros [= <- <-]. simpl.
  apply (find_bool_decide_Some (λ b, Simple.b_id b = Simple.rb_bookingId body)) in Hfind
    as [Hin Hid].
  exists booking. by split_and!.
Qed.

Lemma simple_receipt_of_1000 ok clk fs body r fs' :
  Simple.generateReceipt ok clk fs body = (Sent 201 r, fs') →
  Simple.subtotal r = num 1000 →
  Simple.taxAmount r = num 120 ∧ Simple.r_totalAmount r = num 1120.
Proof.
  intros (b & _ & _ & _ & _ & Htax & Htot)%simple_receipt_amounts Hsub.
  rewrite Htot, Htax, Hsub. apply vat_of_1000.
Qed.

(** Two generations, on whatever stores, clocks and payment fields, that
    start from bookings with the same total produce the same amounts. *)
Lemma simple_receipt_depends_on_booking ok1 clk1 fs1 body1 r1 fs1' ok2 clk2 fs2 body2 r2 fs2' :
  Simple.generateReceipt ok1 clk1 fs1 body1 = (Sent 201 r1, fs1') →
  Simple.generateReceipt ok2 clk2 fs2 body2 = (Sent 201 r2, fs2') →
  Simple.subtotal r1 = Simple.subtotal r2 →
  Simple.taxAmount r1 = Simple.taxAmount r2
  ∧ Simple.r_totalAmount r1 = Simple.r_totalAmount r2.
Proof.
  intros (b1 & _ & _ & _ & _ & Htax1 & Htot1)%simple_receipt_amounts
         (b2 & _ & _ & _ & _ & Htax2 & Htot2)%simple_receipt_amounts Hsub.
  rewrite Htot1, Htot2, Htax1, Htax2, Hsub. done.
Qed.

(** C2. The receipts router of the database backend, run on a booking of
    1000: the receipt it answers with has subtotal 1000 and totalAmount
    1120 but no taxAmount property, and the row it stores has the grand
    total in tax_rate, the payment method in tax_amount, the payment
    status in total_amount and NULL in payment_status, because the INSERT
    names ten columns and binds eight values. *)
Theorem sql_receipt_loses_tax_amount :
  ∃ r d',
    @Sql.generateReceipt Demo.lib Sql.no_faults Demo.tock "XY1Z2" Demo.db_booked
      Demo.as_alice Demo.pay_default = (Sent 201 r, d')
    ∧ Sql.rr_fields r !! "subtotal" = Some (JNum (num 1000))
    ∧ Sql.rr_fields r !! "totalAmount" = Some (JNum (num 1120))
    ∧ Sql.rr_fields r !! "taxAmount" = None
    ∧ ∃ row, Sql.receipts d' = [row]
        ∧ row !! "subtotal" = Some (Sql.SReal (num 1000))
        ∧ row !! "tax_rate" = Some (Sql.SReal (num 1120))
        ∧ row !! "tax_amount" = Some (Sql.SText "Cash/Card")
        ∧ row !! "total_amount" = Some (Sql.SText "pending")
        ∧ row !! "payment_status" = Some Sql.SNull.
Proof.
  eexists _, _. split; [reflexivity|].
  split_and!; try (by apply (bool_decide_unpack _); vm_compute).
  eexists. split; [reflexivity|].
  split_and!; by apply (bool_decide_unpack _); vm_compute.
Qed.

End Receipts.

(** ** Receipt numbers *)

Section Receipt_numbers.

Lemma foldr_max_bound (l : list Z) x : x ∈ l → x ≤ foldr Z.max 0 l.
Proof.
  induction l as [|y l IH]; simpl; [by intros ?%elem_of_nil|].
  intros [->|Hin]%elem_of_cons; [lia|]. specialize (IH Hin). lia.
Qed.

Lemma foldr_max_reached (l : list Z) : foldr Z.max 0 l = 0 ∨ foldr Z.max 0 l ∈ l.
Proof.
  induction l as [|y l IH]; simpl; [by left|].
  destruct (Z.max_spec y (foldr Z.max 0 l)) as [[_ ->]|[_ ->]].
  - destruct IH as [->|Hin]; [by left | right; by right].
  - right; left.
Qed.

Lemma numbered_nil : numbered [].
Proof. by intros i r ?. Qed.

Lemma numbered_max rs :
  numbered rs → foldr Z.max 0 (Simple.r_id <$> rs) = Z.of_nat (length rs).
Proof.
  intros Hn. apply Z.le_antisymm.
  - destruct (foldr_max_reached (Simple.r_id <$> rs)) as [->|Hin]; [lia|].
    apply list_elem_of_fmap in Hin as (r & -> & Hr).
    apply list_elem_of_lookup in Hr as [i Hi].
    destruct (Hn i r Hi) as [-> _]. apply lookup_lt_Some in Hi. lia.
  - destruct rs as [|r0 rs'] using rev_ind; [simpl; lia|].
    apply foldr_max_bound, list_elem_of_fmap. exists r0. split.
    + destruct (Hn (length rs') r0) as [-> _].
      * by rewrite lookup_app_r, Nat.sub_diag by lia.
      * rewrite length_app. simpl. lia.
    + apply elem_of_app. right. left.
Qed.

(** The JSON server numbers by [receipts.length + 1].  On a file it has
    built itself that is the largest number issued so far plus one, and
    so larger than every number issued before. *)
Lemma simple_receipt_number_next clk fs body r fs' :
  numbered (Simple.receipts_json fs) →
  Simple.generateReceipt true clk fs body = (Sent 201 r, fs') →
  numbered (Simple.receipts_json fs')
  ∧ Simple.r_id r = 1 + foldr Z.max 0 (Simple.r_id <$> Simple.receipts_json fs)
  ∧ Simple.receiptNumber r = "R" +:+ padStart 6 "0"%char (pretty (Simple.r_id r))
  ∧ ∀ r', r' ∈ Simple.receipts_json fs → Simple.r_id r' < Simple.r_id r.
Proof.
  intros Hn. unfold Simple.generateReceipt.
  destruct (find _ _) as [booking|]; [|done].
  intros [= <- <-]. simpl. split_and!.
  - intros i r Hi. apply lookup_app_Some in Hi as [Hi|[Hlen Hi]]; [by apply Hn|].
    apply list_lookup_singleton_Some in Hi as [Hi <-]. simpl. split; [lia|done].
  - rewrite numbered_max by done. lia.
  - done.
  - intros r' Hin. assert (Simple.r_id r' ≤ Z.of_nat (length (Simple.receipts_json fs))).
    { rewrite <- numbered_max by done.
      apply foldr_max_bound, list_elem_of_fmap. by exists r'. }
    lia.
Qed.

Lemma client_max_acc (l : list string) (acc : Z) :
  let step := λ (max : Z) (rn : string),
                match parseInt (drop_first rn) with
                | Some number => if max <? number then number else max
                | None => max
                end in
  acc ≤ foldl step acc l
  ∧ ∀ rn n, rn ∈ l → parseInt (drop_first rn) = Some n → n ≤ foldl step acc l.
Proof.
  intros step. revert acc. induction l as [|x l IH]; intros acc; simpl.
  - split; [lia|]. by intros rn n ?%elem_of_nil.
  - destruct (IH (step acc x)) as [Hacc Hall]. split.
    + etrans; [|exact Hacc]. unfold step. repeat case_match; lia.
    + intros rn n [->|Hin]%elem_of_cons Hp; [|by eapply Hall].
      etrans; [|exact Hacc]. unfold step. rewrite Hp. case_match; lia.
Qed.

Example client_number_12 :
  Client.generateReceiptNumber 12 = ("R000012", 13)
  ∧ Client.getNextReceiptNumber ["R000003"; "R000012"; "R000007"] = 13.
Proof. split; by vm_compute. Qed.

(** The browser-side numbering takes the largest number it knows plus
    one, which is larger than every number it knows. *)
Lemma client_next_number_above (l : list string) rn n :
  rn ∈ l → parseInt (drop_first rn) = Some n → n < Client.getNextReceiptNumber l.
Proof.
  intros Hin Hp. unfold Client.getNextReceiptNumber, Client.maxNumber.
  destruct (client_max_acc l 0) as [_ Hall]. specialize (Hall rn n Hin Hp). simpl in Hall. lia.
Qed.

(** C4. Two receipts generated one after the other by the database
    backend, the second one a millisecond after the first: the first is
    numbered R999999 and the second R000000, because the number is the
    last six digits of the clock, so the later number, read as an integer,
    is smaller than the earlier one. *)
Theorem sql_receipt_number_wraps :
  ∃ r1 d1 r2 d2,
    @Sql.generateReceipt Demo.lib Sql.no_faults Demo.tick "AAAAA" Demo.db_booked
      Demo.as_alice Demo.pay_default = (Sent 201 r1, d1)
    ∧ @Sql.generateReceipt Demo.lib Sql.no_faults Demo.tock "BBBBB" d1
        Demo.as_alice Demo.pay_default = (Sent 201 r2, d2)
    ∧ now Demo.tick < now Demo.tock
    ∧ Sql.rr_fields r1 !! "receiptNumber" = Some (JStr "R999999")
    ∧ Sql.rr_fields r2 !! "receiptNumber" = Some (JStr "R000000")
    ∧ parseInt (drop_first "R999999") = Some 999999
    ∧ parseInt (drop_first "R000000") = Some 0.
Proof.
  eexists _, _, _, _. split; [reflexivity|]. split; [reflexivity|].
  split_and!; try done; by vm_compute.
Qed.

End Receipt_numbers.

(** ** One event per day *)

Section Date_exclusivity.

Lemma existsb_occupies date bs b :
  b ∈ bs → Simple.b_eventDate b = date → Simple.bookingStatus b ≠ "cancelled" →
  existsb (Simple.occupies date) bs = true.
Proof.
  intros Hin Hd Hs. apply existsb_exists. exists b. split.
  - by apply list_elem_of_In.
  - unfold Simple.occupies. rewrite bool_decide_eq_true_2 by done.
    by rewrite bool_decide_eq_false_2.
Qed.

(** The JSON server answers 409 and leaves its files alone when the date
    is taken by a booking that is not cancelled. *)
Lemma simple_date_conflict ok clk fs body b :
  Simple.missing_required body = false →
  b ∈ Simple.bookings_json fs →
  Simple.eventDate body = Some (Simple.b_eventDate b) →
  Simple.bookingStatus b ≠ "cancelled" →
  Simple.createBooking ok clk fs body
  = (Failed 409 "Sorry, this date is already booked. Please choose another date.", fs).
Proof.
  intros Hreq Hin Hdate Hs. unfold Simple.createBooking. rewrite Hreq, Hdate. simpl.
  by rewrite (existsb_occupies _ _ b).
Qed.

(** Creating bookings keeps the JSON server's store at one live booking
    per date. *)
Lemma simple_createBooking_one_per_day ok clk fs body r fs' :
  one_per_day (Simple.bookings_json fs) →
  Simple.createBooking ok clk fs body = (r, fs') →
  one_per_day (Simple.bookings_json fs').
Proof.
  intros Hinv. unfold Simple.createBooking.
  destruct (Simple.missing_required body); [by intros [= <- <-]|].
  destruct (existsb _ _) eqn:Hfree; [by intros [= <- <-]|].
  destruct (Simple.price_lines _ _ _) as [[total lines]|]; [|by intros [= <- <-]].
  destruct ok; simpl; [|by intros [= <- <-]].
  intros [= <- <-]. simpl.
  assert (∀ k b, Simple.bookings_json fs !! k = Some b →
                 Simple.b_eventDate b = default "" (Simple.eventDate body) →
                 Simple.bookingStatus b ≠ "cancelled" → False) as Hnone.
  { intros k b Hk Hd Hs. apply list_elem_of_lookup_2 in Hk.
    by rewrite (existsb_occupies _ _ b) in Hfree. }
  intros i j b1 b2 Hi Hj Hd H1 H2.
  apply lookup_app_Some in Hi as [Hi|[Hli Hi]]; apply lookup_app_Some in Hj as [Hj|[Hlj Hj]].
  - by eapply Hinv.
  - apply list_lookup_singleton_Some in Hj as [_ <-]. simpl in *.
    destruct (Hnone i b1 Hi Hd H1).
  - apply list_lookup_singleton_Some in Hi as [_ <-]. simpl in *.
    destruct (Hnone j b2 Hj (eq_sym Hd) H2).
  - apply list_lookup_singleton_Some in Hi as [Hi _].
    apply list_lookup_singleton_Some in Hj as [Hj _]. lia.
Qed.

(** The same two orders on the JSON server: the second is turned down. *)
Example simple_second_booking_refused :
  ∃ b fs',
    Simple.createBooking true Demo.tick Demo.files0 (Demo.order "2024-05-01" Demo.two_lines)
      = (Sent 201 b, fs')
    ∧ Simple.createBooking true Demo.tock fs' (Demo.order "2024-05-01" Demo.one_line)
      = (Failed 409 "Sorry, this date is already booked. Please choose another date.", fs').
Proof. eexists _, _. split; reflexivity. Qed.

(** C3. The bookings router of the database backend never looks at the
    dates already taken: Alice books 1 May 2024, then Bob books the same
    day, both requests are answered 201, and the bookings table ends up
    with two pending rows for that date. *)
Theorem sql_double_booking_accepted :
  ∃ b1 d1 b2 d2 row1 row2,
    @Sql.createBooking Demo.lib Sql.no_faults Demo.tick "AAAAA" Demo.db0 Demo.as_alice
      (Demo.sql_order "2024-05-01" Demo.two_lines) = (Sent 201 b1, d1)
    ∧ @Sql.createBooking Demo.lib Sql.no_faults Demo.tock "BBBBB" d1 Demo.as_bob
        (Demo.sql_order "2024-05-01" Demo.one_line) = (Sent 201 b2, d2)
    ∧ Sql.bookings d2 = [row1; row2]
    ∧ Sql.bk_id row1 = 1 ∧ Sql.bk_id row2 = 2
    ∧ Sql.event_date row1 = "2024-05-01" ∧ Sql.event_date row2 = "2024-05-01"
    ∧ Sql.booking_status row1 = "pending" ∧ Sql.booking_status row2 = "pending".
Proof.
  eexists _, _, _, _, _, _. split; [reflexivity|]. split; [reflexivity|].
  split; [reflexivity|]. split_and!; by vm_compute.
Qed.

End Date_exclusivity.

(** ** Validation of the requested lines *)

Section Line_validation.
Context `{Sql.Externals}.

Lemma resolve_items_no_fault f k menu ls t :
  (∀ j, f j = false) → Sql.resolve_items f k menu ls t ≠ Sql.LookupError.
Proof.
  intros Hf. revert k t. induction ls as [|l ls IH]; intros k t; simpl; [done|].
  rewrite Hf. destruct (find _ menu) as [m|]; [|done].
  destruct (Sql.resolve_items f (S k) menu ls _) eqn:Hrec; try done.
  by apply IH in Hrec.
Qed.

Lemma resolve_items_unresolved f k menu ls t l total vs :
  l ∈ ls → unresolved menu l → Sql.resolve_items f k menu ls t ≠ Sql.Resolved total vs.
Proof.
  intros Hin Hun Hr. apply resolve_items_lines in Hr.
  revert Hin. induction Hr as [|l' v ls' vs' Hok _ IH]; [by intros ?%elem_of_nil|].
  intros [<-|Hin]%elem_of_cons; [|by apply IH].
  destruct Hok as (_ & _ & (m & Hm & Hid & Hav & _) & _).
  specialize (Hun m Hm Hid). congruence.
Qed.

(** The database backend turns down an empty line list, with the
    database untouched. *)
Lemma sql_rejects_empty_lines f clk rnd d c body :
  Sql.menuItems body = [] → Sql.createBooking f clk rnd d c body = (Rejected, d).
Proof.
  intros Hnil. unfold Sql.createBooking, Sql.booking_valid. rewrite Hnil. simpl.
  by rewrite !andb_false_r.
Qed.

(** The database backend persists nothing when a line names an item that
    is missing or switched off, and answers 400 unless a lookup failed. *)
Lemma sql_rejects_unresolved_line f clk rnd d c body l r d' :
  l ∈ Sql.menuItems body → unresolved (Sql.menu_items d) l →
  Sql.createBooking f clk rnd d c body = (r, d') →
  d' = d ∧ payload r = None ∧ ((∀ j, f j = false) → status r = 400).
Proof.
  intros Hin Hun. unfold Sql.createBooking.
  destruct (negb _); [by intros [= <- <-]|].
  destruct (Sql.resolve_items _ _ _ _ _) as [total vs| |] eqn:Hr.
  - by destruct (resolve_items_unresolved _ _ _ _ _ _ _ _ Hin Hun Hr).
  - by intros [= <- <-].
  - intros [= <- <-]. split_and!; try done.
    intros Hf. by destruct (resolve_items_no_fault _ _ _ _ _ Hf Hr).
Qed.

End Line_validation.

(** The database backend on the unknown item 42. *)
Example sql_unknown_item_refused :
  @Sql.createBooking Demo.lib Sql.no_faults Demo.tick "AB12C" Demo.db0 Demo.as_alice
    (Demo.sql_order "2024-05-01" [ {| itemId := 42; quantity := 1 |} ])
  = (Failed 400 "Menu item with ID 42 not found or unavailable", Demo.db0).
Proof. by vm_compute. Qed.

(** C5. The JSON server on three requests that should be turned down:
    an empty line list is answered 201 and a booking without lines is
    written; a line for item 42, which is not on the menu, makes the
    handler throw (a 500 from Express, not a 400) with nothing written; a
    line for item 9, which is on the menu but switched off, is answered
    201 and the booking is written. *)
Theorem simple_lines_not_validated :
  (∃ b fs',
     Simple.createBooking true Demo.tick Demo.files0 (Demo.order "2024-05-01" [])
       = (Sent 201 b, fs')
     ∧ Simple.items b = [] ∧ Simple.bookings_json fs' = [b])
  ∧ Simple.createBooking true Demo.tick Demo.files0
      (Demo.order "2024-05-01" [ {| itemId := 42; quantity := 1 |} ])
    = (Threw, Demo.files0)
  ∧ (∃ b fs',
       Simple.isAvailable Demo.sold_out = false
       ∧ Simple.createBooking true Demo.tick Demo.files0
           (Demo.order "2024-05-01" [ {| itemId := Simple.m_id Demo.sold_out; quantity := 1 |} ])
         = (Sent 201 b, fs')
       ∧ Simple.bookings_json fs' = [b]).
Proof.
  split_and!.
  - eexists _, _. split; [reflexivity|]. by split.
  - reflexivity.
  - eexists _, _. split; [reflexivity|]. split; reflexivity.
Qed.

(** ** Booking and lines, all or nothing *)

Section Atomicity.

(** The JSON server keeps the lines inside the booking and writes the
    array in one go: the files are as before, or the booking is there
    with a line for every requested line. *)
Lemma simple_createBooking_all_or_nothing ok clk fs body r fs' :
  Simple.createBooking ok clk fs body = (r, fs') →
  fs' = fs
  ∨ ∃ b, r = Sent 201 b
      ∧ Simple.bookings_json fs' = Simple.bookings_json fs ++ [b]
      ∧ Simple.bookingStatus b = "pending"
      ∧ Forall2 (simple_line_ok (Simple.menu_json fs))
          (default [] (Simple.menuItems body)) (Simple.items b).
Proof.
  unfold Simple.createBooking.
  destruct (Simple.missing_required body); [intros [= <- <-]; by left|].
  destruct (existsb _ _); [intros [= <- <-]; by left|].
  destruct (Simple.price_lines _ _ _) as [[total lines]|] eqn:Hp; [|intros [= <- <-]; by left].
  destruct ok; simpl; intros [= <- <-]; [|by left].
  right. eexists. split_and!; try done. simpl. by eapply price_lines_lines.
Qed.

(** The database backend writes nothing unless it answers 201. *)
Lemma sql_createBooking_error_writes_nothing `{Sql.Externals} f clk rnd d c body r d' :
  Sql.createBooking f clk rnd d c body = (r, d') → payload r = None → d' = d.
Proof.
  unfold Sql.createBooking. repeat case_match; intros [= <- <-]; done.
Qed.

(** C6. The bookings router of the database backend, on a two-line
    booking whose second line INSERT fails: the request is answered 201
    with both lines, the bookings row is stored, and booking_items holds
    the first line only. *)
Theorem sql_booking_without_all_lines :
  ∃ b d' row line,
    @Sql.createBooking Demo.lib Demo.second_line_fails Demo.tick "AB12C" Demo.db0 Demo.as_alice
      (Demo.sql_order "2024-05-01" Demo.two_lines) = (Sent 201 b, d')
    ∧ length (Sql.cb_items b) = 2%nat
    ∧ Sql.bookings d' = [row]
    ∧ Sql.bk_id row = Sql.cb_id b
    ∧ Sql.booking_status row = "pending"
    ∧ Sql.booking_items d' = [line]
    ∧ Sql.bi_booking_id line = Sql.cb_id b
    ∧ Sql.item_id line = 1.
Proof.
  eexists _, _, _, _. split; [reflexivity|].
  split; [reflexivity|]. split; [reflexivity|]. split_and!; by vm_compute.
Qed.

End Atomicity.

(** ** Deleting a menu item *)

Section Menu_delete.

Lemma usage_count_pos d itemId :
  (0 < Sql.usage_count d itemId)%nat
  ↔ ∃ bi, bi ∈ Sql.booking_items d ∧ Sql.item_id bi = itemId.
Proof.
  unfold Sql.usage_count. split.
  - intros Hlen. destruct (filter _ _) as [|bi l] eqn:Hf; [simpl in Hlen; lia|].
    assert (bi ∈ filter (λ bi, Sql.item_id bi = itemId) (Sql.booking_items d)) as Hin
      by (rewrite Hf; left).
    apply list_elem_of_filter in Hin as [? ?]. eauto.
  - intros (bi & Hin & Hid).
    assert (bi ∈ filter (λ bi, Sql.item_id bi = itemId) (Sql.booking_items d)) as Hf
      by by apply list_elem_of_filter.
    destruct (filter _ _); [by apply elem_of_nil in Hf | simpl; lia].
Qed.

(** C7, as the code has it.  When the count query goes through: deleting
    a menu item that some booking line refers to is answered 400 and the
    database stays as it is; deleting an item no line refers to is
    answered 200 (when the DELETE goes through), after which menu_items
    holds the rows with another id, and nothing else has changed. *)
Theorem menu_item_delete_guard f d itemId :
  f 0%nat = false →
  ((∃ bi, bi ∈ Sql.booking_items d ∧ Sql.item_id bi = itemId) →
   Sql.deleteMenuItem f d itemId
   = (Failed 400 "Cannot delete menu item that is used in existing bookings", d))
  ∧ ((∀ bi, bi ∈ Sql.booking_items d → Sql.item_id bi ≠ itemId) →
     f 1%nat = false →
     ∃ d', Sql.deleteMenuItem f d itemId = (Sent 200 (), d')
       ∧ (∀ m, m ∈ Sql.menu_items d' ↔ m ∈ Sql.menu_items d ∧ Sql.mi_id m ≠ itemId)
       ∧ Sql.booking_items d' = Sql.booking_items d
       ∧ Sql.bookings d' = Sql.bookings d
       ∧ Sql.users d' = Sql.users d
       ∧ Sql.receipts d' = Sql.receipts d).
Proof.
  intros Hf0. unfold Sql.deleteMenuItem. rewrite Hf0. split.
  - intros Href%usage_count_pos. apply Nat.ltb_lt in Href. by rewrite Href.
  - intros Hfree Hf1.
    destruct (0 <? Sql.usage_count d itemId)%nat eqn:Hc.
    + apply Nat.ltb_lt, usage_count_pos in Hc as (bi & Hin & Hid).
      by destruct (Hfree bi Hin).
    + rewrite Hf1. eexists. split; [done|]. simpl. split_and!; try done.
      intros m. rewrite list_elem_of_filter. tauto.
Qed.

Lemma menu_item_delete_guard_witness :
  Sql.deleteMenuItem Sql.no_faults Demo.db_booked 1
  = (Failed 400 "Cannot delete menu item that is used in existing bookings", Demo.db_booked)
  ∧ ∃ d', Sql.deleteMenuItem Sql.no_faults Demo.db_booked 6 = (Sent 200 (), d')
      ∧ Sql.booking_items d' = Sql.booking_items Demo.db_booked.
Proof.
  destruct (menu_item_delete_guard Sql.no_faults Demo.db_booked 1 eq_refl) as [Hused _].
  destruct (menu_item_delete_guard Sql.no_faults Demo.db_booked 6 eq_refl) as [_ Hfree].
  split.
  - apply Hused. eexists. split; [left|]. reflexivity.
  - destruct Hfree as (d' & Hrun & _ & Hitems & _).
    + intros bi Hin. apply list_elem_of_singleton in Hin as ->. by vm_compute.
    + reflexivity.
    + exists d'. by split.
Defined.

(** C7 as the spec words it fails: item 1 is used by Alice's booking, and
    deleting it is answered 400, not 409. *)
Lemma menu_item_delete_is_not_409 :
  (∃ bi, bi ∈ Sql.booking_items Demo.db_booked ∧ Sql.item_id bi = 1)
  ∧ status (Sql.deleteMenuItem Sql.no_faults Demo.db_booked 1).1 = 400
  ∧ status (Sql.deleteMenuItem Sql.no_faults Demo.db_booked 1).1 ≠ 409.
Proof.
  split_and!.
  - eexists. split; [left|]. reflexivity.
  - reflexivity.
  - by vm_compute.
Qed.

End Menu_delete.

(** ** Registration with a known email *)

Section Duplicate_email.
Context `{Sql.Externals}.

Lemma find_is_Some {A} (p : A → bool) (l : list A) x :
  x ∈ l → p x = true → is_Some (find p l).
Proof.
  intros Hin Hp. destruct (find p l) eqn:Hf; [by eexists|].
  rewrite (find_None_all _ _ _ Hf Hin) in Hp. done.
Qed.

(** C8. A registration whose fields pass the checks of the route and
    whose email is the email of a stored user is answered 409, and the
    users are left as they were.  On the JSON server the request has no
    username at all; on the database backend the email is compared after
    [normalizeEmail], the lookup has to go through ([f 0 = false]), and
    the username of the request plays no part. *)
Theorem duplicate_email_is_conflict :
  (∀ ok clk fs body e p u,
     Simple.email body = Some e → e ≠ "" →
     falsy (Simple.firstName body) = false →
     falsy (Simple.lastName body) = false →
     Simple.password body = Some p →
     Simple.repeatPassword body = Some p →
     (6 ≤ String.length p)%nat →
     u ∈ Simple.users_json fs → u !! "email" = Some (JStr e) →
     Simple.register ok clk fs body
     = (Failed 409 "User with this email already exists", fs))
  ∧ (∀ f clk d body u,
       Sql.register_valid body = true →
       f 0%nat = false →
       u ∈ Sql.users d → Sql.email u = Sql.normalizeEmail (Sql.rq_email body) →
       Sql.register f clk d body = (Failed 409 "User already exists", d)).
Proof.
  split.
  - intros ok clk fs body e p u He Hne Hfn Hln Hp Hrp Hlen Hin Hu.
    unfold Simple.register. rewrite Hfn, Hln, He, Hp, Hrp. simpl.
    rewrite (bool_decide_eq_false_2 (e = "")) by done.
    assert (p ≠ "") as Hpne by (intros ->; simpl in Hlen; lia).
    rewrite (bool_decide_eq_false_2 (p = "")) by done. simpl.
    rewrite bool_decide_eq_true_2 by done. simpl.
    destruct (String.length p <? 6)%nat eqn:Hlt; [apply Nat.ltb_lt in Hlt; lia|].
    destruct (find_is_Some (Simple.has_email e) (Simple.users_json fs) u Hin) as [u' ->];
      [|done].
    unfold Simple.has_email. by apply bool_decide_eq_true_2.
  - intros f clk d body u Hvalid Hf Hin Hu.
    unfold Sql.register. rewrite Hvalid, Hf. simpl.
    destruct (find_is_Some
                (Sql.same_account (Sql.normalizeEmail (Sql.rq_email body))
                   (Sql.clean (Sql.rq_username body)))
                (Sql.users d) u Hin) as [u' ->]; [|done].
    unfold Sql.same_account. by rewrite bool_decide_eq_true_2.
Qed.

End Duplicate_email.

Lemma duplicate_email_is_conflict_witness :
  Simple.register true Demo.tick Demo.files0 Demo.signup_again
  = (Failed 409 "User with this email already exists", Demo.files0)
  ∧ @Sql.register Demo.lib Sql.no_faults Demo.tick Demo.db0 Demo.sql_signup_again
    = (Failed 409 "User already exists", Demo.db0).
Proof.
  split.
  - apply (proj1 (@duplicate_email_is_conflict Demo.lib) true Demo.tick Demo.files0
             Demo.signup_again "customer@test.com" "hunter22" Demo.customer_user);
      try reflexivity.
    + done.
    + simpl. lia.
    + right. left.
  - apply (proj2 (@duplicate_email_is_conflict Demo.lib) Sql.no_faults Demo.tick Demo.db0
             Demo.sql_signup_again Demo.alice); try reflexivity.
    left.
Defined.

(** ** Reading a booking by id *)

Section Booking_visibility.

Lemma join_users_elem d v :
  v ∈ Sql.bookings_join_users d ↔
  ∃ b u, b ∈ Sql.bookings d ∧ u ∈ Sql.users d ∧ Sql.u_id u = Sql.user_id b
         ∧ v = {| Sql.v_booking := b; Sql.v_first_name := Sql.first_name u;
                  Sql.v_last_name := Sql.last_name u; Sql.v_email := Sql.email u;
                  Sql.v_phone_number := Sql.phone_number u |}.
Proof.
  unfold Sql.bookings_join_users, Sql.owner_views. rewrite list_elem_of_bind. split.
  - intros (b & Hv & Hb). apply list_elem_of_bind in Hv as (u & Hv & Hu).
    apply list_elem_of_filter in Hu as [Hid Hu].
    apply list_elem_of_singleton in Hv. eauto 10.
  - intros (b & u & Hb & Hu & Hid & ->). exists b. split; [|done].
    apply list_elem_of_bind. exists u. split; [by left|].
    by apply list_elem_of_filter.
Qed.

Lemma find_app_split {A} (p : A → bool) (l1 l2 : list A) :
  find p (l1 ++ l2) = match find p l1 with Some x => Some x | None => find p l2 end.
Proof. induction l1 as [|x l1 IH]; simpl; [done|]. by destruct (p x). Qed.

Lemma find_all_false {A} (p : A → bool) (l : list A) :
  (∀ x, x ∈ l → p x = false) → find p l = None.
Proof.
  intros Hall. destruct (find p l) as [x|] eqn:Hfind; [|done].
  apply find_Some_elem in Hfind as [Hin Hp]. rewrite (Hall x Hin) in Hp. done.
Qed.

(** For a caller who is not an admin, the lookup only ever sees the
    caller's own bookings. *)
Lemma find_visible_among_own c id users (bs : list Sql.booking_row) :
  Sql.isAdmin c = false →
  find (Sql.visible_to c id) (bs ≫= Sql.owner_views users)
  = find (Sql.visible_to c id)
      (filter (λ b, Sql.user_id b = Sql.c_id c) bs ≫= Sql.owner_views users).
Proof.
  intros Hadm. induction bs as [|b bs IH]; [done|].
  rewrite filter_cons. change ((b :: bs) ≫= Sql.owner_views users)
    with (Sql.owner_views users b ++ (bs ≫= Sql.owner_views users)).
  rewrite find_app_split. case_decide as Hown.
  - change ((b :: filter (λ b, Sql.user_id b = Sql.c_id c) bs) ≫= Sql.owner_views users)
      with (Sql.owner_views users b
            ++ (filter (λ b, Sql.user_id b = Sql.c_id c) bs ≫= Sql.owner_views users)).
    rewrite find_app_split. by rewrite IH.
  - rewrite find_all_false; [exact IH|].
    intros v Hv. apply list_elem_of_bind in Hv as (u & Hv & _).
    apply list_elem_of_singleton in Hv as ->.
    unfold Sql.visible_to. simpl. rewrite Hadm. simpl.
    rewrite (bool_decide_eq_false_2 (Sql.user_id b = Sql.c_id c)) by done.
    apply andb_false_r.
Qed.

(** What a customer reads by id does not depend on the bookings of other
    users: two databases with the same users and menu, the same bookings
    of the caller and the same lines for them answer alike. *)
Lemma sql_getBooking_own_data_only f d1 d2 c id :
  Sql.isAdmin c = false →
  Sql.users d1 = Sql.users d2 →
  Sql.menu_items d1 = Sql.menu_items d2 →
  filter (λ b, Sql.user_id b = Sql.c_id c) (Sql.bookings d1)
  = filter (λ b, Sql.user_id b = Sql.c_id c) (Sql.bookings d2) →
  (∀ b, b ∈ Sql.bookings d1 → Sql.user_id b = Sql.c_id c →
        filter (λ bi, Sql.bi_booking_id bi = Sql.bk_id b) (Sql.booking_items d1)
        = filter (λ bi, Sql.bi_booking_id bi = Sql.bk_id b) (Sql.booking_items d2)) →
  Sql.getBooking f d1 c id = Sql.getBooking f d2 c id.
Proof.
  intros Hadm Hu Hm Hb Hlines. unfold Sql.getBooking.
  destruct (f 0%nat); [done|].
  assert (find (Sql.visible_to c id) (Sql.bookings_join_users d1)
          = find (Sql.visible_to c id) (Sql.bookings_join_users d2)) as Hfind.
  { unfold Sql.bookings_join_users.
    rewrite (find_visible_among_own c id (Sql.users d1) (Sql.bookings d1) Hadm).
    rewrite (find_visible_among_own c id (Sql.users d2) (Sql.bookings d2) Hadm).
    by rewrite Hb, Hu. }
  rewrite <- Hfind.
  destruct (find _ (Sql.bookings_join_users d1)) as [v|] eqn:Hv; [|done].
  destruct (f 1%nat); [done|].
  apply find_Some_elem in Hv as [Hin Hvis].
  apply join_users_elem in Hin as (b & u & Hbin & _ & _ & ->).
  unfold Sql.visible_to in Hvis. simpl in Hvis. rewrite Hadm in Hvis.
  apply andb_prop in Hvis as [Hid%bool_decide_eq_true Hown%bool_decide_eq_true].
  unfold Sql.booking_items_of. rewrite <- Hid, (Hlines b Hbin Hown), Hm. done.
Qed.

(** C9, as the code has it.  On the database backend a caller who is not
    an admin and does not own the booking with the requested id gets no
    booking data whatever the database calls do, and gets 404 "Booking
    not found" when the lookup goes through; an admin gets the booking,
    when its id is a key, its owner is in users and both queries go
    through.  The JSON server does not know who is asking: it answers
    with a stored booking that has the requested id. *)
Theorem booking_by_id_visibility :
  (∀ f d c id,
     Sql.isAdmin c = false →
     (∀ b, b ∈ Sql.bookings d → Sql.bk_id b = id → Sql.user_id b ≠ Sql.c_id c) →
     payload (Sql.getBooking f d c id) = None
     ∧ (f 0%nat = false → Sql.getBooking f d c id = Failed 404 "Booking not found"))
  ∧ (∀ f d c id b u,
       Sql.isAdmin c = true →
       b ∈ Sql.bookings d → Sql.bk_id b = id →
       (∀ b', b' ∈ Sql.bookings d → Sql.bk_id b' = id → b' = b) →
       u ∈ Sql.users d → Sql.u_id u = Sql.user_id b →
       f 0%nat = false → f 1%nat = false →
       ∃ v, Sql.getBooking f d c id = Sent 200 (v, Sql.booking_items_of d id)
            ∧ Sql.v_booking v = b)
  ∧ (∀ fs id b,
       b ∈ Simple.bookings_json fs → Simple.b_id b = id →
       ∃ b', Simple.getBooking fs id = Sent 200 b'
             ∧ b' ∈ Simple.bookings_json fs ∧ Simple.b_id b' = id).
Proof.
  split_and!.
  - intros f d c id Hadm Hown.
    assert (find (Sql.visible_to c id) (Sql.bookings_join_users d) = None) as Hnone.
    { destruct (find _ _) as [v|] eqn:Hfind; [|done].
      apply find_Some_elem in Hfind as [Hin Hvis].
      apply join_users_elem in Hin as (b & u & Hb & _ & _ & ->).
      unfold Sql.visible_to in Hvis. simpl in Hvis. rewrite Hadm in Hvis.
      apply andb_prop in Hvis as [Hid%bool_decide_eq_true Hme%bool_decide_eq_true].
      by destruct (Hown b Hb Hid). }
    unfold Sql.getBooking. rewrite Hnone. split.
    + by destruct (f 0%nat).
    + by intros ->.
  - intros f d c id b u Hadm Hb Hid Hkey Hu Huid Hf0 Hf1.
    unfold Sql.getBooking. rewrite Hf0.
    destruct (find_is_Some (Sql.visible_to c id) (Sql.bookings_join_users d)
                {| Sql.v_booking := b; Sql.v_first_name := Sql.first_name u;
                   Sql.v_last_name := Sql.last_name u; Sql.v_email := Sql.email u;
                   Sql.v_phone_number := Sql.phone_number u |}) as [v Hfind].
    { apply join_users_elem. eauto 10. }
    { unfold Sql.visible_to. simpl. rewrite Hadm. by rewrite bool_decide_eq_true_2. }
    rewrite Hfind, Hf1. exists v. split; [done|].
    apply find_Some_elem in Hfind as [Hin Hvis].
    apply join_users_elem in Hin as (b' & u' & Hb' & _ & _ & ->). simpl.
    apply andb_prop in Hvis as [Hid'%bool_decide_eq_true _]. by apply Hkey.
  - intros fs id b Hb Hid. unfold Simple.getBooking.
    destruct (find_is_Some (λ b, bool_decide (Simple.b_id b = id))
                (Simple.bookings_json fs) b Hb) as [b' Hfind].
    { by apply bool_decide_eq_true_2. }
    rewrite Hfind. exists b'. split; [done|].
    by apply (find_bool_decide_Some (λ b, Simple.b_id b = id)) in Hfind.
Qed.

Lemma booking_by_id_visibility_witness :
  Sql.getBooking Sql.no_faults Demo.db_booked Demo.as_bob 1
  = Failed 404 "Booking not found"
  ∧ (∃ v, Sql.getBooking Sql.no_faults Demo.db_booked Demo.as_admin 1
          = Sent 200 (v, Sql.booking_items_of Demo.db_booked 1)
          ∧ Sql.user_id (Sql.v_booking v) = 1)
  ∧ (∃ b', Simple.getBooking Demo.files_booked 1 = Sent 200 b'
           ∧ Simple.b_customerEmail b' = "customer@test.com").
Proof.
  destruct booking_by_id_visibility as (Hother & Hadmin & Hopen).
  split_and!.
  - apply (Hother Sql.no_faults Demo.db_booked Demo.as_bob 1); [reflexivity| |reflexivity].
    intros b Hb _. apply list_elem_of_singleton in Hb as ->. by vm_compute.
  - destruct (Hadmin Sql.no_faults Demo.db_booked Demo.as_admin 1 Demo.alices_row Demo.alice)
      as (v & Hrun & Hv); try reflexivity.
    + left.
    + intros b' Hb' _. by apply list_elem_of_singleton in Hb'.
    + left.
    + exists v. split; [exact Hrun|]. by rewrite Hv.
  - destruct (Hopen Demo.files_booked 1 Demo.customers_booking)
      as (b' & Hrun & Hin & _); [left|reflexivity|].
    exists b'. split; [exact Hrun|].
    by apply list_elem_of_singleton in Hin as ->.
Defined.

(** C9 as the spec words it fails on the JSON server: the booking made
    for customer@test.com is handed to any request for /api/bookings/1,
    which is answered 200, not 403 or 404. *)
Lemma simple_booking_open_to_anyone :
  ∃ b, Simple.getBooking Demo.files_booked 1 = Sent 200 b
       ∧ Simple.b_customerEmail b = "customer@test.com"
       ∧ status (Simple.getBooking Demo.files_booked 1) ≠ 403
       ∧ status (Simple.getBooking Demo.files_booked 1) ≠ 404.
Proof.
  eexists. split; [reflexivity|]. split_and!; by vm_compute.
Qed.

End Booking_visibility.

(** ** Credentials in responses *)

Section Credentials.
Context `{Sql.Externals}.

Lemma user_obj_no_password u : Sql.user_obj u !! "password" = None.
Proof. reflexivity. Qed.

Lemma newUser_no_hash clk users body :
  Simple.newUser clk users body !! "password_hash" = None.
Proof. reflexivity. Qed.

(** The JSON server never writes a user with a password_hash property. *)
Lemma simple_register_keeps_no_hash ok clk fs body r fs' :
  Forall (λ u : jsobj, u !! "password_hash" = None) (Simple.users_json fs) →
  Simple.register ok clk fs body = (r, fs') →
  Forall (λ u : jsobj, u !! "password_hash" = None) (Simple.users_json fs').
Proof.
  intros Hinv. unfold Simple.register, Simple.writeData.
  repeat case_match; intros [= <- <-]; simplify_eq; try done.
  simpl. apply Forall_app. split; [done|]. constructor; [|done].
  apply newUser_no_hash.
Qed.

Lemma sample_users_no_hash :
  Forall (λ u : jsobj, u !! "password_hash" = None) (Simple.users_json Demo.files0).
Proof. repeat constructor. Qed.

(** C10. The user object of a successful login or registration has
    neither a password nor a password_hash property, on both backends.
    For a login on the JSON server, users.json is one the server has
    written: no stored user has a password_hash property. *)
Theorem response_user_has_no_credentials :
  (∀ fs body c u,
     Forall (λ s : jsobj, s !! "password_hash" = None) (Simple.users_json fs) →
     Simple.login fs body = Sent c u →
     u !! "password" = None ∧ u !! "password_hash" = None)
  ∧ (∀ ok clk fs body c u fs',
       Simple.register ok clk fs body = (Sent c u, fs') →
       u !! "password" = None ∧ u !! "password_hash" = None)
  ∧ (∀ f d body c token u,
       Sql.login f d body = Sent c (token, u) →
       u !! "password" = None ∧ u !! "password_hash" = None)
  ∧ (∀ f clk d body c token u d',
       Sql.register f clk d body = (Sent c (token, u), d') →
       u !! "password" = None ∧ u !! "password_hash" = None).
Proof.
  split_and!.
  - intros fs body c u Hinv. unfold Simple.login.
    destruct (_ || _); [done|].
    destruct (find _ _) as [user|] eqn:Hfind; [|done].
    intros [= <- <-]. apply find_Some_elem in Hfind as [Hin _].
    split; [apply lookup_delete_eq|].
    rewrite lookup_delete_ne by done.
    by apply (proj1 (Forall_forall _ _) Hinv).
  - intros ok clk fs body c u fs'. unfold Simple.register, Simple.writeData.
    repeat case_match; intros [= <- <- <-]; simplify_eq.
    split; [apply lookup_delete_eq|].
    rewrite lookup_delete_ne by done. apply newUser_no_hash.
  - intros f d body c token u. unfold Sql.login.
    repeat case_match; intros [= <- <- <-]; simplify_eq.
    split; [|apply lookup_delete_eq].
    rewrite lookup_delete_ne by done. apply user_obj_no_password.
  - intros f clk d body c token u d'. unfold Sql.register.
    repeat case_match; intros [= <- <- <- <-]; simplify_eq.
    split; [|apply lookup_delete_eq].
    rewrite lookup_delete_ne by done. apply user_obj_no_password.
Qed.

End Credentials.

Lemma response_user_has_no_credentials_witness :
  (∃ u, Simple.login Demo.files0 Demo.customer_login = Sent 200 u
        ∧ u !! "password" = None ∧ u !! "password_hash" = None)
  ∧ (∃ u fs', Simple.register true Demo.tick Demo.files0 Demo.signup_new = (Sent 201 u, fs')
              ∧ u !! "password" = None ∧ u !! "password_hash" = None)
  ∧ (∃ token u, @Sql.login Demo.lib Sql.no_faults Demo.db0 Demo.alice_login
                = Sent 200 (token, u)
                ∧ u !! "password" = None ∧ u !! "password_hash" = None)
  ∧ (∃ token u d', @Sql.register Demo.lib Sql.no_faults Demo.tick Demo.db0 Demo.sql_signup_new
                   = (Sent 201 (token, u), d')
                   ∧ u !! "password" = None ∧ u !! "password_hash" = None).
Proof.
  destruct (@response_user_has_no_credentials Demo.lib) as (Hl & Hr & Hsl & Hsr).
  split_and!.
  - eexists. split; [reflexivity|].
    exact (Hl Demo.files0 Demo.customer_login _ _ sample_users_no_hash eq_refl).
  - eexists _, _. split; [reflexivity|].
    exact (Hr true Demo.tick Demo.files0 Demo.signup_new _ _ _ eq_refl).
  - eexists _, _. split; [reflexivity|].
    exact (Hsl Sql.no_faults Demo.db0 Demo.alice_login _ _ _ eq_refl).
  - eexists _, _, _. split; [reflexivity|].
    exact (Hsr Sql.no_faults Demo.tick Demo.db0 Demo.sql_signup_new _ _ _ _ eq_refl).
Defined.

(** * Further properties of the handlers *)

(** ** Status updates on the JSON server *)

Section Simple_status.

Lemma update_first_spec {A} (p : A → bool) (g : A → A) (l : list A) :
  (find p l = None ∧ update_first p g l = l)
  ∨ ∃ i x, l !! i = Some x ∧ find p l = Some x ∧ p x = true
           ∧ update_first p g l = <[i := g x]> l.
Proof.
  induction l as [|y l IH]; simpl; [by left|].
  destruct (p y) eqn:Hy.
  - right. exists 0%nat, y. by split_and!.
  - destruct IH as [[Hnone ->]|(i & x & Hi & Hfind & Hp & ->)]; [by left|].
    right. exists (S i), x. by split_and!.
Qed.



(** X3. Cancelling frees the date: when the store has one live booking
    per date and the booking with the requested id is live, a request for
    its date is refused with 409 before, and is answered 201 after the
    booking has been cancelled. *)
Theorem simple_cancel_then_rebook clk fs id b body :
  one_per_day (Simple.bookings_json fs) →
  find (λ b, bool_decide (Simple.b_id b = id)) (Simple.bookings_json fs) = Some b →
  Simple.bookingStatus b ≠ "cancelled" →
  Simple.eventDate body = Some (Simple.b_eventDate b) →
  Simple.missing_required body = false →
  is_Some (Simple.price_lines (Simple.menu_json fs)
             (default [] (Simple.menuItems body)) (num 0)) →
  status (Simple.createBooking true clk fs body).1 = 409
  ∧ ∃ nb fs2,
      Simple.createBooking true clk (Simple.updateBookingStatus true fs id "cancelled").2 body
      = (Sent 201 nb, fs2)
      ∧ Simple.b_eventDate nb = Simple.b_eventDate b
      ∧ Simple.bookingStatus nb = "pending".
Proof.
  intros Hinv Hfind Hlive Hdate Hreq [[total lines] Hlines].
  apply (find_bool_decide_Some (λ b, Simple.b_id b = id)) in Hfind as Hb.
  destruct Hb as [Hin Hid]. split.
  - by rewrite (simple_date_conflict true clk fs body b).
  - unfold Simple.updateBookingStatus. rewrite Hfind. simpl.
    destruct (update_first_spec (λ b, bool_decide (Simple.b_id b = id))
                (Simple.set_status "cancelled") (Simple.bookings_json fs))
      as [[Hnone _]|(i & x & Hi & Hfx & _ & ->)]; [congruence|].
    assert (x = b) as -> by congruence.
    unfold Simple.createBooking. simpl. rewrite Hreq, Hdate. simpl.
    assert (existsb (Simple.occupies (Simple.b_eventDate b))
              (<[i:=Simple.set_status "cancelled" b]> (Simple.bookings_json fs)) = false)
      as ->.
    { apply not_true_is_false. intros Hex.
      apply existsb_exists in Hex as (b' & Hb' & Hocc).
      apply list_elem_of_In, list_elem_of_lookup in Hb' as [j Hj].
      unfold Simple.occupies in Hocc.
      apply andb_prop in Hocc as [Hd%bool_decide_eq_true Hs%negb_true_iff].
      apply bool_decide_eq_false in Hs.
      apply list_lookup_insert_Some in Hj as [(_ & <- & _)|[Hne Hj]]; [done|].
      apply Hne. symmetry. eapply (Hinv j i b' b); eauto. }
    rewrite Hlines. eexists _, _. by split_and!.
Qed.

End Simple_status.

Lemma files_booked_one_per_day : one_per_day (Simple.bookings_json Demo.files_booked).
Proof.
  intros i j b1 b2 Hi%lookup_lt_Some Hj%lookup_lt_Some _ _ _.
  simpl in Hi, Hj. lia.
Defined.



Lemma simple_cancel_then_rebook_witness :
  status (Simple.createBooking true Demo.tock Demo.files_booked
            (Demo.order "2024-05-01" Demo.two_lines)).1 = 409
  ∧ ∃ nb fs2,
      Simple.createBooking true Demo.tock
        (Simple.updateBookingStatus true Demo.files_booked 1 "cancelled").2
        (Demo.order "2024-05-01" Demo.two_lines) = (Sent 201 nb, fs2)
      ∧ Simple.b_eventDate nb = "2024-05-01"
      ∧ Simple.bookingStatus nb = "pending".
Proof.
  apply (simple_cancel_then_rebook Demo.tock Demo.files_booked 1 Demo.customers_booking
           (Demo.order "2024-05-01" Demo.two_lines) files_booked_one_per_day eq_refl).
  - by vm_compute.
  - reflexivity.
  - reflexivity.
  - eexists. reflexivity.
Defined.

(** ** Accounts on the JSON server *)

Section Simple_accounts.

Lemma find_update_first {A} (p q : A → bool) (g : A → A) (l : list A) x :
  find p l = Some x → q (g x) = true → (∀ y, q y = true → p y = true) →
  find q (update_first p g l) = Some (g x).
Proof.
  intros Hfind Hq Hqp. induction l as [|y l IH]; simpl in *; [done|].
  destruct (p y) eqn:Hy.
  - simplify_eq. simpl. by rewrite Hq.
  - simpl. destruct (q y) eqn:Hqy; [|by apply IH].
    apply Hqp in Hqy. congruence.
Qed.

Lemma credentials_imply_email e p (u : jsobj) :
  Simple.credentials_match e p u = true → Simple.has_email e u = true.
Proof. unfold Simple.credentials_match, Simple.has_email. by intros [? _]%andb_prop. Qed.

Lemma credentials_after_set e p (u : jsobj) :
  Simple.has_email e u = true →
  Simple.credentials_match e p (Simple.set_password p u) = true.
Proof.
  unfold Simple.has_email, Simple.credentials_match, Simple.set_password.
  intros He%bool_decide_eq_true.
  rewrite lookup_insert_ne by done. rewrite lookup_insert_eq.
  by rewrite !bool_decide_eq_true_2.
Qed.

Lemma login_after_set_password fs fs' e p user :
  e ≠ "" → p ≠ "" →
  find (Simple.has_email e) (Simple.users_json fs) = Some user →
  Simple.users_json fs'
  = update_first (Simple.has_email e) (Simple.set_password p) (Simple.users_json fs) →
  ∃ u, Simple.login fs' {| Simple.l_email := Some e; Simple.l_password := Some p |}
       = Sent 200 u
       ∧ u !! "email" = Some (JStr e) ∧ u !! "password" = None.
Proof.
  intros He Hp Hfind Husers. unfold Simple.login. simpl.
  rewrite (bool_decide_eq_false_2 (e = "")), (bool_decide_eq_false_2 (p = "")) by done.
  simpl. rewrite Husers.
  rewrite (find_update_first _ (Simple.credentials_match e p) _ _ user Hfind).
  - eexists. split; [done|]. apply find_Some_elem in Hfind as [_ Hem].
    apply bool_decide_eq_true in Hem. unfold Simple.set_password. split.
    + rewrite lookup_delete_ne by done. by rewrite lookup_insert_ne.
    + apply lookup_delete_eq.
  - apply credentials_after_set. by apply find_Some_elem in Hfind as [_ ?].
  - apply credentials_imply_email.
Qed.

Lemma long_not_empty (p : string) : (6 ≤ String.length p)%nat → p ≠ "".
Proof. intros Hlen ->. simpl in Hlen. lia. Qed.

(** X4. PUT /api/auth/profile never changes the email, the password or
    the id of any stored user, nor the number of users, whatever the
    request says; the user it answers with has no password property. *)
Theorem simple_profile_keeps_email_and_password ok fs body r fs' :
  Simple.updateProfile ok fs body = (r, fs') →
  (λ u : jsobj, (u !! "email", u !! "password", u !! "id")) <$> Simple.users_json fs'
  = (λ u : jsobj, (u !! "email", u !! "password", u !! "id")) <$> Simple.users_json fs
  ∧ (∀ u, payload r = Some u → u !! "password" = None)
  ∧ Simple.bookings_json fs' = Simple.bookings_json fs
  ∧ Simple.menu_json fs' = Simple.menu_json fs
  ∧ Simple.receipts_json fs' = Simple.receipts_json fs.
Proof.
  unfold Simple.updateProfile.
  destruct (falsy (Simple.pf_email body)); [by intros [= <- <-]|].
  destruct (list_find _ _) as [[i u0]|] eqn:Hfind; [|by intros [= <- <-]].
  apply list_find_Some in Hfind as (Hi & _ & _).
  rewrite (bool_decide_eq_true_2 (Simple.pf_email body = Simple.pf_email body)) by done.
  rewrite andb_false_r. rewrite (list_insert_id _ _ _ Hi).
  destruct (if negb _ && _ then _ else _) as [w|] eqn:Hw; [|by intros [= <- <-]].
  assert (w !! "email" = u0 !! "email" ∧ w !! "password" = u0 !! "password"
          ∧ w !! "id" = u0 !! "id") as (Hem & Hpw & Hid).
  { clear -Hw. repeat case_match; simplify_eq; rewrite ?lookup_insert_ne by done; done. }
  unfold Simple.writeData. destruct ok.
  2: { intros [= <- <-]. by split_and!. }
  destruct (Simple.pf_phoneNumber body), (falsy (Simple.pf_lastName body)),
    (falsy (Simple.pf_firstName body)); intros [= <- <-]; simpl;
    (split_and!; try done;
     [ rewrite list_fmap_insert; apply list_insert_id;
       rewrite list_lookup_fmap, Hi; simpl;
       rewrite ?lookup_insert_ne by done; by rewrite Hem, Hpw, Hid
     | intros u [= <-]; apply lookup_delete_eq ]).
Qed.

(** X5. After POST /api/auth/change-password has answered 200, a login
    with the email and the new password is answered 200 with that user,
    and, when the email belongs to one stored user only, a login with the
    old password is answered 401. *)
Theorem simple_change_password_then_login ok fs body fs' e old p :
  Simple.changePassword ok fs body = (Sent 200 (), fs') →
  Simple.cp_email body = Some e →
  Simple.cp_currentPassword body = Some old →
  Simple.cp_newPassword body = Some p →
  (∃ u, Simple.login fs' {| Simple.l_email := Some e; Simple.l_password := Some p |}
        = Sent 200 u
        ∧ u !! "email" = Some (JStr e) ∧ u !! "password" = None)
  ∧ (old ≠ p →
     (∀ i j (u v : jsobj),
        Simple.users_json fs !! i = Some u → Simple.users_json fs !! j = Some v →
        u !! "email" = Some (JStr e) → v !! "email" = Some (JStr e) → i = j) →
     Simple.login fs' {| Simple.l_email := Some e; Simple.l_password := Some old |}
     = Failed 401 "Invalid email or password").
Proof.
  unfold Simple.changePassword. intros Hrun He Hold Hp. rewrite He, Hold, Hp in Hrun.
  simpl in Hrun.
  destruct (bool_decide (e = "")) eqn:Hee; [done|]. apply bool_decide_eq_false in Hee.
  destruct (bool_decide (old = "")) eqn:Hoe; [done|]. apply bool_decide_eq_false in Hoe.
  destruct (bool_decide (p = "")) eqn:Hpe; [done|]. apply bool_decide_eq_false in Hpe.
  simpl in Hrun. destruct (String.length p <? 6)%nat; [done|].
  destruct (find _ _) as [user|] eqn:Hfind; [|done].
  destruct (negb _); [done|].
  unfold Simple.writeData in Hrun. destruct ok; [|done].
  injection Hrun as <-. split.
  - by eapply login_after_set_password.
  - intros Hne Huniq. unfold Simple.login. simpl.
    rewrite (bool_decide_eq_false_2 (e = "")), (bool_decide_eq_false_2 (old = "")) by done.
    simpl. rewrite find_all_false; [done|].
    intros y Hy.
    destruct (update_first_spec (Simple.has_email e) (Simple.set_password p)
                (Simple.users_json fs)) as [[Hnone _]|(i & x & Hi & _ & Hx & Hupd)];
      [congruence|].
    rewrite Hupd in Hy. apply list_elem_of_lookup in Hy as [j Hj].
    unfold Simple.credentials_match.
    apply list_lookup_insert_Some in Hj as [(_ & <- & _)|[Hne' Hj]].
    + unfold Simple.set_password. rewrite lookup_insert_eq.
      rewrite (bool_decide_eq_false_2 (Some (JStr p) = Some (JStr old))) by congruence.
      apply andb_false_r.
    + rewrite (bool_decide_eq_false_2 (y !! "email" = Some (JStr e))); [done|].
      intros Hem. apply Hne'. apply bool_decide_eq_true in Hx. by eapply (Huniq i j x y).
Qed.

(** X6. POST /api/auth/forgot-password with the email of a stored account
    and no mobile number is answered 200 without any proof of identity,
    and a login with that email and the new password succeeds afterwards. *)
Theorem simple_forgot_password_then_login fs e p (u0 : jsobj) :
  e ≠ "" → (6 ≤ String.length p)%nat →
  u0 ∈ Simple.users_json fs → u0 !! "email" = Some (JStr e) →
  ∃ fs' u,
    Simple.forgotPassword true fs
      {| Simple.fp_email := Some e; Simple.fp_mobileNumber := None;
         Simple.fp_newPassword := Some p |} = (Sent 200 (), fs')
    ∧ Simple.login fs' {| Simple.l_email := Some e; Simple.l_password := Some p |}
      = Sent 200 u
    ∧ u !! "email" = Some (JStr e).
Proof.
  intros He Hlen Hin Hu0. pose proof (long_not_empty p Hlen) as Hp.
  unfold Simple.forgotPassword. simpl.
  rewrite (bool_decide_eq_false_2 (e = "")), (bool_decide_eq_false_2 (p = "")) by done.
  simpl. destruct (String.length p <? 6)%nat eqn:Hlt; [apply Nat.ltb_lt in Hlt; lia|].
  destruct (find_is_Some (Simple.has_email e) (Simple.users_json fs) u0 Hin) as [user Hfind].
  { unfold Simple.has_email. by apply bool_decide_eq_true_2. }
  rewrite Hfind. simpl.
  destruct (login_after_set_password fs
              (Simple.set_users
                 (update_first (Simple.has_email e) (Simple.set_password p)
                    (Simple.users_json fs)) fs) e p user He Hp Hfind eq_refl)
    as (u & Hlogin & Hem & _).
  eexists _, u. by split_and!.
Qed.

End Simple_accounts.

Lemma simple_profile_keeps_email_and_password_witness :
  (λ u : jsobj, (u !! "email", u !! "password", u !! "id"))
    <$> Simple.users_json (Simple.updateProfile true Demo.files0 Demo.rename_customer).2
  = (λ u : jsobj, (u !! "email", u !! "password", u !! "id"))
    <$> Simple.users_json Demo.files0.
Proof.
  exact (proj1 (simple_profile_keeps_email_and_password true Demo.files0 Demo.rename_customer
                  _ _ eq_refl)).
Defined.

Lemma simple_change_password_then_login_witness :
  ∃ u, Simple.login (Simple.changePassword true Demo.files0 Demo.new_password).2
         {| Simple.l_email := Some "customer@test.com";
            Simple.l_password := Some "hunter22" |} = Sent 200 u
       ∧ u !! "email" = Some (JStr "customer@test.com") ∧ u !! "password" = None.
Proof.
  exact (proj1 (simple_change_password_then_login true Demo.files0 Demo.new_password _
                  "customer@test.com" "customer123" "hunter22"
                  eq_refl eq_refl eq_refl eq_refl)).
Defined.

Lemma simple_forgot_password_then_login_witness :
  ∃ fs' u,
    Simple.forgotPassword true Demo.files0
      {| Simple.fp_email := Some "admin@dsis.com"; Simple.fp_mobileNumber := None;
         Simple.fp_newPassword := Some "letmein1" |} = (Sent 200 (), fs')
    ∧ Simple.login fs'
        {| Simple.l_email := Some "admin@dsis.com"; Simple.l_password := Some "letmein1" |}
      = Sent 200 u
    ∧ u !! "email" = Some (JStr "admin@dsis.com").
Proof.
  apply (simple_forgot_password_then_login Demo.files0 "admin@dsis.com" "letmein1"
           Demo.admin_user).
  - done.
  - simpl. lia.
  - left.
  - reflexivity.
Defined.

(** ** Menu, offers, messages and dashboard of the JSON server *)

Section Simple_catalog.

Lemma unique_from_spec {A} `{EqDecision A} (seen l : list A) :
  NoDup (unique_from seen l)
  ∧ ∀ x, x ∈ unique_from seen l ↔ x ∈ l ∧ x ∉ seen.
Proof.
  revert seen. induction l as [|y l IH]; intros seen; simpl.
  - split; [constructor|]. intros x. split; [by intros ?%elem_of_nil | by intros [?%elem_of_nil _]].
  - case_bool_decide as Hy.
    + destruct (IH seen) as [Hnd Hel]. split; [done|].
      intros x. rewrite Hel, elem_of_cons. split; [tauto|].
      intros [[->|Hx] Hns]; [done | tauto].
    + destruct (IH (y :: seen)) as [Hnd Hel]. split.
      * constructor; [|done]. rewrite Hel, elem_of_cons. tauto.
      * intros x. rewrite elem_of_cons, Hel, !elem_of_cons. split.
        -- intros [->|[Hx Hns]]; tauto.
        -- intros [[->|Hx] Hns]; [by left|].
           destruct (decide (x = y)) as [->|Hne]; [by left | right; tauto].
Qed.

(** X7. GET /api/menu/categories/list names every category of the menu
    exactly once, and GET /api/menu?category=c returns every item of a
    listed category [c] (so a listed category is never empty). *)
Theorem simple_categories_listed_once fs :
  NoDup (Simple.getCategories fs)
  ∧ (∀ c, c ∈ Simple.getCategories fs
          ↔ ∃ m, m ∈ Simple.menu_json fs ∧ Simple.category m = c)
  ∧ (∀ m, m ∈ Simple.menu_json fs → Simple.category m ≠ "" →
          Simple.category m ∈ Simple.getCategories fs
          ∧ m ∈ Simple.getMenu fs (Some (Simple.category m))).
Proof.
  unfold Simple.getCategories, unique.
  destruct (unique_from_spec [] (Simple.category <$> Simple.menu_json fs)) as [Hnd Hel].
  assert (∀ c, c ∈ unique_from [] (Simple.category <$> Simple.menu_json fs)
               ↔ ∃ m, m ∈ Simple.menu_json fs ∧ Simple.category m = c) as Hcat.
  { intros c. rewrite Hel, list_elem_of_fmap. split.
    - intros [(m & -> & Hm) _]. eauto.
    - intros (m & Hm & <-). split; [eauto | by intros ?%elem_of_nil]. }
  split_and!; [done|done|].
  intros m Hm Hne. split; [apply Hcat; eauto|].
  unfold Simple.getMenu. simpl. rewrite bool_decide_eq_false_2 by done.
  by apply list_elem_of_filter.
Qed.

Lemma foldr_max_ge (x : Z) (l : list Z) :
  x ≤ foldr Z.max x l ∧ ∀ y, y ∈ l → y ≤ foldr Z.max x l.
Proof.
  induction l as [|z l [IH1 IH2]]; simpl.
  - split; [lia|]. by intros y ?%elem_of_nil.
  - split; [lia|]. intros y [->|Hy]%elem_of_cons; [lia|]. specialize (IH2 y Hy). lia.
Qed.

Lemma nextOfferId_above offers o :
  o ∈ offers → Simple.o_id o < Simple.nextOfferId offers.
Proof.
  intros Ho. unfold Simple.nextOfferId.
  assert (Simple.o_id o ∈ Simple.o_id <$> offers) as Hin
    by (apply list_elem_of_fmap; eauto).
  destruct (Simple.o_id <$> offers) as [|x rest]; [by apply elem_of_nil in Hin|].
  destruct (foldr_max_ge x rest) as [Hx Hrest].
  apply elem_of_cons in Hin as [->|Hin]; [lia|]. specialize (Hrest _ Hin). lia.
Qed.

(** X8. Offer ids stay pairwise distinct: creating an offer gives it an
    id larger than every stored one, and neither updating nor deleting an
    offer introduces a duplicate, whether or not the write goes through. *)
Theorem simple_offer_ids_stay_distinct offers :
  NoDup (Simple.o_id <$> offers) →
  (∀ ok clk body r offers',
     Simple.createOffer ok clk offers body = (r, offers') →
     NoDup (Simple.o_id <$> offers')
     ∧ ∀ o, payload r = Some o → ∀ o', o' ∈ offers → Simple.o_id o' < Simple.o_id o)
  ∧ (∀ ok clk id p r offers',
       Simple.updateOffer ok clk offers id p = (r, offers') →
       NoDup (Simple.o_id <$> offers'))
  ∧ (∀ ok id r offers',
       Simple.deleteOffer ok offers id = (r, offers') →
       NoDup (Simple.o_id <$> offers')).
Proof.
  intros Hnd. split_and!.
  - intros ok clk body r offers'. unfold Simple.createOffer, write_file.
    destruct (falsy _); [intros [= <- <-]; by split|].
    destruct ok; intros [= <- <-]; [|by split].
    split.
    + rewrite fmap_app. apply NoDup_app. split_and!; [done| |apply NoDup_singleton].
      intros x Hx Hx'. simpl in Hx'. apply list_elem_of_singleton in Hx'.
      apply list_elem_of_fmap in Hx as (o & -> & Ho).
      apply nextOfferId_above in Ho. lia.
    + intros o [= <-] o' Ho'. simpl. by apply nextOfferId_above.
  - intros ok clk id p r offers'. unfold Simple.updateOffer, write_file.
    destruct (list_find _ _) as [[idx o]|] eqn:Hfind; [|by intros [= <- <-]].
    apply list_find_Some in Hfind as (Hidx & _ & _).
    destruct ok; intros [= <- <-]; [|done].
    rewrite list_fmap_insert. simpl. rewrite list_insert_id; [done|].
    by rewrite list_lookup_fmap, Hidx.
  - intros ok id r offers'. unfold Simple.deleteOffer, write_file.
    destruct (list_find _ _) as [[idx o]|]; [|by intros [= <- <-]].
    destruct ok; intros [= <- <-]; [|done].
    rewrite list_fmap_delete. eapply sublist_NoDup; [done | apply sublist_delete].
Qed.

(** X9. After DELETE /api/offers/:id has answered 200, the offers with
    another id are all still there, no offer has the deleted id, and an
    update of that id is answered 404. *)
Theorem simple_offer_delete_removes offers id offers' :
  NoDup (Simple.o_id <$> offers) →
  Simple.deleteOffer true offers id = (Sent 200 (), offers') →
  (∀ o, o ∈ offers' ↔ o ∈ offers ∧ Simple.o_id o ≠ id)
  ∧ ∀ ok clk p, Simple.updateOffer ok clk offers' id p
                = (Failed 404 "Offer not found", offers').
Proof.
  intros Hnd. unfold Simple.deleteOffer, write_file.
  destruct (list_find _ _) as [[idx o0]|] eqn:Hfind; [|done].
  intros [= <-]. apply list_find_Some in Hfind as (Hidx & Hid & _).
  assert (∀ o, o ∈ delete idx offers ↔ o ∈ offers ∧ Simple.o_id o ≠ id) as Hel.
  { intros o. rewrite delete_take_drop.
    rewrite <- (take_drop_middle offers idx o0 Hidx) in Hnd.
    rewrite fmap_app, fmap_cons in Hnd.
    apply NoDup_app in Hnd as (_ & Hleft & Hright).
    apply NoDup_cons in Hright as [Hright _].
    rewrite <- (take_drop_middle offers idx o0 Hidx) at 3.
    rewrite !elem_of_app, elem_of_cons. split.
    - intros [Ho|Ho].
      + split; [by left|]. intros Hoid. apply (Hleft (Simple.o_id o)).
        * apply list_elem_of_fmap. eauto.
        * rewrite Hoid, <- Hid. left.
      + split; [by right; right|]. intros Hoid. apply Hright.
        rewrite Hid, <- Hoid. apply list_elem_of_fmap. eauto.
    - intros [[Ho|[->|Ho]] Hne]; [by left | done | by right]. }
  split; [done|].
  intros ok clk p. unfold Simple.updateOffer.
  destruct (list_find _ (delete idx offers)) as [[j o]|] eqn:Hj; [|done].
  apply list_find_Some in Hj as (Hj & Hoid & _).
  apply list_elem_of_lookup_2, Hel in Hj as [_ Hne]. done.
Qed.

Lemma Forall_update_first {A} (P : A → Prop) (p : A → bool) (g : A → A) (l : list A) :
  Forall P l → (∀ x, P (g x)) → Forall P (update_first p g l).
Proof.
  intros Hl Hg. induction Hl as [|x l Hx Hl IH]; simpl; [constructor|].
  destruct (p x); constructor; auto.
Qed.

(** X10. The status of every stored message stays one of unread, read and
    replied under sending, responding and setting a status. *)
Theorem simple_message_statuses_stay_valid ms :
  message_statuses_ok ms →
  (∀ ok clk body r ms',
     Simple.sendMessage ok clk ms body = (r, ms') → message_statuses_ok ms')
  ∧ (∀ ok clk id response r ms',
       Simple.respondToMessage ok clk ms id response = (r, ms') → message_statuses_ok ms')
  ∧ (∀ ok clk id status r ms',
       Simple.setMessageStatus ok clk ms id status = (r, ms') → message_statuses_ok ms').
Proof.
  intros Hok. unfold message_statuses_ok in *. split_and!.
  - intros ok clk body r ms'. unfold Simple.sendMessage, write_file.
    destruct (_ || _); [by intros [= <- <-]|].
    destruct ok; intros [= <- <-]; simpl; [|done].
    apply Forall_app. split; [done|]. constructor; [|done]. simpl. set_solver.
  - intros ok clk id response r ms'. unfold Simple.respondToMessage, write_file.
    destruct (falsy _); [by intros [= <- <-]|].
    destruct (find _ _); [|by intros [= <- <-]].
    destruct ok; intros [= <- <-]; simpl; [|done].
    apply Forall_update_first; [done|]. intros x. simpl. set_solver.
  - intros ok clk id status r ms'. unfold Simple.setMessageStatus, write_file.
    destruct (bool_decide (status ∈ _)) eqn:Hst; simpl; [|by intros [= <- <-]].
    apply bool_decide_eq_true in Hst.
    destruct (find _ _); [|by intros [= <- <-]].
    destruct ok; intros [= <- <-]; simpl; [|done].
    apply Forall_update_first; [done|]. intros x. done.
Qed.

(** X11. After a response has been stored, reading the message by id
    gives the message of the answer: it carries the response text and
    the status replied, and it is among the messages its sender lists. *)
Theorem simple_response_is_read_back clk ms id text m ms' :
  Simple.respondToMessage true clk ms id (Some text) = (Sent 200 m, ms') →
  find (λ x, bool_decide (Simple.msg_id x = id)) ms' = Some m
  ∧ Simple.adminResponse m = text
  ∧ Simple.messageStatus m = "replied"
  ∧ (Simple.userEmail m ≠ "" →
     ∃ mine, Simple.getMyMessages ms' (Some (Simple.userEmail m)) = Sent 200 mine
             ∧ m ∈ mine).
Proof.
  unfold Simple.respondToMessage, write_file. simpl.
  destruct (bool_decide (text = "")); [done|].
  destruct (find _ ms) as [msg|] eqn:Hfind; [|done].
  intros [= <- <-].
  assert (find (λ x, bool_decide (Simple.msg_id x = id))
            (update_first (λ x, bool_decide (Simple.msg_id x = id))
               (Simple.with_response clk text) ms)
          = Some (Simple.with_response clk text msg)) as Hread.
  { apply find_update_first; [done| |done].
    simpl. by apply find_Some_elem in Hfind as [_ ?]. }
  split_and!; try done.
  intros Hne. unfold Simple.getMyMessages. simpl.
  rewrite bool_decide_eq_false_2 by done. eexists. split; [done|].
  apply list_elem_of_filter. split; [done|]. by apply find_Some_elem in Hread as [? _].
Qed.

Lemma paidRevenue_snoc rs r :
  Simple.paidRevenue (rs ++ [r])
  = (Simple.paidRevenue rs
     + (if bool_decide (Simple.paymentStatus r = "paid")
        then Simple.r_totalAmount r else 0))%Qc.
Proof.
  unfold Simple.paidRevenue. rewrite filter_app, foldl_app.
  rewrite filter_cons, filter_nil. case_decide as Hp.
  - by rewrite bool_decide_eq_true_2.
  - rewrite bool_decide_eq_false_2 by done. simpl. ring.
Qed.

(** X12. The revenue of the dashboard counts paid receipts only: a
    generated receipt raises it by the receipt's grand total when the
    payment status of the request is paid, and leaves it as it was
    otherwise (in particular for the default status pending). *)
Theorem simple_dashboard_revenue_counts_paid clk fs body r fs' :
  Simple.generateReceipt true clk fs body = (Sent 201 r, fs') →
  Simple.totalRevenue (Simple.dashboard fs').1
  = (Simple.totalRevenue (Simple.dashboard fs).1
     + (if bool_decide (Simple.rb_paymentStatus body = Some "paid")
        then Simple.r_totalAmount r else 0))%Qc.
Proof.
  unfold Simple.generateReceipt.
  destruct (find _ _) as [booking|]; [|done].
  intros [= <- <-]. simpl. rewrite paidRevenue_snoc. simpl.
  destruct (Simple.rb_paymentStatus body) as [s|]; simpl.
  - destruct (decide (s = "paid")) as [->|Hne].
    + by rewrite !bool_decide_eq_true_2.
    + rewrite (bool_decide_eq_false_2 (s = "paid")) by done.
      by rewrite (bool_decide_eq_false_2 (Some s = Some "paid")) by congruence.
  - done.
Qed.

(** X13. A booking that has been created and written is the first of the
    dashboard's recent bookings, which are never more than ten, and it
    raises both the number of bookings and the number of pending
    bookings by one. *)
Theorem simple_dashboard_shows_new_booking clk fs body b fs' :
  Simple.createBooking true clk fs body = (Sent 201 b, fs') →
  head (Simple.dashboard fs').2 = Some b
  ∧ (length (Simple.dashboard fs').2 ≤ 10)%nat
  ∧ Simple.totalBookings (Simple.dashboard fs').1
    = S (Simple.totalBookings (Simple.dashboard fs).1)
  ∧ Simple.pendingBookings (Simple.dashboard fs').1
    = S (Simple.pendingBookings (Simple.dashboard fs).1).
Proof.
  unfold Simple.createBooking.
  destruct (Simple.missing_required body); [done|].
  destruct (existsb _ _); [done|].
  destruct (Simple.price_lines _ _ _) as [[total lines]|]; [|done].
  intros [= <- <-]. unfold Simple.dashboard. simpl.
  set (b := Simple.Build_Booking _ _ _ _ _ _ _ _ _ _ _ _ _ _). split_and!.
  - rewrite head_reverse. unfold last_k.
    rewrite last_lookup, length_drop, lookup_drop, length_app. simpl.
    rewrite <- (last_snoc b (Simple.bookings_json fs)), last_lookup, length_app. simpl.
    f_equal. lia.
  - rewrite length_reverse. unfold last_k. rewrite length_drop. lia.
  - rewrite length_app. simpl. lia.
  - rewrite filter_app, length_app, filter_cons, filter_nil.
    rewrite decide_True by done. simpl. lia.
Qed.

End Simple_catalog.

Lemma offers0_ids_distinct : NoDup (Simple.o_id <$> Demo.offers0).
Proof.
  apply NoDup_cons. split; [|apply NoDup_singleton].
  intros Hin. apply list_elem_of_singleton in Hin. discriminate Hin.
Defined.

Lemma simple_categories_listed_once_witness :
  NoDup (Simple.getCategories Demo.files0)
  ∧ "Main Course" ∈ Simple.getCategories Demo.files0
  ∧ Demo.lechon ∈ Simple.getMenu Demo.files0 (Some "Main Course").
Proof.
  split.
  - exact (proj1 (simple_categories_listed_once Demo.files0)).
  - apply (proj2 (proj2 (simple_categories_listed_once Demo.files0)) Demo.lechon).
    + left.
    + done.
Defined.

Lemma simple_offer_ids_stay_distinct_witness :
  NoDup (Simple.o_id <$> (Simple.createOffer true Demo.tick Demo.offers0 Demo.new_offer).2)
  ∧ NoDup (Simple.o_id <$> (Simple.deleteOffer true Demo.offers0 1).2).
Proof.
  destruct (simple_offer_ids_stay_distinct Demo.offers0 offers0_ids_distinct)
    as (Hcreate & _ & Hdelete).
  split.
  - exact (proj1 (Hcreate true Demo.tick Demo.new_offer _ _ eq_refl)).
  - exact (Hdelete true 1 _ _ eq_refl).
Defined.

Lemma simple_offer_delete_removes_witness :
  Demo.fiesta_offer ∈ (Simple.deleteOffer true Demo.offers0 1).2
  ∧ Simple.updateOffer true Demo.tock (Simple.deleteOffer true Demo.offers0 1).2 1
      Demo.no_patch
    = (Failed 404 "Offer not found", (Simple.deleteOffer true Demo.offers0 1).2).
Proof.
  destruct (simple_offer_delete_removes Demo.offers0 1 _ offers0_ids_distinct eq_refl)
    as [Hel Hupd].
  split.
  - apply Hel. split; [right; left | done].
  - apply Hupd.
Defined.

Lemma simple_message_statuses_stay_valid_witness :
  message_statuses_ok
    (Simple.setMessageStatus true Demo.tock [Demo.question] 1 "read").2
  ∧ message_statuses_ok
      (Simple.respondToMessage true Demo.tock [Demo.question] 1 (Some "Yes, it is.")).2.
Proof.
  assert (message_statuses_ok [Demo.question]) as Hok.
  { constructor; [|constructor]. left. }
  destruct (simple_message_statuses_stay_valid [Demo.question] Hok) as (_ & Hresp & Hset).
  split.
  - exact (Hset true Demo.tock 1 "read" _ _ eq_refl).
  - exact (Hresp true Demo.tock 1 (Some "Yes, it is.") _ _ eq_refl).
Defined.

Lemma simple_response_is_read_back_witness :
  ∃ m ms',
    Simple.respondToMessage true Demo.tock [Demo.question] 1 (Some "Yes, it is.")
    = (Sent 200 m, ms')
    ∧ find (λ x, bool_decide (Simple.msg_id x = 1)) ms' = Some m
    ∧ Simple.adminResponse m = "Yes, it is."
    ∧ Simple.messageStatus m = "replied".
Proof.
  eexists _, _. split; [reflexivity|].
  destruct (simple_response_is_read_back Demo.tock [Demo.question] 1 "Yes, it is." _ _ eq_refl)
    as (Hfind & Hresp & Hst & _).
  by split_and!.
Defined.

Lemma simple_dashboard_revenue_counts_paid_witness :
  ∃ r fs',
    Simple.generateReceipt true Demo.tock Demo.files_booked Demo.pay_now = (Sent 201 r, fs')
    ∧ Simple.totalRevenue (Simple.dashboard fs').1
      = (Simple.totalRevenue (Simple.dashboard Demo.files_booked).1
         + Simple.r_totalAmount r)%Qc.
Proof.
  eexists _, _. split; [reflexivity|].
  exact (simple_dashboard_revenue_counts_paid Demo.tock Demo.files_booked Demo.pay_now
           _ _ eq_refl).
Defined.

Lemma simple_dashboard_shows_new_booking_witness :
  ∃ b fs',
    Simple.createBooking true Demo.tick Demo.files0 (Demo.order "2024-05-01" Demo.two_lines)
    = (Sent 201 b, fs')
    ∧ head (Simple.dashboard fs').2 = Some b
    ∧ Simple.pendingBookings (Simple.dashboard fs').1 = 1%nat.
Proof.
  eexists _, _. split; [reflexivity|].
  destruct (simple_dashboard_shows_new_booking Demo.tick Demo.files0
              (Demo.order "2024-05-01" Demo.two_lines) _ _ eq_refl)
    as (Hhead & _ & _ & Hpending).
  split; [exact Hhead | exact Hpending].
Defined.

(** ** Bookings of the database backend *)

Section Sql_bookings.
Context `{Sql.Externals}.

Lemma lastID_above {A} (key : A → Z) (rows : list A) x :
  x ∈ rows → key x < Sql.lastID key rows.
Proof.
  intros Hx. unfold Sql.lastID.
  assert (key x ≤ foldr Z.max 0 (key <$> rows)); [|lia].
  apply foldr_max_bound, list_elem_of_fmap. eauto.
Qed.

Lemma filter_all {A} (P : A → Prop) `{∀ x, Decision (P x)} (l : list A) :
  Forall P l → filter P l = l.
Proof.
  induction 1 as [|x l Hx _ IH]; [done|].
  by rewrite filter_cons, decide_True, IH.
Qed.

Lemma filter_none {A} (P : A → Prop) `{∀ x, Decision (P x)} (l : list A) :
  Forall (λ x, ¬ P x) l → filter P l = [].
Proof.
  induction 1 as [|x l Hx _ IH]; [done|].
  by rewrite filter_cons, decide_False, IH.
Qed.

(** X14. Deleting a booking that has just been created gives back the
    bookings and booking_items tables as they were before the creation,
    whichever of its line INSERTs went through, provided every stored
    line belonged to a stored booking. *)
Theorem sql_create_then_delete_restores f f' clk rnd d c body b d1 :
  lines_have_bookings d →
  Sql.createBooking f clk rnd d c body = (Sent 201 b, d1) →
  f' 0%nat = false → f' 1%nat = false → f' 2%nat = false →
  ∃ d2, Sql.deleteBooking f' d1 c (Sql.cb_id b) = (Sent 200 (), d2)
        ∧ Sql.bookings d2 = Sql.bookings d
        ∧ Sql.booking_items d2 = Sql.booking_items d
        ∧ Sql.menu_items d2 = Sql.menu_items d
        ∧ Sql.users d2 = Sql.users d
        ∧ Sql.receipts d2 = Sql.receipts d.
Proof.
  intros Href. unfold Sql.createBooking.
  destruct (negb _); [done|].
  destruct (Sql.resolve_items _ _ _ _ _) as [total vs| |]; try done.
  destruct (f (length _)); [done|].
  intros [= <- <-] Hf0 Hf1 Hf2. simpl.
  set (newId := Sql.lastID Sql.bk_id (Sql.bookings d)).
  destruct (insert_items_rows f (S (length (Sql.menuItems body))) newId vs
              (Sql.booking_items d)) as (new & Hins & Hall & _).
  assert (Forall (λ b0, Sql.bk_id b0 ≠ newId) (Sql.bookings d)) as Hold.
  { apply Forall_forall. intros b0 Hb0. apply (lastID_above Sql.bk_id) in Hb0.
    fold newId in Hb0. lia. }
  assert (Forall (λ bi, Sql.bi_booking_id bi ≠ newId) (Sql.booking_items d)) as Holdl.
  { apply Forall_forall. intros bi Hbi. destruct (Href bi Hbi) as (b0 & Hb0 & <-).
    apply (lastID_above Sql.bk_id) in Hb0. fold newId in Hb0. lia. }
  unfold Sql.deleteBooking. rewrite Hf0. simpl.
  rewrite find_app_split, find_all_false.
  2: { intros b0 Hb0. apply bool_decide_eq_false.
       by apply (proj1 (Forall_forall _ _) Hold). }
  simpl. rewrite bool_decide_eq_true_2 by done. simpl.
  unfold Sql.denied. simpl. rewrite (bool_decide_eq_true_2 (Sql.c_id c = Sql.c_id c)) by done.
  rewrite andb_false_r, Hf1, Hf2. simpl.
  eexists. split; [done|]. simpl. split_and!; try done.
  - rewrite filter_app, filter_all by done.
    rewrite filter_cons, decide_False by (simpl; tauto). by rewrite filter_nil, app_nil_r.
  - rewrite Hins, filter_app, filter_all by done.
    rewrite filter_none, app_nil_r; [done|].
    eapply Forall_impl; [exact Hall|]. intros r (v & _ & Hst & _). tauto.
Qed.

(** X15. Once a booking is deleted, a menu item that was used by lines of
    that booking only can be deleted: DELETE /menu/:id is answered 200
    and no row with the item's id is left. *)
Theorem sql_delete_booking_frees_menu_item f f' d c bookingId itemId d1 :
  Sql.deleteBooking f d c bookingId = (Sent 200 (), d1) →
  (∀ bi, bi ∈ Sql.booking_items d → Sql.item_id bi = itemId →
         Sql.bi_booking_id bi = bookingId) →
  f' 0%nat = false → f' 1%nat = false →
  ∃ d2, Sql.deleteMenuItem f' d1 itemId = (Sent 200 (), d2)
        ∧ ∀ m, m ∈ Sql.menu_items d2 → Sql.mi_id m ≠ itemId.
Proof.
  unfold Sql.deleteBooking.
  destruct (f 0%nat); [done|]. destruct (find _ _) as [b0|]; [|done].
  destruct (Sql.denied c b0); [done|]. destruct (f 1%nat); [done|].
  destruct (f 2%nat); [done|]. intros [= <-] Honly Hf0 Hf1.
  unfold Sql.deleteMenuItem. rewrite Hf0.
  destruct (0 <? Sql.usage_count _ itemId)%nat eqn:Hc.
  - apply Nat.ltb_lt, usage_count_pos in Hc as (bi & Hbi & Hid). simpl in Hbi.
    apply list_elem_of_filter in Hbi as [Hne Hbi]. destruct Hne. by apply Honly.
  - rewrite Hf1. eexists. split; [done|]. simpl.
    intros m Hm. by apply list_elem_of_filter in Hm as [? _].
Qed.

Lemma set_booking_status_ok clk bookingId status rows :
  status ∈ ["pending"; "confirmed"; "cancelled"; "completed"] →
  Forall (λ b, Sql.booking_status b ∈ ["pending"; "confirmed"; "cancelled"; "completed"]) rows →
  Forall (λ b, Sql.booking_status b ∈ ["pending"; "confirmed"; "cancelled"; "completed"])
    (Sql.set_booking_status clk bookingId status rows).
Proof.
  intros Hst Hrows. unfold Sql.set_booking_status. apply Forall_fmap.
  eapply Forall_impl; [exact Hrows|]. intros b Hb. simpl. by case_bool_decide.
Qed.

Lemma Forall_filter_keep {A} (P Q : A → Prop) `{!∀ x, Decision (Q x)} (l : list A) :
  Forall P l → Forall P (filter Q l).
Proof.
  rewrite !Forall_forall. intros Hall x Hx.
  apply list_elem_of_filter in Hx as [_ Hx]. by apply Hall.
Qed.

(** X16. Every bookings row keeps one of the statuses pending, confirmed,
    cancelled and completed under creating, deleting and both status
    routes (the owner's and the admin's), whatever the database calls do. *)
Theorem sql_booking_statuses_stay_valid d :
  booking_statuses_ok d →
  (∀ f clk rnd c body r d',
     Sql.createBooking f clk rnd d c body = (r, d') → booking_statuses_ok d')
  ∧ (∀ f clk c id status r d',
       Sql.updateBookingStatus f clk d c id status = (r, d') → booking_statuses_ok d')
  ∧ (∀ f clk id status r d',
       Sql.adminUpdateBookingStatus f clk d id status = (r, d') → booking_statuses_ok d')
  ∧ (∀ f c id r d',
       Sql.deleteBooking f d c id = (r, d') → booking_statuses_ok d').
Proof.
  intros Hok. unfold booking_statuses_ok in *. split_and!.
  - intros f clk rnd c body r d'. unfold Sql.createBooking.
    destruct (negb _); [by intros [= <- <-]|].
    destruct (Sql.resolve_items _ _ _ _ _); try by intros [= <- <-].
    destruct (f (length _)); intros [= <- <-]; [done|]. simpl.
    apply Forall_app. split; [done|]. constructor; [|done]. simpl. set_solver.
  - intros f clk c id status r d'. unfold Sql.updateBookingStatus, Sql.status_valid.
    destruct (bool_decide (status ∈ _)) eqn:Hst; simpl; [|by intros [= <- <-]].
    apply bool_decide_eq_true in Hst.
    repeat case_match; intros [= <- <-]; try done; simpl;
      by apply set_booking_status_ok.
  - intros f clk id status r d'. unfold Sql.adminUpdateBookingStatus, Sql.status_valid.
    destruct (bool_decide (status ∈ _)) eqn:Hst; simpl; [|by intros [= <- <-]].
    apply bool_decide_eq_true in Hst.
    repeat case_match; intros [= <- <-]; try done; simpl;
      by apply set_booking_status_ok.
  - intros f c id r d'. unfold Sql.deleteBooking.
    repeat case_match; intros [= <- <-]; try done; simpl;
      by apply Forall_filter_keep.
Qed.

Lemma find_first_not_theirs d c bookingId b0 :
  not_theirs d c bookingId →
  find (λ b, bool_decide (Sql.bk_id b = bookingId)) (Sql.bookings d) = Some b0 →
  Sql.denied c b0 = true.
Proof.
  intros [Hadm Hown] Hfind.
  apply (find_bool_decide_Some (λ b, Sql.bk_id b = bookingId)) in Hfind as [Hin Hid].
  unfold Sql.denied. rewrite Hadm. simpl.
  by rewrite bool_decide_eq_false_2 by by apply Hown.
Qed.

(** X17. A customer can neither change the status of, nor delete, a
    booking that is not theirs: both routes leave the database as it is
    and never answer 200; when the lookup goes through they answer 403 if
    a booking with the id exists. *)
Theorem sql_foreign_booking_is_protected d c bookingId :
  not_theirs d c bookingId →
  (∀ f clk status r d',
     Sql.updateBookingStatus f clk d c bookingId status = (r, d') →
     d' = d ∧ payload r = None)
  ∧ (∀ f r d',
       Sql.deleteBooking f d c bookingId = (r, d') → d' = d ∧ payload r = None)
  ∧ (∀ f b, b ∈ Sql.bookings d → Sql.bk_id b = bookingId → f 0%nat = false →
            Sql.deleteBooking f d c bookingId = (Failed 403 "Access denied", d)).
Proof.
  intros Hnot. split_and!.
  - intros f clk status r d'. unfold Sql.updateBookingStatus.
    destruct (negb _); [by intros [= <- <-]|].
    destruct (f 0%nat); [by intros [= <- <-]|].
    destruct (find _ _) as [b0|] eqn:Hfind; [|by intros [= <- <-]].
    rewrite (find_first_not_theirs d c bookingId b0 Hnot Hfind). by intros [= <- <-].
  - intros f r d'. unfold Sql.deleteBooking.
    destruct (f 0%nat); [by intros [= <- <-]|].
    destruct (find _ _) as [b0|] eqn:Hfind; [|by intros [= <- <-]].
    rewrite (find_first_not_theirs d c bookingId b0 Hnot Hfind). by intros [= <- <-].
  - intros f b Hb Hid Hf0. unfold Sql.deleteBooking. rewrite Hf0.
    destruct (find_is_Some (λ b, bool_decide (Sql.bk_id b = bookingId)) (Sql.bookings d) b Hb)
      as [b0 Hfind]; [by apply bool_decide_eq_true_2|].
    rewrite Hfind. by rewrite (find_first_not_theirs d c bookingId b0 Hnot Hfind).
Qed.

(** X18. For an admin, GET /bookings/:id and GET /admin/bookings/:id
    answer alike. *)
Theorem sql_admin_routes_agree f d c bookingId :
  Sql.isAdmin c = true →
  Sql.getBooking f d c bookingId = Sql.adminGetBooking f d bookingId.
Proof.
  intros Hadm. unfold Sql.getBooking, Sql.adminGetBooking.
  destruct (f 0%nat); [done|].
  assert (∀ l : list Sql.booking_view,
            find (Sql.visible_to c bookingId) l
            = find (λ v, bool_decide (Sql.bk_id (Sql.v_booking v) = bookingId)) l) as ->; [|done].
  intros l. induction l as [|v l IH]; simpl; [done|].
  unfold Sql.visible_to at 1. rewrite Hadm, andb_true_r. by rewrite IH.
Qed.

End Sql_bookings.

Lemma db0_lines_have_bookings : lines_have_bookings Demo.db0.
Proof. intros bi Hbi. by apply elem_of_nil in Hbi. Defined.

Lemma db_booked_statuses_ok : booking_statuses_ok Demo.db_booked.
Proof. constructor; [by left | constructor]. Defined.

Lemma bob_not_alices : not_theirs Demo.db_booked Demo.as_bob 1.
Proof.
  split; [reflexivity|].
  intros b Hb _. apply list_elem_of_singleton in Hb as ->. by vm_compute.
Defined.

Lemma sql_create_then_delete_restores_witness :
  ∃ b d1 d2,
    @Sql.createBooking Demo.lib Sql.no_faults Demo.tick "AB12C" Demo.db0 Demo.as_alice
      (Demo.sql_order "2024-05-01" Demo.one_line) = (Sent 201 b, d1)
    ∧ Sql.deleteBooking Sql.no_faults d1 Demo.as_alice (Sql.cb_id b) = (Sent 200 (), d2)
    ∧ Sql.bookings d2 = [] ∧ Sql.booking_items d2 = [].
Proof.
  destruct (@sql_create_then_delete_restores Demo.lib Sql.no_faults Sql.no_faults Demo.tick
              "AB12C" Demo.db0 Demo.as_alice (Demo.sql_order "2024-05-01" Demo.one_line) _ _
              db0_lines_have_bookings eq_refl eq_refl eq_refl eq_refl)
    as (d2 & Hdel & Hb & Hi & _).
  eexists _, _, d2. split; [reflexivity|]. split; [exact Hdel|]. by split.
Defined.

Lemma sql_delete_booking_frees_menu_item_witness :
  ∃ d2, Sql.deleteMenuItem Sql.no_faults
          (Sql.deleteBooking Sql.no_faults Demo.db_booked Demo.as_alice 1).2 1
        = (Sent 200 (), d2)
        ∧ ∀ m, m ∈ Sql.menu_items d2 → Sql.mi_id m ≠ 1.
Proof.
  apply (sql_delete_booking_frees_menu_item Sql.no_faults Sql.no_faults Demo.db_booked
           Demo.as_alice 1 1 _ eq_refl).
  - intros bi Hbi _. apply list_elem_of_singleton in Hbi as ->. reflexivity.
  - reflexivity.
  - reflexivity.
Defined.

Lemma sql_booking_statuses_stay_valid_witness :
  booking_statuses_ok
    (Sql.updateBookingStatus Sql.no_faults Demo.tock Demo.db_booked Demo.as_alice 1
       "cancelled").2.
Proof.
  exact (proj1 (proj2 (@sql_booking_statuses_stay_valid Demo.lib Demo.db_booked db_booked_statuses_ok))
           Sql.no_faults Demo.tock Demo.as_alice 1 "cancelled" _ _ eq_refl).
Defined.

Lemma sql_foreign_booking_is_protected_witness :
  Sql.deleteBooking Sql.no_faults Demo.db_booked Demo.as_bob 1
  = (Failed 403 "Access denied", Demo.db_booked)
  ∧ (Sql.updateBookingStatus Sql.no_faults Demo.tock Demo.db_booked Demo.as_bob 1
       "cancelled").2 = Demo.db_booked.
Proof.
  destruct (sql_foreign_booking_is_protected Demo.db_booked Demo.as_bob 1 bob_not_alices)
    as (Hupd & _ & Hdel).
  split.
  - apply (Hdel Sql.no_faults Demo.alices_row); [by left | reflexivity | reflexivity].
  - exact (proj1 (Hupd Sql.no_faults Demo.tock "cancelled" _ _ eq_refl)).
Defined.

Lemma sql_admin_routes_agree_witness :
  Sql.getBooking Sql.no_faults Demo.db_booked Demo.as_admin 1
  = Sql.adminGetBooking Sql.no_faults Demo.db_booked 1.
Proof.
  exact (sql_admin_routes_agree Sql.no_faults Demo.db_booked Demo.as_admin 1 eq_refl).
Defined.

(** ** Accounts on the database backend *)

Section Sql_accounts.
Context `{Sql.Externals}.

Lemma NoDup_fmap_eq {A B} (key : A → B) (l : list A) x y :
  NoDup (key <$> l) → x ∈ l → y ∈ l → key x = key y → x = y.
Proof.
  induction l as [|z l IH]; simpl; [by intros _ ?%elem_of_nil|].
  intros [Hz Hnd]%NoDup_cons [->|Hx]%elem_of_cons [->|Hy]%elem_of_cons Heq; auto.
  - destruct Hz. rewrite Heq. apply list_elem_of_fmap. eauto.
  - destruct Hz. rewrite <- Heq. apply list_elem_of_fmap. eauto.
Qed.

Lemma find_unique {A} (p : A → bool) (l : list A) x :
  x ∈ l → p x = true → (∀ y, y ∈ l → p y = true → y = x) → find p l = Some x.
Proof.
  intros Hin Hp Hall. destruct (find_is_Some p l x Hin Hp) as [y Hy].
  rewrite Hy. f_equal. apply find_Some_elem in Hy as [? ?]. by apply Hall.
Qed.

(** X19. POST /auth/register keeps ids, emails and usernames of the users
    table free of duplicates, whatever the database calls do. *)
Theorem sql_register_keeps_users_unique f clk d body r d' :
  users_unique (Sql.users d) →
  Sql.register f clk d body = (r, d') → users_unique (Sql.users d').
Proof.
  intros (Hid & Hem & Hun). unfold Sql.register.
  destruct (negb _); [by intros [= <- <-]|].
  destruct (f 0%nat); [by intros [= <- <-]|].
  destruct (find _ (Sql.users d)) eqn:Hfind; [by intros [= <- <-]|].
  destruct (f 1%nat); [by intros [= <- <-]|].
  cbv zeta. intros Hrun.
  assert (Sql.users d' = Sql.users d ++
            [ {| Sql.u_id := Sql.lastID Sql.u_id (Sql.users d);
                 Sql.username := Sql.clean (Sql.rq_username body);
                 Sql.email := Sql.normalizeEmail (Sql.rq_email body);
                 Sql.password_hash := Sql.bcrypt_hash (Sql.rq_password body);
                 Sql.first_name := Sql.clean (Sql.rq_firstName body);
                 Sql.last_name := Sql.clean (Sql.rq_lastName body);
                 Sql.phone_number := Sql.rq_phoneNumber body;
                 Sql.user_type := "customer";
                 Sql.is_active := true;
                 Sql.u_created_at := iso clk;
                 Sql.u_updated_at := iso clk |} ]) as ->.
  { revert Hrun. destruct (f 2%nat); [by intros [= _ <-]|].
    destruct (find _ (Sql.users (Sql.set_users _ _))); by intros [= _ <-]. }
  unfold users_unique. rewrite !fmap_app. simpl.
  split_and!; apply NoDup_app; split_and!; try done; try apply NoDup_singleton;
    intros x Hx ->%list_elem_of_singleton;
    apply list_elem_of_fmap in Hx as (u & Heq & Hu).
  - apply (lastID_above Sql.u_id) in Hu. lia.
  - apply (find_None_all _ _ _ Hfind) in Hu. unfold Sql.same_account in Hu.
    by rewrite bool_decide_eq_true_2 in Hu.
  - apply (find_None_all _ _ _ Hfind) in Hu. unfold Sql.same_account in Hu.
    rewrite (bool_decide_eq_true_2 (Sql.username u = _)) in Hu by done.
    by rewrite orb_true_r in Hu.
Qed.


(** X21. Once an admin has switched an account off, nobody logs in with
    its email: the login route sends no token, and answers 401 when the
    request is well-formed and the lookup goes through. *)
Theorem sql_deactivated_user_cannot_login f f' clk d userId d' body :
  Sql.setUserActive f clk d userId false = (Sent 200 (), d') →
  (∀ u, u ∈ Sql.users d → Sql.email u = Sql.normalizeEmail (Sql.l_email body) →
        Sql.u_id u = userId) →
  payload (Sql.login f' d' body) = None
  ∧ (Sql.isEmail (Sql.l_email body) = true →
     (6 ≤ String.length (Sql.l_password body))%nat → f' 0%nat = false →
     Sql.login f' d' body = Failed 401 "Invalid email or password").
Proof.
  unfold Sql.setUserActive. destruct (f 0%nat); [done|]. intros [= <-] Honly.
  assert (find (λ u, bool_decide (Sql.email u = Sql.normalizeEmail (Sql.l_email body))
                     && Sql.is_active u)
               ((λ u, if bool_decide (Sql.u_id u = userId)
                      then Sql.with_active clk false u else u) <$> Sql.users d) = None)
    as Hnone.
  { apply find_all_false. intros v (u & -> & Hu)%list_elem_of_fmap.
    destruct (decide (Sql.u_id u = userId)) as [Hu'|Hu'].
    - rewrite (bool_decide_eq_true_2 _ Hu'). simpl. apply andb_false_r.
    - rewrite (bool_decide_eq_false_2 _ Hu').
      rewrite bool_decide_eq_false_2; [done|]. intros He. by apply Hu', Honly. }
  unfold Sql.login. cbv zeta. cbn [Sql.users Sql.set_users]. rewrite Hnone. split.
  - destruct (negb _); [done|]. by destruct (f' 0%nat).
  - intros -> Hlen%Nat.leb_le ->. by rewrite Hlen.
Qed.

(** X22. After POST /auth/change-password went through, the caller logs
    in with the new password. *)
Theorem sql_change_password_then_login f f' clk d c body d' u e :
  (∀ p, Sql.bcrypt_compare p (Sql.bcrypt_hash p) = true) →
  users_unique (Sql.users d) →
  u ∈ Sql.users d → Sql.u_id u = Sql.c_id c → Sql.is_active u = true →
  Sql.isEmail e = true → Sql.normalizeEmail e = Sql.email u →
  Sql.changePassword f clk d c body = (Sent 200 (), d') →
  f' 0%nat = false →
  ∃ tok o,
    Sql.login f' d' {| Sql.l_email := e; Sql.l_password := Sql.pw_newPassword body |}
    = Sent 200 (tok, o)
    ∧ o !! "email" = Some (JStr (Sql.email u)).
Proof.
  intros Hbc (Hid & Hem & Hun) Hu Huid Hact He Hnorm. unfold Sql.changePassword.
  destruct (negb _) eqn:Hv; [done|].
  apply negb_false_iff, andb_prop in Hv as [_ Hlen].
  destruct (f 0%nat); [done|].
  destruct (find _ _) as [user|]; [|done].
  destruct (negb _); [done|]. cbv zeta.
  destruct (f 1%nat); [done|]. intros [= <-] Hf'.
  unfold Sql.login. cbn [Sql.l_email Sql.l_password Sql.users Sql.set_users].
  rewrite He, Hlen, Hf', Hnorm. cbn [negb andb].
  set (g := λ u0, if bool_decide (Sql.u_id u0 = Sql.c_id c)
                  then Sql.with_password_hash clk
                         (Sql.bcrypt_hash (Sql.pw_newPassword body)) u0
                  else u0).
  assert (∀ w, Sql.email (g w) = Sql.email w) as Hge.
  { intros w. unfold g. by case_bool_decide. }
  assert (g u = Sql.with_password_hash clk (Sql.bcrypt_hash (Sql.pw_newPassword body)) u)
    as Hgu.
  { unfold g. by rewrite bool_decide_eq_true_2. }
  rewrite (find_unique _ _ (g u)).
  - rewrite Hgu. simpl. rewrite Hbc. simpl. eexists _, _. split; [done|].
    unfold Sql.user_obj. simpl. rewrite lookup_delete_ne by done.
    by vm_compute.
  - apply list_elem_of_fmap. eauto.
  - rewrite Hge, bool_decide_eq_true_2 by done. by rewrite Hgu.
  - intros y (w & -> & Hw)%list_elem_of_fmap [Hy _]%andb_prop.
    apply bool_decide_eq_true in Hy. rewrite Hge in Hy.
    by rewrite (NoDup_fmap_eq Sql.email (Sql.users d) w u Hem Hw Hu Hy).
Qed.

End Sql_accounts.

Lemma db0_users_unique : users_unique (Sql.users Demo.db0).
Proof. split_and!; by apply (bool_decide_unpack _); vm_compute. Defined.

Lemma lib_compare_after_hash p :
  @Sql.bcrypt_compare Demo.lib p (@Sql.bcrypt_hash Demo.lib p) = true.
Proof. by apply bool_decide_eq_true_2. Defined.

Lemma sql_register_keeps_users_unique_witness :
  users_unique
    (Sql.users (@Sql.register Demo.lib Sql.no_faults Demo.tick Demo.db0 Demo.sql_signup_new).2).
Proof.
  exact (@sql_register_keeps_users_unique Demo.lib Sql.no_faults Demo.tick Demo.db0
           Demo.sql_signup_new _ _ db0_users_unique eq_refl).
Defined.


Lemma sql_deactivated_user_cannot_login_witness :
  @Sql.login Demo.lib Sql.no_faults
    (Sql.setUserActive Sql.no_faults Demo.tock Demo.db0 1 false).2 Demo.alice_login
  = Failed 401 "Invalid email or password".
Proof.
  apply (proj2 (@sql_deactivated_user_cannot_login Demo.lib Sql.no_faults Sql.no_faults
                  Demo.tock Demo.db0 1 _ Demo.alice_login eq_refl
                  ltac:(intros u Hu He; repeat (apply elem_of_cons in Hu as [->|Hu]);
                        [reflexivity | discriminate He | by apply elem_of_nil in Hu]))).
  - reflexivity.
  - simpl. lia.
  - reflexivity.
Defined.

Lemma sql_change_password_then_login_witness :
  ∃ tok o,
    @Sql.login Demo.lib Sql.no_faults
      (@Sql.changePassword Demo.lib Sql.no_faults Demo.tock Demo.db0 Demo.as_alice
         Demo.alice_new_password).2
      {| Sql.l_email := "alice@example.com"; Sql.l_password := "hunter22" |}
    = Sent 200 (tok, o)
    ∧ o !! "email" = Some (JStr "alice@example.com").
Proof.
  apply (@sql_change_password_then_login Demo.lib Sql.no_faults Sql.no_faults Demo.tock
           Demo.db0 Demo.as_alice Demo.alice_new_password _ Demo.alice "alice@example.com"
           lib_compare_after_hash db0_users_unique).
  - by left.
  - reflexivity.
  - reflexivity.
  - reflexivity.
  - reflexivity.
  - reflexivity.
  - reflexivity.
Defined.

(** ** The menu and the receipts of the database backend *)

Section Sql_menu.
Context `{Sql.Externals}.

(** X23. Toggling the availability of an item twice gives every menu row
    its columns back, the time stamp apart, and touches no other table. *)
Theorem sql_toggle_twice_restores f1 f2 clk1 clk2 d itemId d1 d2 :
  Sql.toggleAvailability f1 clk1 d itemId = (Sent 200 (), d1) →
  Sql.toggleAvailability f2 clk2 d1 itemId = (Sent 200 (), d2) →
  Forall2 same_but_stamp (Sql.menu_items d) (Sql.menu_items d2)
  ∧ Sql.users d2 = Sql.users d
  ∧ Sql.bookings d2 = Sql.bookings d
  ∧ Sql.booking_items d2 = Sql.booking_items d
  ∧ Sql.receipts d2 = Sql.receipts d.
Proof.
  unfold Sql.toggleAvailability.
  destruct (f1 0%nat); [done|]. intros [= <-].
  destruct (f2 0%nat); [done|]. intros [= <-]. simpl. split_and!; try done.
  rewrite <- list_fmap_compose. apply Forall2_fmap_r, Forall_Forall2_diag, Forall_forall.
  intros m _. simpl. unfold same_but_stamp.
  destruct (decide (Sql.mi_id m = itemId)) as [Hm|Hm].
  - rewrite (bool_decide_eq_true_2 _ Hm). simpl.
    rewrite (bool_decide_eq_true_2 _ Hm). simpl. by rewrite negb_involutive.
  - rewrite (bool_decide_eq_false_2 _ Hm). by rewrite (bool_decide_eq_false_2 _ Hm).
Qed.

(** X24. An item that an admin has switched off cannot be booked: a
    booking request with a line for it is turned down (400 when the
    database calls go through) and writes nothing. *)
Theorem sql_switched_off_item_is_not_bookable f f' clk clk' rnd d item d1 c body l r d2 :
  (∀ m, m ∈ Sql.menu_items d → Sql.mi_id m = item → Sql.is_available m = true) →
  Sql.toggleAvailability f clk d item = (Sent 200 (), d1) →
  l ∈ Sql.menuItems body → itemId l = item →
  Sql.createBooking f' clk' rnd d1 c body = (r, d2) →
  d2 = d1 ∧ payload r = None ∧ ((∀ j, f' j = false) → status r = 400).
Proof.
  intros Hon. unfold Sql.toggleAvailability.
  destruct (f 0%nat); [done|]. intros [= <-] Hl Hid.
  apply (sql_rejects_unresolved_line f' clk' rnd _ c body l r d2 Hl).
  intros m (m0 & -> & Hm0)%list_elem_of_fmap. simpl in *.
  destruct (decide (Sql.mi_id m0 = item)) as [Hm|Hm].
  - rewrite (bool_decide_eq_true_2 _ Hm). simpl. intros _. by rewrite (Hon m0 Hm0 Hm).
  - rewrite (bool_decide_eq_false_2 _ Hm). intros Heq. destruct Hm. congruence.
Qed.

(** X25. A menu item that POST /menu has created is read back by
    GET /menu/:id under the id of the response, with the name, category,
    price and availability of the response; the id is new, and every
    item that could be read before is read as before. *)
Theorem sql_created_menu_item_is_readable f f' clk d body item d' :
  Sql.createMenuItem f clk d body = (Sent 201 item, d') →
  f' 0%nat = false →
  (∃ row, Sql.getMenuItem f' d' (Sql.ci_id item) = Sent 200 row
          ∧ Sql.item_name row = Sql.ci_itemName item
          ∧ Sql.mi_category row = Sql.ci_category item
          ∧ Sql.price_per_serving row = Sql.ci_pricePerServing item
          ∧ Sql.is_available row = Sql.ci_isAvailable item
          ∧ (num 0 ≤ Sql.price_per_serving row)%Qc)
  ∧ (∀ m, m ∈ Sql.menu_items d → Sql.mi_id m ≠ Sql.ci_id item)
  ∧ (∀ id m, Sql.getMenuItem f' d id = Sent 200 m → Sql.getMenuItem f' d' id = Sent 200 m).
Proof.
  unfold Sql.createMenuItem.
  destruct (negb _) eqn:Hv; [done|].
  apply negb_false_iff in Hv. unfold Sql.menu_body_valid in Hv.
  apply andb_prop in Hv as [Hv _]. apply andb_prop in Hv as [_ Hprice].
  apply bool_decide_eq_true in Hprice. cbv zeta.
  destruct (f 0%nat); [done|]. intros [= <- <-] Hf'.
  assert (∀ m, m ∈ Sql.menu_items d → Sql.mi_id m ≠ Sql.lastID Sql.mi_id (Sql.menu_items d))
    as Hnew.
  { intros m Hm. apply (lastID_above Sql.mi_id) in Hm. lia. }
  unfold Sql.getMenuItem. rewrite Hf'. simpl. split_and!.
  - rewrite find_app_split, find_all_false.
    2: { intros m Hm. apply bool_decide_eq_false. by apply Hnew. }
    simpl. rewrite bool_decide_eq_true_2 by done. eexists. by split_and!.
  - done.
  - intros id m. rewrite find_app_split.
    destruct (find _ (Sql.menu_items d)); [done|]. done.
Qed.

(** X26. PATCH /receipts/:id/payment-status changes nothing but the
    payment_status column of receipts: every other column of every
    receipt row and every other table stay as they are.  When it answers
    200, the status is one of pending, paid, failed and refunded and every
    receipt row with the id has it; a customer who owns none of the
    bookings behind the receipt changes nothing. *)
Theorem sql_payment_status_touches_status_only f d c receiptId st r d' :
  Sql.updatePaymentStatus f d c receiptId st = (r, d') →
  Sql.users d' = Sql.users d
  ∧ Sql.menu_items d' = Sql.menu_items d
  ∧ Sql.bookings d' = Sql.bookings d
  ∧ Sql.booking_items d' = Sql.booking_items d
  ∧ Forall2 (λ r0 r1 : Sql.receipt_row, ∀ k, k ≠ "payment_status" → r1 !! k = r0 !! k)
      (Sql.receipts d) (Sql.receipts d')
  ∧ (payload r = Some () →
     st ∈ ["pending"; "paid"; "failed"; "refunded"]
     ∧ ∀ r1, r1 ∈ Sql.receipts d' → r1 !! "id" = Some (Sql.SInt receiptId) →
             r1 !! "payment_status" = Some (Sql.SText st))
  ∧ (Sql.isAdmin c = false →
     (∀ o, o ∈ Sql.receipt_owners d receiptId → o ≠ Sql.c_id c) →
     d' = d ∧ payload r = None).
Proof.
  assert (Forall2 (λ r0 r1 : Sql.receipt_row, ∀ k, k ≠ "payment_status" → r1 !! k = r0 !! k)
            (Sql.receipts d) (Sql.receipts d)) as Hsame.
  { by apply Forall_Forall2_diag, Forall_forall. }
  unfold Sql.updatePaymentStatus, Sql.payment_status_valid.
  destruct (bool_decide (st ∈ _)) eqn:Hst; simpl; [|by intros [= <- <-]].
  apply bool_decide_eq_true in Hst.
  destruct (f 0%nat); [by intros [= <- <-]|].
  destruct (head _) as [owner|] eqn:Hhead; [|by intros [= <- <-]].
  apply head_Some_elem_of in Hhead.
  destruct (negb (Sql.isAdmin c) && _) eqn:Hden; [by intros [= <- <-]|].
  destruct (f 1%nat); intros [= <- <-]; simpl.
  - by split_and!.
  - split_and!; try done.
    + apply Forall2_fmap_r, Forall_Forall2_diag, Forall_forall. intros r0 _ k Hk.
      destruct (bool_decide (r0 !! "id" = _)); [|done]. by rewrite lookup_insert_ne.
    + intros _. split; [done|].
      intros r1 (r0 & -> & _)%list_elem_of_fmap.
      destruct (bool_decide (r0 !! "id" = _)) eqn:Hr0; [by rewrite lookup_insert_eq|].
      apply bool_decide_eq_false in Hr0. done.
    + intros Hadm Hown. rewrite Hadm in Hden. simpl in Hden.
      apply negb_false_iff, bool_decide_eq_true in Hden. by destruct (Hown owner Hhead).
Qed.

End Sql_menu.

Lemma sql_toggle_twice_restores_witness :
  Forall2 same_but_stamp (Sql.menu_items Demo.db0)
    (Sql.menu_items
       (Sql.toggleAvailability Sql.no_faults Demo.tock
          (Sql.toggleAvailability Sql.no_faults Demo.tick Demo.db0 1).2 1).2).
Proof.
  exact (proj1 (sql_toggle_twice_restores Sql.no_faults Sql.no_faults Demo.tick Demo.tock
                  Demo.db0 1 _ _ eq_refl eq_refl)).
Defined.

Lemma sql_switched_off_item_is_not_bookable_witness :
  status (@Sql.createBooking Demo.lib Sql.no_faults Demo.tock "AB12C"
            (Sql.toggleAvailability Sql.no_faults Demo.tick Demo.db0 1).2 Demo.as_alice
            (Demo.sql_order "2024-05-01" Demo.one_line)).1 = 400.
Proof.
  set (d1 := (Sql.toggleAvailability Sql.no_faults Demo.tick Demo.db0 1).2).
  set (res := @Sql.createBooking Demo.lib Sql.no_faults Demo.tock "AB12C" d1 Demo.as_alice
                (Demo.sql_order "2024-05-01" Demo.one_line)).
  refine (proj2 (proj2
    (@sql_switched_off_item_is_not_bookable Demo.lib Sql.no_faults Sql.no_faults
       Demo.tick Demo.tock "AB12C" Demo.db0 1 d1 Demo.as_alice
       (Demo.sql_order "2024-05-01" Demo.one_line) {| itemId := 1; quantity := 2 |}
       res.1 res.2 _ eq_refl _ eq_refl eq_refl)) _).
  - intros m Hm Hid. repeat (apply elem_of_cons in Hm as [->|Hm]).
    + reflexivity.
    + discriminate Hid.
    + by apply elem_of_nil in Hm.
  - by left.
  - reflexivity.
Defined.

Lemma sql_created_menu_item_is_readable_witness :
  ∃ item d' row,
    @Sql.createMenuItem Demo.lib Sql.no_faults Demo.tick Demo.db0 Demo.new_dish
    = (Sent 201 item, d')
    ∧ Sql.getMenuItem Sql.no_faults d' (Sql.ci_id item) = Sent 200 row
    ∧ Sql.item_name row = "Pancit".
Proof.
  destruct (@sql_created_menu_item_is_readable Demo.lib Sql.no_faults Sql.no_faults Demo.tick
              Demo.db0 Demo.new_dish _ _ eq_refl eq_refl)
    as [(row & Hget & Hname & _) _].
  eexists _, _, row. split; [reflexivity|]. split; [exact Hget | exact Hname].
Defined.

Lemma sql_payment_status_touches_status_only_witness :
  let d := (@Sql.generateReceipt Demo.lib Sql.no_faults Demo.tick "AAAAA" Demo.db_booked
              Demo.as_alice Demo.pay_default).2 in
  Sql.bookings (Sql.updatePaymentStatus Sql.no_faults d Demo.as_alice 1 "paid").2
  = Sql.bookings d.
Proof.
  intros d.
  exact (proj1 (proj2 (proj2
    (sql_payment_status_touches_status_only Sql.no_faults d Demo.as_alice 1 "paid" _ _
       eq_refl)))).
Defined.

(** ** The receipt system of the client *)

Section Client_receipts.

Lemma digit_of_pretty_N_char m :
  (m < 10)%N → digit_of (pretty_N_char m) = Some (Z.of_N m).
Proof.
  intros Hm.
  assert (m = 0 ∨ m = 1 ∨ m = 2 ∨ m = 3 ∨ m = 4 ∨ m = 5 ∨ m = 6 ∨ m = 7 ∨ m = 8 ∨ m = 9)%N
    as Hcases by lia.
  destruct_or!; subst m; reflexivity.
Qed.

Lemma parse_pretty_N_go x s acc :
  (0 < x)%N → default 0 acc = 0 →
  parse_digits acc (pretty_N_go x s) = parse_digits (Some (Z.of_N x)) s.
Proof.
  revert s acc. induction (N.lt_wf_0 x) as [x _ IH]. intros s acc Hx Hacc.
  rewrite pretty_N_go_step by done.
  pose proof (N.div_mod x 10 ltac:(lia)) as Hdm.
  pose proof (N.mod_lt x 10 ltac:(lia)) as Hlt.
  destruct (decide (x `div` 10 = 0)%N) as [Hd|Hd].
  - rewrite Hd, pretty_N_go_0. simpl. rewrite digit_of_pretty_N_char by done.
    rewrite Hacc. do 2 f_equal. lia.
  - rewrite (IH (x `div` 10)%N); [|apply N.div_lt; lia|lia|done].
    simpl. rewrite digit_of_pretty_N_char by done. do 2 f_equal. lia.
Qed.

Lemma parse_leading_zeros k acc s :
  default 0 acc = 0 →
  ∃ acc', default 0 acc' = 0
          ∧ parse_digits acc (Nat.iter k (String "0"%char) s) = parse_digits acc' s.
Proof.
  revert acc. induction k as [|k IH]; intros acc Hacc; simpl; [eauto|].
  change (digit_of "0"%char) with (Some 0). apply IH. simpl. by rewrite Hacc.
Qed.

Lemma receipt_number_parses n :
  0 ≤ n → parseInt (drop_first ("R" +:+ padStart 6 "0"%char (pretty n))) = Some n.
Proof.
  intros Hn. unfold parseInt, padStart.
  change (drop_first ("R" +:+ ?x)) with x.
  destruct (parse_leading_zeros (6 - String.length (pretty n)) None (pretty n) eq_refl)
    as (acc' & Hacc' & ->).
  destruct n as [|p|p]; [| |lia].
  - change (pretty 0) with "0". simpl.
    change (digit_of "0"%char) with (Some 0). by rewrite Hacc'.
  - change (pretty (Z.pos p)) with (pretty_N_go (N.pos p) "").
    rewrite parse_pretty_N_go by (done || lia). done.
Qed.


(** X28. On receipts that the JSON server has numbered, the client counts
    on from the server: its next number is the number of receipts plus
    one, the [id] the server gives to its next receipt. *)
Theorem client_counter_follows_server_numbers (rs : list Simple.Receipt) :
  numbered rs →
  Client.getNextReceiptNumber (Simple.receiptNumber <$> rs) = Z.of_nat (length rs) + 1.
Proof.
  unfold Client.getNextReceiptNumber, Client.maxNumber.
  induction rs as [|r rs IH] using rev_ind; intros Hn; [done|].
  assert (numbered rs) as Hrs.
  { intros i r0 Hi. apply Hn. by apply lookup_app_l_Some. }
  specialize (IH Hrs).
  destruct (Hn (length rs) r) as [Hid Hnum]; [by apply list_lookup_middle|].
  rewrite fmap_app, foldl_app. cbn [fmap list_fmap foldl].
  rewrite Hnum, receipt_number_parses by lia.
  rewrite length_app. simpl.
  case_match eqn:Hlt; [lia|]. apply Z.ltb_ge in Hlt. lia.
Qed.

(** X29. The subtotal that the client computes from its cart is the
    total that the JSON server stores for the booking made from that
    cart, when the cart shows the prices of the menu. *)
Theorem client_subtotal_is_booking_total ok clk fs body cart b fs' :
  priced_from (Simple.menu_json fs) cart →
  Simple.menuItems body = Some (Client.to_lines cart) →
  Simple.createBooking ok clk fs body = (Sent 201 b, fs') →
  Simple.totalAmount b = Client.calculateSubtotal cart.
Proof.
  intros Hpr Hlines. unfold Simple.createBooking.
  destruct (Simple.missing_required body); [done|].
  destruct (existsb _ _); [done|].
  rewrite Hlines. simpl.
  destruct (Simple.price_lines _ _ _) as [[total lines]|] eqn:Hp; [|done].
  intros [= <- _]. simpl. unfold Client.calculateSubtotal.
  clear Hlines. revert Hpr total lines Hp. generalize (num 0).
  induction cart as [|it cart IH]; intros t0 Hpr total lines; simpl.
  - by intros [= <- _].
  - apply Forall_cons in Hpr as [Hit Hpr].
    destruct (find _ _) as [m|] eqn:Hm; [|done].
    apply (find_bool_decide_Some (λ m, Simple.m_id m = Client.ct_id it)) in Hm as [Hin Hid].
    rewrite (Hit m Hin Hid).
    destruct (Simple.price_lines _ _ _) as [[t' lines']|] eqn:Hrec; [|done].
    intros [= <- _]. by eapply IH.
Qed.


End Client_receipts.


Lemma client_counter_follows_server_numbers_witness :
  Client.getNextReceiptNumber
    (Simple.receiptNumber
       <$> Simple.receipts_json
             (Simple.generateReceipt true Demo.tick Demo.files_booked Demo.pay_now).2)
  = 2.
Proof.
  apply (client_counter_follows_server_numbers
           (Simple.receipts_json
              (Simple.generateReceipt true Demo.tick Demo.files_booked Demo.pay_now).2)).
  intros [|i] r Hi; [|done].
  injection Hi as <-. split; reflexivity.
Defined.

Lemma client_subtotal_is_booking_total_witness :
  ∃ b fs',
    Simple.createBooking true Demo.tick Demo.files0
      (Demo.order "2024-05-01" (Client.to_lines Demo.cart)) = (Sent 201 b, fs')
    ∧ Simple.totalAmount b = Client.calculateSubtotal Demo.cart.
Proof.
  eexists _, _. split; [reflexivity|].
  eapply (client_subtotal_is_booking_total true Demo.tick Demo.files0
            (Demo.order "2024-05-01" (Client.to_lines Demo.cart)) Demo.cart).
  - repeat constructor; intros m Hm Hid;
      repeat (apply elem_of_cons in Hm as [->|Hm]);
      try reflexivity; try discriminate Hid; by apply elem_of_nil in Hm.
  - reflexivity.
  - reflexivity.
Defined.

